(** * Query / retrieval pipeline: document filter, citation builder, query engine

    A shallow embedding of
      - backend/app/models/schemas.py        (DocumentChunk, Citation, ...)
      - backend/app/core/document_filter.py  (DocumentFilter)
      - backend/app/core/citation_builder.py (CitationBuilder)
      - backend/app/core/query_engine.py     (QueryEngine)
    followed by the properties of the specification that concern them.

    Conventions of the embedding.
      - A Python [str] is a [string]; its characters are the elements of the
        string, [len] is [String.length], [s[:n]] is [substring 0 n s], and
        [<] on strings is the lexicographic [String.ltb].
      - A Python [int] is a [Z].  A [float] stored in a value or in a schema
        field is the rational it denotes (a [Q]); there the infinities and
        the not-a-number float have no counterpart.  The comparison of a
        score with a threshold and the quotient of two ints are modelled on
        all floats: see [pyfloat] and [int_truediv].
      - A value of type [Any] (metadata values, filter values) is a [pyval].
      - A [dict] with string keys is an association list in insertion order.
      - A call that may raise returns a [result]. *)

From Stdlib Require Import ZArith QArith Qround String Ascii List Lia.
From stdpp Require Import base list strings pretty.

Set Warnings "-register-all".

Local Open Scope string_scope.
Local Open Scope Z_scope.

(** ** Exceptions *)

Inductive exn : Type :=
| TypeError
| IndexError
| AttributeError
| ServiceError (msg : string).

Inductive result (A : Type) : Type :=
| Ok (a : A)
| Raise (e : exn).

Arguments Ok {A} a.
Arguments Raise {A} e.

Definition rbind {A B : Type} (m : result A) (k : A -> result B) : result B :=
  match m with
  | Ok a => k a
  | Raise e => Raise e
  end.

Notation "'do' x <- m ; k" := (rbind m (fun x => k))
  (at level 10, x name, m at level 100, k at level 200,
   format "'[v' 'do'  x  <-  m ; '/' k ']'").

Definition returns {A : Type} (m : result A) : Prop := exists a, m = Ok a.

(** ** Python values *)

Inductive pyval : Type :=
| PNone
| PBool (b : bool)
| PInt (z : Z)
| PFloat (q : Q)
| PStr (s : string)
| PList (l : list pyval)
| PDict (d : list (string * pyval)).

Definition dict : Type := list (string * pyval).

(** [d.get(k)] as an option, [k in d], [d.get(k)] and [d.get(k, dflt)]. *)
Fixpoint dict_lookup (d : dict) (k : string) : option pyval :=
  match d with
  | [] => None
  | (k', v) :: d' => if String.eqb k' k then Some v else dict_lookup d' k
  end.

Definition dict_mem (k : string) (d : dict) : bool :=
  match dict_lookup d k with Some _ => true | None => false end.

Definition dict_get_or (d : dict) (k : string) (dflt : pyval) : pyval :=
  match dict_lookup d k with Some v => v | None => dflt end.

Definition dict_get (d : dict) (k : string) : pyval := dict_get_or d k PNone.

(** [isinstance(v, (int, float))]: [bool] is a subclass of [int]. *)
Definition as_number (v : pyval) : option Q :=
  match v with
  | PBool b => Some (if b then 1%Q else 0%Q)
  | PInt z => Some (inject_Z z)
  | PFloat q => Some q
  | _ => None
  end.

Definition is_number (v : pyval) : bool :=
  match as_number v with Some _ => true | None => false end.

Definition number_of (v : pyval) : Q :=
  match as_number v with Some q => q | None => 0%Q end.

(** [isinstance(v, dict)] and [isinstance(v, list)], with the payloads. *)
Definition is_dict (v : pyval) : bool :=
  match v with PDict _ => true | _ => false end.

Definition dict_of (v : pyval) : dict :=
  match v with PDict d => d | _ => [] end.

Definition is_list (v : pyval) : bool :=
  match v with PList _ => true | _ => false end.

Definition list_of (v : pyval) : list pyval :=
  match v with PList l => l | _ => [] end.

Definition Qlt_bool (x y : Q) : bool := negb (Qle_bool y x).

(** ** Floats *)

(** A float: a number, an infinity or not-a-number. *)
Inductive pyfloat : Type :=
| Finite (q : Q)
| Infinity (negative : bool)
| NaN.

(** [x < y] and [x >= y] on floats: both are false as soon as one side is
    not-a-number. *)
Definition float_lt (x y : pyfloat) : bool :=
  match x, y with
  | NaN, _ | _, NaN => false
  | Finite a, Finite b => Qlt_bool a b
  | Finite _, Infinity negative => negb negative
  | Infinity negative, Finite _ => negative
  | Infinity negative, Infinity negative' => negative && negb negative'
  end.

Definition float_ge (x y : pyfloat) : bool :=
  match x, y with
  | NaN, _ | _, NaN => false
  | Finite a, Finite b => Qle_bool b a
  | Finite _, Infinity negative => negative
  | Infinity negative, Finite _ => negb negative
  | Infinity negative, Infinity negative' => negb negative || negative'
  end.

(** [a / b] on two ints is the double nearest to the quotient (IEEE 754
    binary64, a tie going to the even significand): a double has 53
    significant bits, so that for a quotient between [2^e] and [2^(e+1)]
    the doubles are the multiples of [2^(e-52)], and below [2^-1022] they
    are the multiples of [2^-1074]. *)

(** The integer nearest to [num / den], for a positive [den]; a tie goes to
    the even one. *)
Definition round_half_even (num den : Z) : Z :=
  let f := num / den in
  match 2 * (num mod den) ?= den with
  | Lt => f
  | Eq => if Z.even f then f else f + 1
  | Gt => f + 1
  end.

(** [2^e <= a / b], for positive [a] and [b]. *)
Definition pow2_le (e a b : Z) : bool :=
  if 0 <=? e then b * 2 ^ e <=? a else b <=? a * 2 ^ (- e).

(** The exponent [e] of the quotient of two positive ints:
    [2^e <= a / b < 2^(e+1)]. *)
Definition exponent (a b : Z) : Z :=
  let e := Z.log2 a - Z.log2 b in
  if pow2_le e a b then e else e - 1.

(** The double nearest to [a / b], for positive [a] and [b]. *)
Definition nearest_double (a b : Z) : Q :=
  let shift := Z.max (exponent a b) (-1022) - 52 in
  if (0 <=? shift)%Z then
    inject_Z (round_half_even a (b * 2 ^ shift) * 2 ^ shift)
  else
    (inject_Z (round_half_even (a * 2 ^ (- shift)) b)
     / inject_Z (2 ^ (- shift)))%Q.

(** [a / b] for two ints, [b] not 0.  A quotient of [2^1024] or more raises
    [OverflowError]; that case is left out: the one division of the program
    has the length of a list as its numerator. *)
Definition int_truediv (a b : Z) : Q :=
  match (Z.sgn a * Z.sgn b)%Z with
  | 0%Z => 0%Q
  | Z.pos _ => nearest_double (Z.abs a) (Z.abs b)
  | Z.neg _ => (- nearest_double (Z.abs a) (Z.abs b))%Q
  end.

(** Truth value of an object, as tested by [if v] and [not v]. *)
Definition truthy (v : pyval) : bool :=
  match v with
  | PNone => false
  | PBool b => b
  | PInt z => negb (z =? 0)
  | PFloat q => negb (Qeq_bool q 0)
  | PStr s => negb (String.eqb s "")
  | PList l => match l with [] => false | _ => true end
  | PDict d => match d with [] => false | _ => true end
  end.

(** [a == b].  Numbers compare by value across [bool], [int] and [float];
    lists pointwise; dicts as finite maps, whatever the insertion order. *)
Fixpoint py_eq (a b : pyval) : bool :=
  match a, b with
  | PNone, PNone => true
  | PStr s, PStr t => String.eqb s t
  | PList l, PList m =>
      (fix go (l m : list pyval) : bool :=
         match l, m with
         | [], [] => true
         | x :: l', y :: m' => py_eq x y && go l' m'
         | _, _ => false
         end) l m
  | PDict d, PDict e =>
      Nat.eqb (length d) (length e) &&
      (fix all (d : list (string * pyval)) : bool :=
         match d with
         | [] => true
         | (k, v) :: d' =>
             match dict_lookup e k with
             | Some w => py_eq v w
             | None => false
             end && all d'
         end) d
  | _, _ =>
      match as_number a, as_number b with
      | Some x, Some y => Qeq_bool x y
      | _, _ => false
      end
  end.

(** [x in l] for a list [l]. *)
Definition py_in (x : pyval) (l : list pyval) : bool := existsb (py_eq x) l.

(** [a < b].  Strings are ordered lexicographically, numbers by value, lists
    by their first differing element; any other pair raises [TypeError]. *)
Fixpoint py_lt (a b : pyval) : result bool :=
  match a, b with
  | PStr s, PStr t => Ok (String.ltb s t)
  | PList l, PList m =>
      (fix go (l m : list pyval) : result bool :=
         match l, m with
         | [], [] => Ok false
         | [], _ :: _ => Ok true
         | _ :: _, [] => Ok false
         | x :: l', y :: m' => if py_eq x y then go l' m' else py_lt x y
         end) l m
  | _, _ =>
      match as_number a, as_number b with
      | Some x, Some y => Ok (Qlt_bool x y)
      | _, _ => Raise TypeError
      end
  end.

(** [a > b] is the reflected comparison. *)
Definition py_gt (a b : pyval) : result bool := py_lt b a.

(** [for x in v]: lists yield their elements, strings their characters,
    dicts their keys; other values are not iterable. *)
Definition py_iter (v : pyval) : result (list pyval) :=
  match v with
  | PList l => Ok l
  | PStr s => Ok ((fun c => PStr (String c EmptyString)) <$> list_ascii_of_string s)
  | PDict d => Ok ((fun kv => PStr (fst kv)) <$> d)
  | _ => Raise TypeError
  end.

(** [l[idx]]: the index is an [int] (or a [bool]); a negative index counts
    from the end of the list; outside [-len(l) .. len(l)-1] the access raises
    [IndexError]. *)
Definition list_getitem {A : Type} (l : list A) (idx : pyval) : result A :=
  match idx with
  | PInt _ | PBool _ =>
      let n := Z.of_nat (length l) in
      let i := match idx with
               | PInt z => z
               | PBool b => if b then 1 else 0
               | _ => 0
               end in
      let i := if i <? 0 then i + n else i in
      if (i <? 0) || (n <=? i) then Raise IndexError
      else
        match l !! Z.to_nat i with
        | Some x => Ok x
        | None => Raise IndexError
        end
  | _ => Raise TypeError
  end.

(** Dicts whose keys are arbitrary hashable values, in insertion order:
    [d[k] = v] keeps the position of a key that is already there. *)
Definition hashable (v : pyval) : bool :=
  match v with
  | PList _ | PDict _ => false
  | _ => true
  end.

Fixpoint pydict_set {V : Type} (d : list (pyval * V)) (k : pyval) (v : V)
  : list (pyval * V) :=
  match d with
  | [] => [(k, v)]
  | (k', v') :: d' =>
      if py_eq k' k then (k', v) :: d' else (k', v') :: pydict_set d' k v
  end.

Definition setitem {V : Type} (d : list (pyval * V)) (k : pyval) (v : V)
  : result (list (pyval * V)) :=
  if hashable k then Ok (pydict_set d k v) else Raise TypeError.

(** [list(set(l))]: the members of [l] without repetition.  Python leaves the
    order unspecified; first occurrences are kept here. *)
Fixpoint dedup (l : list pyval) : list pyval :=
  match l with
  | [] => []
  | x :: l' => x :: List.filter (fun y => negb (py_eq x y)) (dedup l')
  end.

Definition list_of_set (l : list pyval) : result (list pyval) :=
  if forallb hashable l then Ok (dedup l) else Raise TypeError.

(** [needle in hay] for two strings. *)
Fixpoint contains (needle hay : string) : bool :=
  String.prefix needle hay ||
  match hay with
  | EmptyString => false
  | String _ hay' => contains needle hay'
  end.

(** [l[start:stop]]: a negative bound counts from the end, and both bounds
    are clipped to the list. *)
Definition slice_bound (n i : Z) : Z :=
  if i <? 0 then Z.max (i + n) 0 else Z.min i n.

Definition py_slice {A : Type} (l : list A) (start stop : Z) : list A :=
  let n := Z.of_nat (length l) in
  let a := slice_bound n start in
  let b := slice_bound n stop in
  take (Z.to_nat (b - a)) (drop (Z.to_nat a) l).

(** [v.lower()] and [v.get(k, dflt)] on a value that has to be a string,
    respectively a dict. *)
Definition attr_get (v : pyval) (k : string) (dflt : pyval) : result pyval :=
  match v with
  | PDict d => Ok (dict_get_or d k dflt)
  | _ => Raise AttributeError
  end.

(** [x or dflt] for an optional string and an optional integer. *)
Definition nonempty (o : option string) : option string :=
  match o with
  | Some EmptyString | None => None
  | Some s => Some s
  end.

Definition str_or (o : option string) (dflt : string) : string :=
  default dflt (nonempty o).

Definition int_or (o : option Z) (dflt : Z) : Z :=
  match o with
  | Some 0 | None => dflt
  | Some z => z
  end.

(** ** schemas.py *)

Record DocumentChunk : Type := mkChunk {
  content : string;
  metadata : dict;
  similarity_score : Q
}.

(** ** document_filter.py *)

Module DocumentFilter.

Definition _check_date_range (chunk : DocumentChunk) (date_range : dict)
  : result bool :=
  let doc_date := dict_get (metadata chunk) "document_date" in
  if negb (truthy doc_date) then Ok true
  else
    let start_date := dict_get date_range "start" in
    let end_date := dict_get date_range "end" in
    do before <- (if truthy start_date then py_lt doc_date start_date
                  else Ok false);
    if before then Ok false
    else
      do after <- (if truthy end_date then py_gt doc_date end_date
                   else Ok false);
      if after then Ok false else Ok true.

Definition _check_metadata_filter (metadata_value filter_value : pyval)
  : bool :=
  match filter_value with
  | PList l => py_in metadata_value l
  | _ => py_eq metadata_value filter_value
  end.

(** The body of the [relevance_threshold] branch,
    [if chunk.similarity_score < value: return False], for a score and a
    [value] that are floats: [false] stands for the [return False].  The
    branch is taken for every float, not-a-number included, which no [pyval]
    and no [DocumentChunk] holds; [check_item] calls it with the numbers
    that the score of its chunk and its [value] denote. *)
Definition check_threshold (similarity_score value : pyfloat) : bool :=
  negb (float_lt similarity_score value).

(** One iteration of the loop over [filters.items()]: [Ok false] stands for
    the [return False] of the branch taken, [Ok true] for falling through to
    the next item. *)
Definition check_item (chunk : DocumentChunk) (key : string) (value : pyval)
  : result bool :=
  if String.eqb key "date_range" && is_dict value then
    _check_date_range chunk (dict_of value)
  else if String.eqb key "relevance_threshold" && is_number value then
    Ok (check_threshold (Finite (similarity_score chunk))
          (Finite (number_of value)))
  else if String.eqb key "document_ids" && is_list value then
    Ok (py_in (dict_get (metadata chunk) "doc_id") (list_of value))
  else if dict_mem key (metadata chunk) then
    Ok (_check_metadata_filter (dict_get (metadata chunk) key) value)
  else Ok true.

Fixpoint _should_include_chunk (chunk : DocumentChunk) (filters : dict)
  : result bool :=
  match filters with
  | [] => Ok true
  | (key, value) :: rest =>
      do pass <- check_item chunk key value;
      if pass then _should_include_chunk chunk rest else Ok false
  end.

Fixpoint filter_loop (chunks : list DocumentChunk) (filters : dict)
  : result (list DocumentChunk) :=
  match chunks with
  | [] => Ok []
  | chunk :: chunks' =>
      do keep <- _should_include_chunk chunk filters;
      do filtered_chunks <- filter_loop chunks' filters;
      Ok (if keep then chunk :: filtered_chunks else filtered_chunks)
  end.

(** [filters] is [None] or a dict; [not filters] holds for [None] and [{}]. *)
Definition apply_filters (chunks : list DocumentChunk)
    (filters : option dict) : result (list DocumentChunk) :=
  match filters with
  | None | Some [] => Ok chunks
  | Some f => filter_loop chunks f
  end.

End DocumentFilter.

(** ** schemas.py, continued: citations *)

Module Citation.
Record t : Type := mk {
  doc_id : pyval;
  document_name : pyval;
  page_number : pyval;
  paragraph_number : pyval;
  content_snippet : string;
  position_rect : pyval;
  start_offset : option Z;
  end_offset : option Z
}.
End Citation.

Module EmbeddingInfo.
Record t : Type := mk {
  vector_id : string;
  similarity_score : Q;
  dimension : Z;
  model_name : string
}.
End EmbeddingInfo.

(** [EnhancedCitation] extends [Citation] with one field. *)
Module EnhancedCitation.
Record t : Type := mk {
  base : Citation.t;
  embedding_info : option EmbeddingInfo.t
}.
End EnhancedCitation.

(** A scored result of the vector index: a point id (an integer or a string)
    and a score. *)
Inductive point_id : Type :=
| IdInt (n : Z)
| IdStr (s : string).

Definition str_of_id (i : point_id) : string :=
  match i with
  | IdInt n => pretty n
  | IdStr s => s
  end.

Module ScoredResult.
Record t : Type := mk {
  id : point_id;
  score : Q
}.
End ScoredResult.

(** ** citation_builder.py *)

Module CitationBuilder.

Definition _create_snippet (content : string) (max_length : nat) : string :=
  if (max_length <? String.length content)%nat
  then substring 0 max_length content ++ "..."
  else content.

(** [chunk.metadata.get("position", {}).get("rect")]: the second [get]
    needs a dict. *)
Definition position_rect_of (chunk : DocumentChunk) : result pyval :=
  match dict_lookup (metadata chunk) "position" with
  | None => Ok PNone
  | Some (PDict position) => Ok (dict_get position "rect")
  | Some _ => Raise AttributeError
  end.

(** The keyword arguments shared by both constructors. *)
Definition citation_of (chunk : DocumentChunk) : result Citation.t :=
  do rect <- position_rect_of chunk;
  Ok {| Citation.doc_id := dict_get_or (metadata chunk) "doc_id" (PStr "Unknown");
        Citation.document_name :=
          dict_get_or (metadata chunk) "filename" (PStr "Unknown");
        Citation.page_number := dict_get (metadata chunk) "page_number";
        Citation.paragraph_number :=
          dict_get (metadata chunk) "paragraph_number";
        Citation.content_snippet := _create_snippet (content chunk) 200;
        Citation.position_rect := rect;
        Citation.start_offset := None;
        Citation.end_offset := None |}.

Fixpoint create_basic_citations (chunks : list DocumentChunk)
  : result (list Citation.t) :=
  match chunks with
  | [] => Ok []
  | chunk :: chunks' =>
      do citation <- citation_of chunk;
      do citations <- create_basic_citations chunks';
      Ok (citation :: citations)
  end.

Definition embedding_info_of (result : ScoredResult.t) : EmbeddingInfo.t :=
  {| EmbeddingInfo.vector_id := str_of_id (ScoredResult.id result);
     EmbeddingInfo.similarity_score := ScoredResult.score result;
     EmbeddingInfo.dimension := 768;
     EmbeddingInfo.model_name := "embedding-model" |}.

(** The loop over [enumerate(chunks)], started at index [i]. *)
Fixpoint enhanced_loop (i : nat) (chunks : list DocumentChunk)
    (vector_results : list ScoredResult.t)
  : result (list EnhancedCitation.t) :=
  match chunks with
  | [] => Ok []
  | chunk :: chunks' =>
      let embedding_info :=
        if (i <? length vector_results)%nat
        then embedding_info_of <$> vector_results !! i
        else None in
      do citation <- citation_of chunk;
      do citations <- enhanced_loop (S i) chunks' vector_results;
      Ok ({| EnhancedCitation.base := citation;
             EnhancedCitation.embedding_info := embedding_info |}
          :: citations)
  end.

Definition create_enhanced_citations (chunks : list DocumentChunk)
    (vector_results : list ScoredResult.t)
  : result (list EnhancedCitation.t) :=
  enhanced_loop 0 chunks vector_results.

End CitationBuilder.

(** ** schemas.py, continued: responses *)

Module QueryResponse.
Record t : Type := mk {
  answers : list string;
  citations : list Citation.t;
  metadata : dict
}.
End QueryResponse.

Module EnhancedQueryResponse.
Record t : Type := mk {
  answers : list string;
  citations : list EnhancedCitation.t;
  metadata : dict
}.
End EnhancedQueryResponse.

Module ThemeResponse.
Record t : Type := mk {
  themes : list pyval;
  supporting_documents : list (pyval * list pyval);
  detailed_citations : list (pyval * list Citation.t);
  metadata : dict
}.
End ThemeResponse.

Module DocumentSearchRequest.
Record t : Type := mk {
  search_term : option string;
  filename_filter : option string;
  content_type_filter : option string;
  author_filter : option string;
  date_from : option string;
  date_to : option string;
  status_filter : option string;
  page_size : option Z;
  page_number : option Z;
  sort_by : option string;
  sort_order : option string
}.
End DocumentSearchRequest.

(** An entry of the document listing built by [search_documents]. *)
Module Document.
Record t : Type := mk {
  id : string;
  filename : pyval;
  status : pyval;
  upload_timestamp : pyval;
  metadata : pyval
}.
End Document.

(** The dict returned by [search_documents]. *)
Module DocumentSearchResult.
Record t : Type := mk {
  documents : list Document.t;
  total_count : Z;
  page_count : Z;
  current_page : Z;
  page_size : Z;
  filters_applied : dict
}.
End DocumentSearchResult.

(** ** The collaborators of the query engine *)

(** What [similarity_search] may hand back: an object with a [page_content]
    attribute (a LangChain document), an object with a [content] attribute
    only (an already converted chunk), or anything else. *)
Inductive retrieved : Type :=
| LangchainDocument (page_content : string) (doc_metadata : dict)
| ConvertedChunk (chunk : DocumentChunk)
| UnknownObject.

(** An entry of [get_chunks_by_document_id]: a dict whose keys ["content"],
    ["metadata"] and ["score"] may be missing. *)
Module ChunkData.
Record t : Type := mk {
  content : option string;
  metadata : option dict;
  score : option Q
}.
End ChunkData.

Module VectorStoreService.
Record t : Type := mk {
  similarity_search : string -> Z -> result (list retrieved);
  get_chunks_by_document_id : string -> result (list ChunkData.t);
  (** the ["documents"] entry of the listing, when there is one *)
  list_all_documents : result (option (list (string * dict)))
}.
End VectorStoreService.

Module LLMService.
Record t : Type := mk {
  answer_query : string -> string -> result string;
  (** each theme is a JSON object *)
  extract_themes : string -> result (list dict)
}.
End LLMService.

(** ** query_engine.py: the retrieval pipeline *)

Definition newline : string := String "010" EmptyString.

(** [sep.join(parts)] *)
Definition join (sep : string) (parts : list string) : string :=
  String.concat sep parts.

(** The value of an optional filter dict / id list inside a metadata dict. *)
Definition pyval_of_filters (filters : option dict) : pyval :=
  match filters with Some f => PDict f | None => PNone end.

Definition pyval_of_ids (ids : option (list string)) : pyval :=
  match ids with Some l => PList (PStr <$> l) | None => PNone end.

(** [if selected_document_ids]: neither [None] nor the empty list. *)
Definition ids_given (ids : option (list string)) : option (list string) :=
  match ids with
  | Some (_ :: _) => ids
  | _ => None
  end.

Module QueryEngine.

Record t : Type := mk {
  vector_store : VectorStoreService.t;
  llm_service : LLMService.t
}.

Fixpoint _convert_to_document_chunks (langchain_docs : list retrieved)
  : list DocumentChunk :=
  match langchain_docs with
  | [] => []
  | doc :: docs =>
      match doc with
      | LangchainDocument page_content doc_metadata =>
          {| content := page_content;
             metadata := doc_metadata;
             similarity_score := 0 |}
          :: _convert_to_document_chunks docs
      | ConvertedChunk chunk => chunk :: _convert_to_document_chunks docs
      | UnknownObject => _convert_to_document_chunks docs
      end
  end.

(** Step 2 of both query methods: keep the chunks of the selected
    documents, when a selection is given. *)
Definition select_documents (chunks : list DocumentChunk)
    (selected_document_ids : option (list string)) : list DocumentChunk :=
  match ids_given selected_document_ids with
  | Some ids =>
      List.filter
        (fun chunk => py_in (dict_get (metadata chunk) "doc_id")
                        (PStr <$> ids))
        chunks
  | None => chunks
  end.

Definition no_results_message
    (selected_document_ids : option (list string)) : string :=
  let message := "No relevant documents found matching the criteria." in
  match ids_given selected_document_ids with
  | Some ids =>
      message ++ " Search was limited to " ++ pretty (length ids)
              ++ " selected documents."
  | None => message
  end.

Definition empty_metadata (query : string) (filters : option dict)
    (selected_document_ids : option (list string)) : dict :=
  [ ("query", PStr query);
    ("filters", pyval_of_filters filters);
    ("selected_document_ids", pyval_of_ids selected_document_ids);
    ("total_results", PInt 0) ].

Definition found_metadata (query : string) (filters : option dict)
    (selected_document_ids : option (list string))
    (filtered_chunks : list DocumentChunk) : dict :=
  [ ("query", PStr query);
    ("filters", pyval_of_filters filters);
    ("selected_document_ids", pyval_of_ids selected_document_ids);
    ("total_results", PInt (Z.of_nat (length filtered_chunks)));
    ("documents_searched",
      match ids_given selected_document_ids with
      | Some ids => PInt (Z.of_nat (length ids))
      | None => PStr "all"
      end) ].

Definition build_context (filtered_chunks : list DocumentChunk) : string :=
  join (newline ++ newline) (content <$> filtered_chunks).

Definition process_query (self : t) (query : string)
    (filters : option dict) (selected_document_ids : option (list string))
  : result QueryResponse.t :=
  do raw_results <-
    VectorStoreService.similarity_search (vector_store self) query 10;
  let chunks := _convert_to_document_chunks raw_results in
  let chunks := select_documents chunks selected_document_ids in
  do filtered_chunks <- DocumentFilter.apply_filters chunks filters;
  match filtered_chunks with
  | [] =>
      Ok {| QueryResponse.answers :=
              [no_results_message selected_document_ids];
            QueryResponse.citations := [];
            QueryResponse.metadata :=
              empty_metadata query filters selected_document_ids |}
  | _ :: _ =>
      let context := build_context filtered_chunks in
      do answer <- LLMService.answer_query (llm_service self) query context;
      do citations <- CitationBuilder.create_basic_citations filtered_chunks;
      Ok {| QueryResponse.answers := [answer];
            QueryResponse.citations := citations;
            QueryResponse.metadata :=
              found_metadata query filters selected_document_ids
                filtered_chunks |}
  end.

Definition process_enhanced_query (self : t) (query : string)
    (filters : option dict) (selected_document_ids : option (list string))
  : result EnhancedQueryResponse.t :=
  do raw_results <-
    VectorStoreService.similarity_search (vector_store self) query 10;
  let chunks := _convert_to_document_chunks raw_results in
  let chunks := select_documents chunks selected_document_ids in
  do filtered_chunks <- DocumentFilter.apply_filters chunks filters;
  match filtered_chunks with
  | [] =>
      Ok {| EnhancedQueryResponse.answers :=
              [no_results_message selected_document_ids];
            EnhancedQueryResponse.citations := [];
            EnhancedQueryResponse.metadata :=
              empty_metadata query filters selected_document_ids |}
  | _ :: _ =>
      let context := build_context filtered_chunks in
      do answer <- LLMService.answer_query (llm_service self) query context;
      do enhanced_citations <-
        CitationBuilder.create_enhanced_citations filtered_chunks [];
      Ok {| EnhancedQueryResponse.answers := [answer];
            EnhancedQueryResponse.citations := enhanced_citations;
            EnhancedQueryResponse.metadata :=
              found_metadata query filters selected_document_ids
                filtered_chunks |}
  end.

(** *** Theme extraction *)

(** The loop [for idx in doc_indices: if idx < len(chunks): ...chunks[idx]]
    shared by the three entry points; it collects [theme_chunks]. *)
Fixpoint resolve_indices (chunks : list DocumentChunk)
    (doc_indices : list pyval) : result (list DocumentChunk) :=
  match doc_indices with
  | [] => Ok []
  | idx :: rest =>
      do below <- py_lt idx (PInt (Z.of_nat (length chunks)));
      if below then
        do chunk <- list_getitem chunks idx;
        do theme_chunks <- resolve_indices chunks rest;
        Ok (chunk :: theme_chunks)
      else resolve_indices chunks rest
  end.

(** [supporting_docs] holds the [doc_id] of every member of [theme_chunks],
    in the same order. *)
Definition supporting_docs_of (theme_chunks : list DocumentChunk)
  : list pyval :=
  (fun chunk => dict_get_or (metadata chunk) "doc_id" (PStr "Unknown"))
    <$> theme_chunks.

Definition theme_name_of (theme : dict) : pyval :=
  dict_get_or theme "theme_name" (PStr "").

Definition theme_chunks_of (chunks : list DocumentChunk) (theme : dict)
  : result (list DocumentChunk) :=
  do doc_indices <- py_iter (dict_get_or theme "document_indices" (PList []));
  resolve_indices chunks doc_indices.

Definition theme_tables : Type :=
  (list (pyval * list pyval) * list (pyval * list Citation.t))%type.

(** The loop [for theme in themes_data] of [extract_themes] and
    [extract_all_themes]; [finish] is what is done to [supporting_docs]
    before it is stored. *)
Fixpoint organize_themes (finish : list pyval -> result (list pyval))
    (chunks : list DocumentChunk) (themes_data : list dict)
    (tables : theme_tables) : result theme_tables :=
  match themes_data with
  | [] => Ok tables
  | theme :: rest =>
      let theme_name := theme_name_of theme in
      do theme_chunks <- theme_chunks_of chunks theme;
      do supporting_docs <- finish (supporting_docs_of theme_chunks);
      do supporting_documents <- setitem (fst tables) theme_name supporting_docs;
      do citations <- CitationBuilder.create_basic_citations theme_chunks;
      do detailed_citations <- setitem (snd tables) theme_name citations;
      organize_themes finish chunks rest
        (supporting_documents, detailed_citations)
  end.

Definition preview (label : string) (i : nat) (chunk : DocumentChunk)
  : string :=
  label ++ " " ++ pretty (i + 1)%nat ++ ": "
        ++ substring 0 500 (content chunk) ++ "...".

Definition build_documents_text (label : string)
    (chunks : list DocumentChunk) : string :=
  join (newline ++ newline) (imap (preview label) chunks).

Definition empty_themes (response_metadata : dict) : ThemeResponse.t :=
  {| ThemeResponse.themes := [];
     ThemeResponse.supporting_documents := [];
     ThemeResponse.detailed_citations := [];
     ThemeResponse.metadata := response_metadata |}.

Definition extract_themes (self : t) (query : string)
    (filters : option dict) : result ThemeResponse.t :=
  do raw_results <-
    VectorStoreService.similarity_search (vector_store self) query 20;
  let chunks := _convert_to_document_chunks raw_results in
  do filtered_chunks <- DocumentFilter.apply_filters chunks filters;
  match filtered_chunks with
  | [] =>
      Ok (empty_themes [ ("query", PStr query);
                         ("filters", pyval_of_filters filters);
                         ("total_results", PInt 0) ])
  | _ :: _ =>
      let documents_text := build_documents_text "Document" filtered_chunks in
      do themes_data <-
        LLMService.extract_themes (llm_service self) documents_text;
      let theme_names := theme_name_of <$> themes_data in
      do tables <- organize_themes Ok filtered_chunks themes_data ([], []);
      Ok {| ThemeResponse.themes := theme_names;
            ThemeResponse.supporting_documents := fst tables;
            ThemeResponse.detailed_citations := snd tables;
            ThemeResponse.metadata :=
              [ ("query", PStr query);
                ("filters", pyval_of_filters filters);
                ("total_results",
                  PInt (Z.of_nat (length filtered_chunks))) ] |}
  end.

(** [DocumentChunk(content=chunk_data.get("content", ""), ...)] *)
Definition chunk_of_data (chunk_data : ChunkData.t) : DocumentChunk :=
  {| content := default "" (ChunkData.content chunk_data);
     metadata := default [] (ChunkData.metadata chunk_data);
     similarity_score := default 0%Q (ChunkData.score chunk_data) |}.

(** [{theme_name: [document_id] for theme_name in theme_names}] *)
Fixpoint document_for_themes (document_id : string)
    (theme_names : list pyval) (acc : list (pyval * list pyval))
  : result (list (pyval * list pyval)) :=
  match theme_names with
  | [] => Ok acc
  | theme_name :: rest =>
      do acc' <- setitem acc theme_name [PStr document_id];
      document_for_themes document_id rest acc'
  end.

(** The loop [for theme in themes_data] of [extract_themes_for_document]. *)
Fixpoint cite_themes (chunks : list DocumentChunk)
    (themes_data : list dict)
    (detailed_citations : list (pyval * list Citation.t))
  : result (list (pyval * list Citation.t)) :=
  match themes_data with
  | [] => Ok detailed_citations
  | theme :: rest =>
      let theme_name := theme_name_of theme in
      do theme_chunks <- theme_chunks_of chunks theme;
      do citations <- CitationBuilder.create_basic_citations theme_chunks;
      do detailed_citations' <- setitem detailed_citations theme_name citations;
      cite_themes chunks rest detailed_citations'
  end.

Definition extract_themes_for_document (self : t) (document_id : string)
  : result ThemeResponse.t :=
  do raw_chunks <-
    VectorStoreService.get_chunks_by_document_id (vector_store self)
      document_id;
  let chunks := chunk_of_data <$> raw_chunks in
  match chunks with
  | [] =>
      Ok (empty_themes [ ("document_id", PStr document_id);
                         ("total_results", PInt 0) ])
  | _ :: _ =>
      let documents_text := build_documents_text "Chunk" chunks in
      do themes_data <-
        LLMService.extract_themes (llm_service self) documents_text;
      let theme_names := theme_name_of <$> themes_data in
      do supporting_documents <-
        document_for_themes document_id theme_names [];
      do detailed_citations <- cite_themes chunks themes_data [];
      Ok {| ThemeResponse.themes := theme_names;
            ThemeResponse.supporting_documents := supporting_documents;
            ThemeResponse.detailed_citations := detailed_citations;
            ThemeResponse.metadata :=
              [ ("document_id", PStr document_id);
                ("total_results", PInt (Z.of_nat (length chunks))) ] |}
  end.

(** The sampling loop of [extract_all_themes]: the first two chunks of each
    of the given documents. *)
Fixpoint sample (self : t) (doc_ids : list string)
  : result (list DocumentChunk) :=
  match doc_ids with
  | [] => Ok []
  | doc_id :: rest =>
      do raw_chunks <-
        VectorStoreService.get_chunks_by_document_id (vector_store self)
          doc_id;
      do sample_chunks <- sample self rest;
      Ok ((chunk_of_data <$> take 2 raw_chunks) ++ sample_chunks)%list
  end.

Definition extract_all_themes (self : t) : result ThemeResponse.t :=
  do all_docs <- VectorStoreService.list_all_documents (vector_store self);
  match all_docs with
  | None | Some [] => Ok (empty_themes [ ("total_results", PInt 0) ])
  | Some documents =>
      do sample_chunks <- sample self (take 10 (fst <$> documents));
      match sample_chunks with
      | [] => Ok (empty_themes [ ("total_results", PInt 0) ])
      | _ :: _ =>
          let documents_text :=
            build_documents_text "Document" sample_chunks in
          do themes_data <-
            LLMService.extract_themes (llm_service self) documents_text;
          let theme_names := theme_name_of <$> themes_data in
          do tables <-
            organize_themes list_of_set sample_chunks themes_data ([], []);
          Ok {| ThemeResponse.themes := theme_names;
                ThemeResponse.supporting_documents := fst tables;
                ThemeResponse.detailed_citations := snd tables;
                ThemeResponse.metadata :=
                  [ ("total_documents",
                      PInt (Z.of_nat (length documents)));
                    ("total_results",
                      PInt (Z.of_nat (length sample_chunks))) ] |}
      end
  end.

(** *** Document search, sort and pagination *)

Section SearchDocuments.

(** Library functions: [str.lower], [str], [datetime.strptime] (with
    [None] for [ValueError]) and the order of [datetime], and
    [list.sort(key=..., reverse=...)] applied to the elements paired with
    their keys. *)
Variable lower : string -> string.
Variable py_str : pyval -> string.
Variable datetime : Type.
Variable strptime : string -> string -> option datetime.
Variable datetime_lt : datetime -> datetime -> bool.
Variable list_sort :
  list (pyval * Document.t) -> bool -> result (list Document.t).

Definition str_lower (v : pyval) : result string :=
  match v with
  | PStr s => Ok (lower s)
  | _ => Raise AttributeError
  end.

Definition document_of (entry : string * dict) : Document.t :=
  let doc_data := snd entry in
  {| Document.id := fst entry;
     Document.filename := dict_get_or doc_data "filename" (PStr "Unknown");
     Document.status := dict_get_or doc_data "status" (PStr "completed");
     Document.upload_timestamp :=
       dict_get_or doc_data "upload_timestamp" (PStr "Unknown");
     Document.metadata := dict_get_or doc_data "metadata" (PDict []) |}.

(** A list comprehension [[doc for doc in docs if test(doc)]]. *)
Fixpoint keep_if (test : Document.t -> result bool)
    (docs : list Document.t) : result (list Document.t) :=
  match docs with
  | [] => Ok []
  | doc :: docs' =>
      do keep <- test doc;
      do kept <- keep_if test docs';
      Ok (if keep then doc :: kept else kept)
  end.

Definition matches_search_term (search_term : string) (doc : Document.t)
  : result bool :=
  do name <- str_lower (Document.filename doc);
  if contains search_term name then Ok true
  else
    do title <- attr_get (Document.metadata doc) "title" (PStr "");
    if contains search_term (lower (py_str title)) then Ok true
    else
      do author <- attr_get (Document.metadata doc) "author" (PStr "");
      Ok (contains search_term (lower (py_str author))).

Definition matches_filename (filename_pattern : string)
    (doc : Document.t) : result bool :=
  do name <- str_lower (Document.filename doc);
  Ok (contains filename_pattern name).

Definition matches_metadata (field pattern : string) (doc : Document.t)
  : result bool :=
  do value <- attr_get (Document.metadata doc) field (PStr "");
  Ok (contains pattern (lower (py_str value))).

Definition matches_status (status : string) (doc : Document.t)
  : result bool :=
  do doc_status <- str_lower (Document.status doc);
  Ok (contains status doc_status).

(** One optional substring filter: skipped when the request field is
    [None] or empty, recorded in [filters_applied] otherwise. *)
Definition substring_filter (field : option string) (name : string)
    (test : string -> Document.t -> result bool)
    (state : list Document.t * dict) : result (list Document.t * dict) :=
  match nonempty field with
  | Some pattern =>
      do kept <- keep_if (test (lower pattern)) (fst state);
      Ok (kept, (snd state ++ [(name, PStr pattern)])%list)
  | None => Ok state
  end.

Definition parse_date (date_str : pyval) : option datetime :=
  match date_str with
  | PStr s =>
      match strptime s "%Y-%m-%dT%H:%M:%S.%f" with
      | Some d => Some d
      | None =>
          match strptime s "%Y-%m-%d" with
          | Some d => Some d
          | None => strptime s "%Y-%m-%dT%H:%M:%S"
          end
      end
  | _ => None
  end.

Definition in_date_range (date_from date_to : option string)
    (doc : Document.t) : bool :=
  match parse_date (Document.upload_timestamp doc) with
  | Some doc_date =>
      let include :=
        match nonempty date_from with
        | Some from =>
            match parse_date (PStr from) with
            | Some from_date => negb (datetime_lt doc_date from_date)
            | None => true
            end
        | None => true
        end in
      if include then
        match nonempty date_to with
        | Some to =>
            match parse_date (PStr to) with
            | Some to_date => negb (datetime_lt to_date doc_date)
            | None => true
            end
        | None => true
        end
      else false
  | None => false
  end.

Definition date_filter (date_from date_to : option string)
    (state : list Document.t * dict) : list Document.t * dict :=
  match nonempty date_from, nonempty date_to with
  | None, None => state
  | from, to =>
      (List.filter (in_date_range date_from date_to) (fst state),
       (snd state
          ++ match from with Some d => [("date_from", PStr d)] | None => [] end
          ++ match to with Some d => [("date_to", PStr d)] | None => [] end)%list)
  end.

Definition get_sort_value (doc : Document.t) (sort_field : string)
  : result pyval :=
  if String.eqb sort_field "filename" then
    do name <- str_lower (Document.filename doc); Ok (PStr name)
  else if String.eqb sort_field "upload_timestamp" then
    Ok (Document.upload_timestamp doc)
  else if String.eqb sort_field "pages" then
    attr_get (Document.metadata doc) "pages" (PInt 0)
  else
    do name <- str_lower (Document.filename doc); Ok (PStr name).

Fixpoint with_keys (sort_field : string) (docs : list Document.t)
  : result (list (pyval * Document.t)) :=
  match docs with
  | [] => Ok []
  | doc :: docs' =>
      do key <- get_sort_value doc sort_field;
      do keyed <- with_keys sort_field docs';
      Ok ((key, doc) :: keyed)
  end.

(** Everything [search_documents] does before it paginates: the listing,
    the filters and the sort.  It yields the sorted [filtered_documents]
    and [filters_applied]. *)
Definition filter_and_sort (self : t)
    (search_request : DocumentSearchRequest.t)
  : result (list Document.t * dict) :=
  do all_docs_result <-
    VectorStoreService.list_all_documents (vector_store self);
  let all_documents := document_of <$> default [] all_docs_result in
  do state <-
    substring_filter (DocumentSearchRequest.search_term search_request)
      "search_term" matches_search_term (all_documents, []);
  do state <-
    substring_filter (DocumentSearchRequest.filename_filter search_request)
      "filename_filter" matches_filename state;
  do state <-
    substring_filter
      (DocumentSearchRequest.content_type_filter search_request)
      "content_type_filter" (matches_metadata "file_type") state;
  do state <-
    substring_filter (DocumentSearchRequest.author_filter search_request)
      "author_filter" (matches_metadata "author") state;
  do state <-
    substring_filter (DocumentSearchRequest.status_filter search_request)
      "status_filter" matches_status state;
  let state :=
    date_filter (DocumentSearchRequest.date_from search_request)
      (DocumentSearchRequest.date_to search_request) state in
  let sort_by :=
    str_or (DocumentSearchRequest.sort_by search_request)
      "upload_timestamp" in
  let sort_order :=
    str_or (DocumentSearchRequest.sort_order search_request) "desc" in
  do keyed <- with_keys sort_by (fst state);
  do filtered_documents <- list_sort keyed (String.eqb sort_order "desc");
  Ok (filtered_documents, snd state).

(** [math.ceil(total_count / page_size)]: the quotient is a float.
    [page_size] is not 0 here: [search_request.page_size or 50] is 50 in
    place of 0. *)
Definition ceil_div (total_count page_size : Z) : Z :=
  Qceiling (int_truediv total_count page_size).

Definition paginate (filtered_documents : list Document.t)
    (filters_applied : dict) (search_request : DocumentSearchRequest.t)
  : DocumentSearchResult.t :=
  let page_size :=
    int_or (DocumentSearchRequest.page_size search_request) 50 in
  let page_number :=
    int_or (DocumentSearchRequest.page_number search_request) 1 in
  let total_count := Z.of_nat (length filtered_documents) in
  let page_count :=
    if 0 <? total_count then ceil_div total_count page_size else 1 in
  let start_idx := (page_number - 1) * page_size in
  let end_idx := start_idx + page_size in
  let paginated_documents :=
    py_slice filtered_documents start_idx end_idx in
  {| DocumentSearchResult.documents := paginated_documents;
     DocumentSearchResult.total_count := total_count;
     DocumentSearchResult.page_count := page_count;
     DocumentSearchResult.current_page := page_number;
     DocumentSearchResult.page_size := page_size;
     DocumentSearchResult.filters_applied := filters_applied |}.

Definition search_documents (self : t)
    (search_request : DocumentSearchRequest.t)
  : result DocumentSearchResult.t :=
  do sorted <- filter_and_sort self search_request;
  Ok (paginate (fst sorted) (snd sorted) search_request).

End SearchDocuments.

End QueryEngine.

(** * Ingestion: text extraction, metadata, vector store, database, processor

    A shallow embedding of
      - backend/app/models/schemas.py             (DocumentMetadata, ...)
      - backend/app/services/text_extraction.py   (TextExtractor)
      - backend/app/services/metadata_extraction.py (MetadataExtractor)
      - backend/app/services/vector_store.py      (VectorStoreService)
      - backend/app/services/database_service.py  (DatabaseService)
      - backend/app/core/document_processor.py    (DocumentProcessor)
      - backend/app/api/document_routes.py, backend/app/api/query_routes.py
    The characters of a string are code points below 256. *)

(** ** Methods of [str] *)

(** The white space removed by [s.strip()]. *)
Definition is_space (c : ascii) : bool :=
  let n := nat_of_ascii c in
  ((9 <=? n) && (n <=? 13) || (28 <=? n) && (n <=? 32)
   || (n =? 133) || (n =? 160))%nat.

Fixpoint lstrip (s : string) : string :=
  match s with
  | String c s' => if is_space c then lstrip s' else s
  | EmptyString => EmptyString
  end.

Fixpoint rstrip (s : string) : string :=
  match s with
  | EmptyString => EmptyString
  | String c s' =>
      match rstrip s' with
      | EmptyString => if is_space c then EmptyString else String c EmptyString
      | r => String c r
      end
  end.

Definition strip (s : string) : string := rstrip (lstrip s).

(** [not s.strip()] *)
Definition blank (s : string) : bool := String.eqb (strip s) "".

(** [s.split(sep)] for a separator that is not empty: [piece] is the part
    read since the last separator, [skip] the number of characters of a
    separator that are still to be passed over. *)
Fixpoint split_loop (sep : string) (skip : nat) (piece s : string)
  : list string :=
  match s with
  | EmptyString => [piece]
  | String c s' =>
      match skip with
      | S skip' => split_loop sep skip' piece s'
      | O =>
          if String.prefix sep s
          then piece :: split_loop sep (String.length sep - 1) EmptyString s'
          else split_loop sep O (piece ++ String c EmptyString) s'
      end
  end.

Definition split (sep s : string) : list string :=
  split_loop sep 0 EmptyString s.

(** [s.replace(old, new)] for two characters. *)
Fixpoint replace_char (old new : ascii) (s : string) : string :=
  match s with
  | EmptyString => EmptyString
  | String c s' =>
      String (if Ascii.eqb c old then new else c) (replace_char old new s')
  end.

(** [s.lower()]: the upper-case letters below 256 are [A-Z] and the
    accented capitals 192 .. 222 but the multiplication sign. *)
Definition lower_char (c : ascii) : ascii :=
  let n := nat_of_ascii c in
  if ((65 <=? n) && (n <=? 90)
      || (192 <=? n) && (n <=? 222) && negb (n =? 215))%nat
  then ascii_of_nat (n + 32)
  else c.

Fixpoint py_lower (s : string) : string :=
  match s with
  | EmptyString => EmptyString
  | String c s' => String (lower_char c) (py_lower s')
  end.

(** [re.search] for a pattern that is a sequence of character classes:
    the leftmost position at which every class matches in turn. *)
Definition is_digit (c : ascii) : bool :=
  let n := nat_of_ascii c in ((48 <=? n) && (n <=? 57))%nat.

Fixpoint match_at (pattern : list (ascii -> bool)) (s : string)
  : option string :=
  match pattern with
  | [] => Some EmptyString
  | class :: pattern' =>
      match s with
      | String c s' =>
          if class c then String c <$> match_at pattern' s' else None
      | EmptyString => None
      end
  end.

Fixpoint re_search (pattern : list (ascii -> bool)) (s : string)
  : option string :=
  match match_at pattern s with
  | Some group => Some group
  | None =>
      match s with
      | String _ s' => re_search pattern s'
      | EmptyString => None
      end
  end.

(** ** Exceptions of the ingestion side *)

Inductive error : Type :=
| ValueError (msg : string)
| Exception (msg : string).

Definition str_of_error (e : error) : string :=
  match e with
  | ValueError msg | Exception msg => msg
  end.

Inductive attempt (A : Type) : Type :=
| Done (a : A)
| Failed (e : error).

Arguments Done {A} a.
Arguments Failed {A} e.

(** ** schemas.py: processed documents *)

Module DocumentMetadata.
Record t : Type := mk {
  filename : string;
  content_type : string;
  file_size : Z;
  upload_date : string;
  author : option string;
  document_date : option string;
  document_type : option string;
  processing_status : string;
  segment_count : Z;
  page_count : Z
}.
End DocumentMetadata.

Module TextPosition.
Record t : Type := mk {
  page : Z;
  paragraph_index : option Z;
  rect : option (list Q);
  is_ocr : bool
}.
End TextPosition.

Module DocumentParagraph.
Record t : Type := mk {
  text : string;
  position : TextPosition.t
}.
End DocumentParagraph.

Module DocumentPage.
Record t : Type := mk {
  page_number : Z;
  paragraphs : list DocumentParagraph.t;
  full_text : string
}.

(** [hasattr(page, name)] and [getattr(page, name)] for a string-valued
    attribute: the attributes of a page are the three fields. *)
Definition hasattr (name : string) : bool :=
  existsb (String.eqb name) ["page_number"; "paragraphs"; "full_text"].

Definition getattr_str (page : t) (name : string) : string :=
  if String.eqb name "full_text" then full_text page else EmptyString.
End DocumentPage.

Module ProcessedDocument.
Record t : Type := mk {
  id : string;
  full_text : string;
  pages : list DocumentPage.t;
  metadata : DocumentMetadata.t
}.
End ProcessedDocument.

(** The values of optional fields inside a dict. *)
Definition pyval_of_opt_str (o : option string) : pyval :=
  match o with Some s => PStr s | None => PNone end.

Definition pyval_of_opt_int (o : option Z) : pyval :=
  match o with Some z => PInt z | None => PNone end.

Definition pyval_of_rect (o : option (list Q)) : pyval :=
  match o with Some l => PList (PFloat <$> l) | None => PNone end.

(** ** text_extraction.py *)

Module TextExtractor.

(** What PyMuPDF reports of a page: [page.get_text()] and the blocks of
    [page.get_text("dict")], each with its bounding box and, for a text
    block, the texts of the spans of its lines. *)
Record Block : Type := mkBlock {
  lines : option (list (list string));
  bbox : list Q
}.

Record Page : Type := mkPage {
  get_text : string;
  blocks : list Block
}.

(** What the libraries make of the content of an uploaded file: its length,
    the pages PyMuPDF opens, and the answers of Tesseract and PIL. *)
Record Content : Type := mkContent {
  size : Z;
  fitz_open : attempt (list Page);
  get_tesseract_version : attempt unit;
  image_open : attempt unit;
  (** [image_to_string(img)] and [image_to_string(img, config=...)] *)
  image_to_string : option string -> attempt string
}.

(** [filename.split('.')[-1].lower()] *)
Definition file_extension (filename : string) : string :=
  py_lower (List.last (split "." filename) EmptyString).

Definition paragraph_text_of (block_lines : list (list string)) : string :=
  fold_left (fun paragraph_text span => paragraph_text ++ span ++ " ")
    (concat block_lines) EmptyString.

(** The loop over [enumerate(blocks)], started at [block_idx]. *)
Fixpoint pdf_paragraphs (page_num block_idx : Z) (page_blocks : list Block)
  : list DocumentParagraph.t :=
  match page_blocks with
  | [] => []
  | block :: rest =>
      match lines block with
      | Some block_lines =>
          let paragraph_text := paragraph_text_of block_lines in
          if negb (blank paragraph_text) then
            {| DocumentParagraph.text := strip paragraph_text;
               DocumentParagraph.position :=
                 {| TextPosition.page := page_num;
                    TextPosition.paragraph_index := Some block_idx;
                    TextPosition.rect := Some (bbox block);
                    TextPosition.is_ocr := false |} |}
            :: pdf_paragraphs page_num (block_idx + 1) rest
          else pdf_paragraphs page_num (block_idx + 1) rest
      | None => pdf_paragraphs page_num (block_idx + 1) rest
      end
  end.

(** The loop over [enumerate(doc)], started at [page_num]: the pages and
    what is appended to [full_text]. *)
Fixpoint pdf_pages (page_num : Z) (doc : list Page)
  : list DocumentPage.t * string :=
  match doc with
  | [] => ([], EmptyString)
  | page :: rest =>
      let page_text := get_text page in
      let page_obj :=
        {| DocumentPage.page_number := page_num + 1;
           DocumentPage.paragraphs := pdf_paragraphs page_num 0 (blocks page);
           DocumentPage.full_text := page_text |} in
      let later := pdf_pages (page_num + 1) rest in
      (page_obj :: fst later,
       newline ++ newline ++ "--- Page " ++ pretty (page_num + 1) ++ " ---"
               ++ newline ++ newline ++ page_text ++ snd later)
  end.

Definition _extract_from_pdf (content : Content) (filename : string)
  : attempt ProcessedDocument.t :=
  match fitz_open content with
  | Failed e => Failed e
  | Done doc =>
      let extracted := pdf_pages 0 doc in
      let full_text := snd extracted in
      if blank full_text
      then Failed (ValueError "No text could be extracted from PDF")
      else
        Done {| ProcessedDocument.id := EmptyString;
                ProcessedDocument.full_text := strip full_text;
                ProcessedDocument.pages := fst extracted;
                ProcessedDocument.metadata :=
                  {| DocumentMetadata.filename := filename;
                     DocumentMetadata.content_type := "application/pdf";
                     DocumentMetadata.file_size := size content;
                     DocumentMetadata.upload_date := EmptyString;
                     DocumentMetadata.author := None;
                     DocumentMetadata.document_date := None;
                     DocumentMetadata.document_type := None;
                     DocumentMetadata.processing_status := "pending";
                     DocumentMetadata.segment_count := 0;
                     DocumentMetadata.page_count := 0 |} |}
  end.

(** The loop over [enumerate(extracted_text.split('\n\n'))], started at
    [i]. *)
Fixpoint ocr_paragraphs (i : Z) (pieces : list string)
  : list DocumentParagraph.t :=
  match pieces with
  | [] => []
  | para_text :: rest =>
      if negb (blank para_text) then
        {| DocumentParagraph.text := strip para_text;
           DocumentParagraph.position :=
             {| TextPosition.page := 0;
                TextPosition.paragraph_index := Some i;
                TextPosition.rect := None;
                TextPosition.is_ocr := true |} |}
        :: ocr_paragraphs (i + 1) rest
      else ocr_paragraphs (i + 1) rest
  end.

Definition _extract_from_image (content : Content) (filename : string)
  : attempt ProcessedDocument.t :=
  match get_tesseract_version content with
  | Failed e =>
      Failed (ValueError
                ("Tesseract not properly configured: " ++ str_of_error e))
  | Done _ =>
      match image_open content with
      | Failed e => Failed e
      | Done _ =>
          match image_to_string content None with
          | Failed e => Failed e
          | Done first_text =>
              match (if blank first_text
                     then image_to_string content (Some "--psm 1 --oem 3")
                     else Done first_text) with
              | Failed e => Failed e
              | Done extracted_text =>
                  if blank extracted_text
                  then Failed
                         (ValueError "No text could be extracted from image")
                  else
                    let page :=
                      {| DocumentPage.page_number := 1;
                         DocumentPage.paragraphs :=
                           ocr_paragraphs 0
                             (split (newline ++ newline) extracted_text);
                         DocumentPage.full_text := extracted_text |} in
                    Done {| ProcessedDocument.id := EmptyString;
                            ProcessedDocument.full_text :=
                              strip extracted_text;
                            ProcessedDocument.pages := [page];
                            ProcessedDocument.metadata :=
                              {| DocumentMetadata.filename := filename;
                                 DocumentMetadata.content_type := "image";
                                 DocumentMetadata.file_size := size content;
                                 DocumentMetadata.upload_date := EmptyString;
                                 DocumentMetadata.author := None;
                                 DocumentMetadata.document_date := None;
                                 DocumentMetadata.document_type := None;
                                 DocumentMetadata.processing_status :=
                                   "pending";
                                 DocumentMetadata.segment_count := 0;
                                 DocumentMetadata.page_count := 0 |} |}
              end
          end
      end
  end.

Definition image_extensions : list string := ["png"; "jpg"; "jpeg"; "tiff"].

Definition extract_from_file (filename : string) (content : Content)
  : attempt ProcessedDocument.t :=
  let ext := file_extension filename in
  if String.eqb ext "pdf" then _extract_from_pdf content filename
  else if existsb (String.eqb ext) image_extensions
  then _extract_from_image content filename
  else Failed (ValueError ("Unsupported file type: " ++ ext)).

End TextExtractor.

(** An uploaded file. *)
Module UploadFile.
Record t : Type := mk {
  filename : string;
  content_type : string;
  content : TextExtractor.Content
}.
End UploadFile.

(** ** metadata_extraction.py *)

Module MetadataExtractor.

Definition _extract_author (filename : string) : option string :=
  let filename_parts := split "_" filename in
  if (3 <=? length filename_parts)%nat
  then Some (replace_char "." " " (List.hd EmptyString filename_parts))
  else None.

(** The pattern [\d{4}-\d{2}-\d{2}]. *)
Definition date_pattern : list (ascii -> bool) :=
  let dash := Ascii.eqb "-" in
  [is_digit; is_digit; is_digit; is_digit; dash;
   is_digit; is_digit; dash; is_digit; is_digit].

Definition _extract_date (filename : string) : option string :=
  re_search date_pattern filename.

(** [utcnow] is [datetime.utcnow().isoformat()]. *)
Definition extract_from_file (file : UploadFile.t) (utcnow : string)
  : DocumentMetadata.t :=
  let filename := UploadFile.filename file in
  {| DocumentMetadata.filename := filename;
     DocumentMetadata.content_type := UploadFile.content_type file;
     DocumentMetadata.file_size :=
       TextExtractor.size (UploadFile.content file);
     DocumentMetadata.upload_date := utcnow;
     DocumentMetadata.author := _extract_author filename;
     DocumentMetadata.document_date := _extract_date filename;
     DocumentMetadata.document_type :=
       Some (TextExtractor.file_extension filename);
     DocumentMetadata.processing_status := "pending";
     DocumentMetadata.segment_count := 0;
     DocumentMetadata.page_count := 0 |}.

End MetadataExtractor.

(** ** vector_store.py *)

Module VectorStore.

(** The service with its Qdrant collaborators: the outcome of
    [_ensure_collection_exists], of [add_documents] on a batch (which may
    depend on the batches added before), of
    [similarity_search_with_score], and the documents that
    [list_documents] reports; [added] records the batches handed to
    [add_documents] so far. *)
Record t : Type := mk {
  _ensure_collection_exists : result unit;
  add_documents :
    list (list (string * dict)) -> list (string * dict) -> result unit;
  similarity_search_with_score :
    string -> Z -> dict -> result (list (string * dict * Q));
  list_documents : list (string * dict);
  added : list (list (string * dict))
}.

Definition with_added (self : t) (batches : list (list (string * dict)))
  : t :=
  {| _ensure_collection_exists := _ensure_collection_exists self;
     add_documents := add_documents self;
     similarity_search_with_score := similarity_search_with_score self;
     list_documents := list_documents self;
     added := batches |}.

Definition chunk_of (document : ProcessedDocument.t)
    (page : DocumentPage.t) (paragraph : DocumentParagraph.t)
  : DocumentChunk :=
  let position := DocumentParagraph.position paragraph in
  let document_metadata := ProcessedDocument.metadata document in
  {| content := DocumentParagraph.text paragraph;
     metadata :=
       [ ("doc_id", PStr (ProcessedDocument.id document));
         ("filename", PStr (DocumentMetadata.filename document_metadata));
         ("page_number", PInt (DocumentPage.page_number page));
         ("paragraph_number",
           pyval_of_opt_int (TextPosition.paragraph_index position));
         ("position",
           PDict [ ("page", PInt (TextPosition.page position));
                   ("rect", pyval_of_rect (TextPosition.rect position)) ]);
         ("author",
           pyval_of_opt_str (DocumentMetadata.author document_metadata));
         ("document_date",
           pyval_of_opt_str
             (DocumentMetadata.document_date document_metadata));
         ("document_type",
           pyval_of_opt_str
             (DocumentMetadata.document_type document_metadata)) ];
     similarity_score := 0 |}.

Definition _create_chunks (document : ProcessedDocument.t)
  : list DocumentChunk :=
  flat_map
    (fun page =>
       flat_map
         (fun paragraph =>
            if blank (DocumentParagraph.text paragraph) then []
            else [chunk_of document page paragraph])
         (DocumentPage.paragraphs page))
    (ProcessedDocument.pages document).

(** The same loop on a document whose [pages] field holds a value read from
    JSON: the first [page] met is a JSON value, and [page.paragraphs]
    raises [AttributeError]. *)
Definition _create_chunks_json (pages : pyval)
  : result (list DocumentChunk) :=
  do items <- py_iter pages;
  match items with
  | [] => Ok []
  | _ :: _ => Raise AttributeError
  end.

(** [Document(page_content=chunk.content, metadata=chunk.metadata)] *)
Definition Document (chunk : DocumentChunk) : string * dict :=
  (content chunk, metadata chunk).

(** [range(0, stop, step)] *)
Definition range_step (stop step : nat) : list Z :=
  (fun j => Z.of_nat (step * j)) <$> seq 0 (Nat.div (stop + step - 1) step).

Definition batch_size : nat := 5.

(** The loop over the batches, from the batches [sent] so far (those of
    earlier calls included): whether every batch was added, and the batches
    handed to [add_documents]. *)
Fixpoint add_batches (self : t) (langchain_docs : list (string * dict))
    (starts : list Z) (sent : list (list (string * dict)))
  : bool * list (list (string * dict)) :=
  match starts with
  | [] => (true, sent)
  | i :: rest =>
      let batch := py_slice langchain_docs i (i + Z.of_nat batch_size) in
      match add_documents self sent batch with
      | Ok _ => add_batches self langchain_docs rest (sent ++ [batch])%list
      | Raise _ => (false, (sent ++ [batch])%list)
      end
  end.

(** [index_document] from the outcome of [_create_chunks] on. *)
Definition index_chunks (self : t) (created : result (list DocumentChunk))
  : bool * t :=
  match created with
  | Raise _ => (false, self)
  | Ok [] => (false, self)
  | Ok chunks =>
      match _ensure_collection_exists self with
      | Raise _ => (false, self)
      | Ok _ =>
          let langchain_docs := Document <$> chunks in
          let sent :=
            add_batches self langchain_docs
              (range_step (length langchain_docs) batch_size)
              (added self) in
          (fst sent, with_added self (snd sent))
      end
  end.

Definition index_document (self : t) (document : ProcessedDocument.t)
  : bool * t :=
  index_chunks self (Ok (_create_chunks document)).

(** [filter_dict or {}] *)
Definition filter_or_empty (filter_dict : option dict) : dict :=
  default [] filter_dict.

Definition similarity_search (self : t) (query : string) (k : Z)
    (filter_dict : option dict) : list retrieved :=
  match similarity_search_with_score self query k
          (filter_or_empty filter_dict) with
  | Ok results =>
      (fun scored => LangchainDocument (fst (fst scored)) (snd (fst scored)))
        <$> results
  | Raise _ => []
  end.

Definition chunk_data_of (scored : string * dict * Q) : ChunkData.t :=
  {| ChunkData.content := Some (fst (fst scored));
     ChunkData.metadata := Some (snd (fst scored));
     ChunkData.score := Some (snd scored) |}.

Definition search_similar (self : t) (query : string) (k : Z)
    (filter_dict : option dict) : list ChunkData.t :=
  match similarity_search_with_score self query k
          (filter_or_empty filter_dict) with
  | Ok results => chunk_data_of <$> results
  | Raise _ => []
  end.

Definition get_chunks_by_document_id (self : t) (document_id : string)
  : list ChunkData.t :=
  match similarity_search_with_score self EmptyString 10000
          [("doc_id", PStr document_id)] with
  | Ok results => chunk_data_of <$> results
  | Raise _ => []
  end.

(** The service as the query engine sees it. *)
Definition service (self : t) : VectorStoreService.t :=
  {| VectorStoreService.similarity_search :=
       fun query k => Ok (similarity_search self query k None);
     VectorStoreService.get_chunks_by_document_id :=
       fun document_id => Ok (get_chunks_by_document_id self document_id);
     VectorStoreService.list_all_documents :=
       Ok (Some (list_documents self)) |}.

End VectorStore.

(** ** database_service.py *)

Module DatabaseService.

(** The documents directory (the parsed content of each file, by name) and
    whether its files can be opened for writing, which is taken not to
    change from one call to the next.  A file holds the JSON value that was
    dumped into it. *)
Record t : Type := mk {
  documents_dir : dict;
  writable : bool
}.

(** [f"{document_id}.json"], a file name inside the documents directory:
    document ids hold no path separator. *)
Definition doc_file (document_id : string) : string :=
  document_id ++ ".json".

Definition position_data (position : TextPosition.t) : pyval :=
  PDict [ ("page", PInt (TextPosition.page position));
          ("paragraph_index",
            pyval_of_opt_int (TextPosition.paragraph_index position));
          ("rect", pyval_of_rect (TextPosition.rect position));
          ("is_ocr", PBool (TextPosition.is_ocr position)) ].

Definition paragraph_data (para : DocumentParagraph.t) : pyval :=
  PDict [ ("text", PStr (DocumentParagraph.text para));
          ("position", position_data (DocumentParagraph.position para)) ].

Definition page_data (page : DocumentPage.t) : pyval :=
  PDict [ ("page_number", PInt (DocumentPage.page_number page));
          ("paragraphs",
            PList (paragraph_data <$> DocumentPage.paragraphs page));
          ("full_text", PStr (DocumentPage.full_text page)) ].

Definition metadata_data (m : DocumentMetadata.t) : pyval :=
  PDict [ ("filename", PStr (DocumentMetadata.filename m));
          ("content_type", PStr (DocumentMetadata.content_type m));
          ("file_size", PInt (DocumentMetadata.file_size m));
          ("upload_date", PStr (DocumentMetadata.upload_date m));
          ("author", pyval_of_opt_str (DocumentMetadata.author m));
          ("document_date",
            pyval_of_opt_str (DocumentMetadata.document_date m));
          ("document_type",
            pyval_of_opt_str (DocumentMetadata.document_type m));
          ("processing_status",
            PStr (DocumentMetadata.processing_status m));
          ("segment_count", PInt (DocumentMetadata.segment_count m));
          ("page_count", PInt (DocumentMetadata.page_count m)) ].

Definition doc_data (document : ProcessedDocument.t) : pyval :=
  PDict [ ("id", PStr (ProcessedDocument.id document));
          ("full_text", PStr (ProcessedDocument.full_text document));
          ("pages",
            PList (page_data <$> ProcessedDocument.pages document));
          ("metadata",
            metadata_data (ProcessedDocument.metadata document)) ].

(** Writing a file replaces the content of a file of the same name. *)
Fixpoint write (files : dict) (name : string) (data : pyval) : dict :=
  match files with
  | [] => [(name, data)]
  | (name', data') :: rest =>
      if String.eqb name' name then (name', data) :: rest
      else (name', data') :: write rest name data
  end.

Definition unlink (files : dict) (name : string) : dict :=
  List.filter (fun file => negb (String.eqb (fst file) name)) files.

Definition save_document (self : t) (document : ProcessedDocument.t)
  : bool * t :=
  if writable self then
    (true,
     {| documents_dir :=
          write (documents_dir self)
            (doc_file (ProcessedDocument.id document)) (doc_data document);
        writable := writable self |})
  else (false, self).

Definition get_document (self : t) (document_id : string) : option pyval :=
  dict_lookup (documents_dir self) (doc_file document_id).

Definition delete_document (self : t) (document_id : string) : bool * t :=
  if dict_mem (doc_file document_id) (documents_dir self) then
    (true,
     {| documents_dir := unlink (documents_dir self) (doc_file document_id);
        writable := writable self |})
  else (false, self).

End DatabaseService.

(** ** document_processor.py *)

Module DocumentProcessor.

Record t : Type := mk {
  vector_store : VectorStore.t;
  database : DatabaseService.t
}.

(** The loop [for page in document.pages] with its two tests. *)
Fixpoint has_text (pages : list DocumentPage.t) : bool :=
  match pages with
  | [] => false
  | page :: rest =>
      if DocumentPage.hasattr "content"
         && negb (String.eqb (DocumentPage.getattr_str page "content") "")
         && negb (blank (DocumentPage.getattr_str page "content"))
      then true
      else if DocumentPage.hasattr "text"
              && negb (String.eqb (DocumentPage.getattr_str page "text") "")
              && negb (blank (DocumentPage.getattr_str page "text"))
      then true
      else has_text rest
  end.

Definition _has_indexable_content (document : ProcessedDocument.t) : bool :=
  match ProcessedDocument.pages document with
  | [] => false
  | pages => has_text pages
  end.

Definition with_status (document : ProcessedDocument.t) (status : string)
  : ProcessedDocument.t :=
  let m := ProcessedDocument.metadata document in
  {| ProcessedDocument.id := ProcessedDocument.id document;
     ProcessedDocument.full_text := ProcessedDocument.full_text document;
     ProcessedDocument.pages := ProcessedDocument.pages document;
     ProcessedDocument.metadata :=
       {| DocumentMetadata.filename := DocumentMetadata.filename m;
          DocumentMetadata.content_type := DocumentMetadata.content_type m;
          DocumentMetadata.file_size := DocumentMetadata.file_size m;
          DocumentMetadata.upload_date := DocumentMetadata.upload_date m;
          DocumentMetadata.author := DocumentMetadata.author m;
          DocumentMetadata.document_date := DocumentMetadata.document_date m;
          DocumentMetadata.document_type := DocumentMetadata.document_type m;
          DocumentMetadata.processing_status := status;
          DocumentMetadata.segment_count := DocumentMetadata.segment_count m;
          DocumentMetadata.page_count := DocumentMetadata.page_count m |} |}.

(** The document after [document.id = ...], [document.metadata = metadata],
    [processing_status = "processed"] and [page_count = len(pages)]. *)
Definition processed (extracted : ProcessedDocument.t)
    (uuid4 : string) (metadata : DocumentMetadata.t) : ProcessedDocument.t :=
  {| ProcessedDocument.id := uuid4;
     ProcessedDocument.full_text := ProcessedDocument.full_text extracted;
     ProcessedDocument.pages := ProcessedDocument.pages extracted;
     ProcessedDocument.metadata :=
       {| DocumentMetadata.filename := DocumentMetadata.filename metadata;
          DocumentMetadata.content_type :=
            DocumentMetadata.content_type metadata;
          DocumentMetadata.file_size := DocumentMetadata.file_size metadata;
          DocumentMetadata.upload_date :=
            DocumentMetadata.upload_date metadata;
          DocumentMetadata.author := DocumentMetadata.author metadata;
          DocumentMetadata.document_date :=
            DocumentMetadata.document_date metadata;
          DocumentMetadata.document_type :=
            DocumentMetadata.document_type metadata;
          DocumentMetadata.processing_status := "processed";
          DocumentMetadata.segment_count :=
            DocumentMetadata.segment_count metadata;
          DocumentMetadata.page_count :=
            Z.of_nat (length (ProcessedDocument.pages extracted)) |} |}.

(** [uuid4] is [str(uuid.uuid4())] and [utcnow] the time of the upload. *)
Definition process_document (self : t) (file : UploadFile.t)
    (uuid4 utcnow : string) : attempt ProcessedDocument.t * t :=
  match TextExtractor.extract_from_file (UploadFile.filename file)
          (UploadFile.content file) with
  | Failed e => (Failed e, self)
  | Done extracted =>
      let metadata := MetadataExtractor.extract_from_file file utcnow in
      let document := processed extracted uuid4 metadata in
      let saved := DatabaseService.save_document (database self) document in
      if negb (fst saved) then
        (Failed (Exception "Failed to save document to database"),
         {| vector_store := vector_store self; database := snd saved |})
      else
        let indexing :=
          if _has_indexable_content document then
            let indexed :=
              VectorStore.index_document (vector_store self) document in
            (if fst indexed then "indexed" else "indexing_failed",
             snd indexed)
          else ("indexing_failed", vector_store self) in
        let document := with_status document (fst indexing) in
        let saved_again :=
          DatabaseService.save_document (snd saved) document in
        (Done document,
         {| vector_store := snd indexing; database := snd saved_again |})
  end.

(** [retry_indexing].  The document read from the database is a JSON
    value.  [.get] on a value that is no dict raises [AttributeError], which
    the outer handler turns into [False], as it does with the
    [AttributeError] that [index_document] and [save_document] raise from
    their own handlers when they are given a dict ([document.id]). *)
Definition retry_indexing (self : t) (document_id : string) : bool * t :=
  match DatabaseService.get_document (database self) document_id with
  | None => (false, self)
  | Some document_data =>
      if negb (truthy document_data) then (false, self)
      else
        match document_data with
        | PDict d =>
            if negb (truthy (dict_get d "id"))
               || negb (truthy (dict_get d "pages"))
               || negb (truthy (dict_get d "metadata"))
            then (false, self)
            else
              match dict_get_or d "metadata" (PDict []) with
              | PDict _ =>
                  (* a [ProcessedDocument] whose fields are JSON values *)
                  let indexed :=
                    VectorStore.index_chunks (vector_store self)
                      (VectorStore._create_chunks_json
                         (dict_get_or d "pages" (PList []))) in
                  let self' :=
                    {| vector_store := snd indexed;
                       database := database self |} in
                  if fst indexed then
                    (* [save_document(document_data)] is called with the
                       dict, and raises *)
                    (false, self')
                  else (false, self')
              | _ =>
                  (* the conversion fails; the raw dict is indexed, and
                     [index_document] raises *)
                  (false, self)
              end
        | _ => (false, self)
        end
  end.

Definition delete_document (self : t) (document_id : string) : bool * t :=
  let deleted := DatabaseService.delete_document (database self) document_id in
  (fst deleted,
   {| vector_store := vector_store self; database := snd deleted |}).

End DocumentProcessor.

(** ** document_routes.py *)

(** What a route hands back: a body, or an [HTTPException] with its status
    code. *)
Inductive response (A : Type) : Type :=
| Returned (body : A)
| HTTPException (status_code : Z).

Arguments Returned {A} body.
Arguments HTTPException {A} status_code.

Module DocumentResponse.
Record t : Type := mk {
  document_id : string;
  status : string;
  filename : string;
  metadata : dict
}.
End DocumentResponse.

Module DocumentRoutes.

Definition allowed_extensions : list string :=
  ["pdf"; "png"; "jpg"; "jpeg"; "tiff"].

Definition upload_document (processor : DocumentProcessor.t)
    (file : UploadFile.t) (uuid4 utcnow : string)
  : response DocumentResponse.t * DocumentProcessor.t :=
  let file_ext := TextExtractor.file_extension (UploadFile.filename file) in
  if negb (existsb (String.eqb file_ext) allowed_extensions)
  then (HTTPException 400, processor)
  else
    let processing :=
      DocumentProcessor.process_document processor file uuid4 utcnow in
    match fst processing with
    | Done document =>
        let m := ProcessedDocument.metadata document in
        (Returned
           {| DocumentResponse.document_id := ProcessedDocument.id document;
              DocumentResponse.status := "success";
              DocumentResponse.filename := DocumentMetadata.filename m;
              DocumentResponse.metadata :=
                [ ("filename", PStr (DocumentMetadata.filename m));
                  ("content_type", PStr (DocumentMetadata.content_type m));
                  ("file_size", PInt (DocumentMetadata.file_size m));
                  ("upload_date", PStr (DocumentMetadata.upload_date m));
                  ("processing_status",
                    PStr (DocumentMetadata.processing_status m));
                  ("page_count", PInt (DocumentMetadata.page_count m)) ] |},
         snd processing)
    | Failed _ => (HTTPException 500, snd processing)
    end.

Definition retry_document_indexing (processor : DocumentProcessor.t)
    (document_id : string) : response dict * DocumentProcessor.t :=
  let retried := DocumentProcessor.retry_indexing processor document_id in
  if negb (fst retried) then (HTTPException 500, snd retried)
  else
    (* [processor.get_document] calls [_dict_to_document], which the class
       does not define *)
    (HTTPException 500, snd retried).

Definition delete_document (processor : DocumentProcessor.t)
    (document_id : string) : response unit * DocumentProcessor.t :=
  let deleted := DocumentProcessor.delete_document processor document_id in
  if negb (fst deleted) then (HTTPException 404, snd deleted)
  else (Returned tt, snd deleted).

End DocumentRoutes.

(** ** query_engine.py and query_routes.py: the listing and the selection *)

(** [QueryEngine.list_all_documents]: a failure of the vector store and a
    listing without ["documents"] give the empty listing. *)
Definition list_all_documents (self : QueryEngine.t)
  : list Document.t * Z :=
  match VectorStoreService.list_all_documents
          (QueryEngine.vector_store self) with
  | Ok (Some documents) =>
      let documents_list := QueryEngine.document_of <$> documents in
      (documents_list, Z.of_nat (length documents_list))
  | _ => ([], 0)
  end.

Module QueryRoutes.

(** [{doc["id"]: doc for doc in all_documents}]: a later document replaces
    an earlier one of the same id, at the place of the earlier one. *)
Fixpoint doc_map_set (doc_map : list (string * Document.t))
    (doc : Document.t) : list (string * Document.t) :=
  match doc_map with
  | [] => [(Document.id doc, doc)]
  | (doc_id, doc') :: rest =>
      if String.eqb doc_id (Document.id doc) then (doc_id, doc) :: rest
      else (doc_id, doc') :: doc_map_set rest doc
  end.

Definition doc_map_of (all_documents : list Document.t)
  : list (string * Document.t) :=
  fold_left doc_map_set all_documents [].

Fixpoint doc_map_get (doc_map : list (string * Document.t))
    (doc_id : string) : option Document.t :=
  match doc_map with
  | [] => None
  | (doc_id', doc) :: rest =>
      if String.eqb doc_id' doc_id then Some doc else doc_map_get rest doc_id
  end.

(** The validation loop: [selected_documents] and [invalid_ids]. *)
Fixpoint validate (doc_map : list (string * Document.t))
    (document_ids : list string) : list Document.t * list string :=
  match document_ids with
  | [] => ([], [])
  | doc_id :: rest =>
      let later := validate doc_map rest in
      match doc_map_get doc_map doc_id with
      | Some doc => (doc :: fst later, snd later)
      | None => (fst later, doc_id :: snd later)
      end
  end.

Module DocumentSelectionResponse.
Record t : Type := mk {
  selected_documents : list Document.t;
  count : Z;
  status : string
}.
End DocumentSelectionResponse.

Section Selection.

(** [str(invalid_ids)], the display of a list of strings. *)
Variable py_repr : list string -> string.

Definition validate_document_selection (engine : QueryEngine.t)
    (document_ids : list string) : DocumentSelectionResponse.t :=
  let all_documents := fst (list_all_documents engine) in
  let doc_map := doc_map_of all_documents in
  let validated := validate doc_map document_ids in
  let selected_documents := fst validated in
  let invalid_ids := snd validated in
  match invalid_ids with
  | _ :: _ =>
      {| DocumentSelectionResponse.selected_documents := selected_documents;
         DocumentSelectionResponse.count :=
           Z.of_nat (length selected_documents);
         DocumentSelectionResponse.status :=
           "partial_success - " ++ pretty (length invalid_ids)
             ++ " invalid IDs: " ++ py_repr invalid_ids |}
  | [] =>
      {| DocumentSelectionResponse.selected_documents := selected_documents;
         DocumentSelectionResponse.count :=
           Z.of_nat (length selected_documents);
         DocumentSelectionResponse.status := "success" |}
  end.

End Selection.

End QueryRoutes.

(** * Definitions used by the statements *)

Import DocumentFilter CitationBuilder QueryEngine.

(** ** Document filter *)

(** The verdict of [_should_include_chunk] when it returns one. *)
Definition includes (filters : dict) (chunk : DocumentChunk) : bool :=
  match _should_include_chunk chunk filters with
  | Ok keep => keep
  | Raise _ => false
  end.

(** Dates are strings: the [document_date] of a chunk and the bounds of a
    [date_range] are strings or [None]. *)
Definition str_or_none (v : pyval) : bool :=
  match v with
  | PNone | PStr _ => true
  | _ => false
  end.

Definition dated_chunk (chunk : DocumentChunk) : bool :=
  str_or_none (dict_get (metadata chunk) "document_date").

Definition dated_item (item : string * pyval) : bool :=
  negb (String.eqb (fst item) "date_range" && is_dict (snd item)) ||
  (str_or_none (dict_get (dict_of (snd item)) "start") &&
   str_or_none (dict_get (dict_of (snd item)) "end")).

Definition dated_filters (filters : option dict) : bool :=
  forallb dated_item (default [] filters).

(** Three passages of two documents, and a filter spec. *)
Definition sample_passages : list DocumentChunk :=
  [ mkChunk "Refunds are issued within 30 days."
      [("doc_id", PStr "doc-A"); ("document_date", PStr "2024-03-01")]
      (8 # 10);
    mkChunk "Shipping takes five days."
      [("doc_id", PStr "doc-B"); ("document_date", PNone)] (3 # 10);
    mkChunk "Refund requests need a receipt."
      [("doc_id", PStr "doc-A"); ("document_date", PStr "2023-11-20")]
      (5 # 10) ].

Definition sample_filters : dict :=
  [ ("date_range", PDict [("start", PStr "2024-01-01")]);
    ("relevance_threshold", PFloat (5 # 10)) ].

(** A metadata or filter value that is a string or [None]. *)
Definition pyval_of_str (o : option string) : pyval :=
  match o with Some s => PStr s | None => PNone end.

(** The date predicate in the words of the specification: a missing
    [document_date] passes; a date is kept iff it is at least the start bound
    (when given) and at most the end bound (when given). *)
Definition date_rule_as_specified (doc_date start_date end_date : option string)
  : bool :=
  match doc_date with
  | None => true
  | Some d =>
      match start_date with Some s => String.leb s d | None => true end &&
      match end_date with Some e => String.leb d e | None => true end
  end.

(** The same rule with the truth tests of the source: an empty string counts
    as a missing date, and as a bound that is not given. *)
Definition date_rule (doc_date start_date end_date : option string) : bool :=
  date_rule_as_specified (nonempty doc_date) (nonempty start_date)
    (nonempty end_date).

(** ** Citation builder *)

(** The [position] metadata of a chunk is a dict, or is missing. *)
Definition position_ok (chunk : DocumentChunk) : bool :=
  match dict_lookup (metadata chunk) "position" with
  | None | Some (PDict _) => true
  | Some _ => false
  end.

(** A content of 220 characters. *)
Definition long_text : string :=
  "0123456789012345678901234567890123456789012345678901234567890123456789012345678901234567890123456789012345678901234567890123456789012345678901234567890123456789012345678901234567890123456789012345678901234567890123456789".

Definition sample_results : list ScoredResult.t :=
  [ ScoredResult.mk (IdInt 17) (8 # 10);
    ScoredResult.mk (IdStr "a3f1") (3 # 10) ].

(** ** Query engine *)

Definition no_documents_message : string :=
  "No relevant documents found matching the criteria.".

(** The answer of the empty response in the words of the specification: the
    fixed message, annotated with the size of the allow-list if one was
    given. *)
Definition message_as_specified (selected_document_ids : option (list string))
  : string :=
  match selected_document_ids with
  | Some ids =>
      no_documents_message ++ " Search was limited to "
        ++ pretty (length ids) ++ " selected documents."
  | None => no_documents_message
  end.

(** A retriever over a fixed list of results and a generator with a fixed
    answer. *)
Definition engine_over (results : list retrieved) (themes : list dict)
  : QueryEngine.t :=
  {| vector_store :=
       {| VectorStoreService.similarity_search := fun _ _ => Ok results;
          VectorStoreService.get_chunks_by_document_id := fun _ => Ok [];
          VectorStoreService.list_all_documents := Ok None |};
     llm_service :=
       {| LLMService.answer_query := fun _ _ => Ok "Within 30 days.";
          LLMService.extract_themes := fun _ => Ok themes |} |}.


Definition refund_results : list retrieved :=
  [ LangchainDocument "Refunds are issued within 30 days."
      [("doc_id", PStr "doc-A"); ("filename", PStr "policy.pdf")];
    LangchainDocument "Refund requests need a receipt."
      [("doc_id", PStr "doc-A"); ("filename", PStr "policy.pdf")] ].

(** The same request, asking for page [page_number] of pages of
    [page_size] documents. *)
Definition with_page (search_request : DocumentSearchRequest.t)
    (page_size page_number : Z) : DocumentSearchRequest.t :=
  {| DocumentSearchRequest.search_term :=
       DocumentSearchRequest.search_term search_request;
     DocumentSearchRequest.filename_filter :=
       DocumentSearchRequest.filename_filter search_request;
     DocumentSearchRequest.content_type_filter :=
       DocumentSearchRequest.content_type_filter search_request;
     DocumentSearchRequest.author_filter :=
       DocumentSearchRequest.author_filter search_request;
     DocumentSearchRequest.date_from :=
       DocumentSearchRequest.date_from search_request;
     DocumentSearchRequest.date_to :=
       DocumentSearchRequest.date_to search_request;
     DocumentSearchRequest.status_filter :=
       DocumentSearchRequest.status_filter search_request;
     DocumentSearchRequest.page_size := Some page_size;
     DocumentSearchRequest.page_number := Some page_number;
     DocumentSearchRequest.sort_by :=
       DocumentSearchRequest.sort_by search_request;
     DocumentSearchRequest.sort_order :=
       DocumentSearchRequest.sort_order search_request |}.

(** [ceil(total_count / page_size)] as the specification has it: the least
    integer that is not below the quotient of the two numbers. *)
Definition ceiling_of_quotient (total_count page_size : Z) : Z :=
  Qceiling (inject_Z total_count / inject_Z page_size).

(** The page slice of a result. *)
Definition page_documents (r : result DocumentSearchResult.t)
  : list Document.t :=
  match r with
  | Ok res => DocumentSearchResult.documents res
  | Raise _ => []
  end.

(** A listing of five documents and a request that matches all of them. *)
Definition listing_entries : list (string * dict) :=
  [ ("d1", [("filename", PStr "invoice-01.pdf")]);
    ("d2", [("filename", PStr "invoice-02.pdf")]);
    ("d3", [("filename", PStr "invoice-03.pdf")]);
    ("d4", [("filename", PStr "invoice-04.pdf")]);
    ("d5", [("filename", PStr "invoice-05.pdf")]) ].

Definition listing_engine : QueryEngine.t :=
  {| vector_store :=
       {| VectorStoreService.similarity_search := fun _ _ => Ok [];
          VectorStoreService.get_chunks_by_document_id := fun _ => Ok [];
          VectorStoreService.list_all_documents := Ok (Some listing_entries) |};
     llm_service :=
       {| LLMService.answer_query := fun _ _ => Ok "";
          LLMService.extract_themes := fun _ => Ok [] |} |}.

Definition invoice_request : DocumentSearchRequest.t :=
  {| DocumentSearchRequest.search_term := Some "invoice";
     DocumentSearchRequest.filename_filter := None;
     DocumentSearchRequest.content_type_filter := None;
     DocumentSearchRequest.author_filter := None;
     DocumentSearchRequest.date_from := None;
     DocumentSearchRequest.date_to := None;
     DocumentSearchRequest.status_filter := None;
     DocumentSearchRequest.page_size := None;
     DocumentSearchRequest.page_number := None;
     DocumentSearchRequest.sort_by := Some "filename";
     DocumentSearchRequest.sort_order := Some "asc" |}.

Definition listed_documents : list Document.t :=
  document_of <$> listing_entries.

(** A listing that is already in order is left as it is by the sort. *)
Definition keep_order (keyed : list (pyval * Document.t)) (reverse : bool)
  : result (list Document.t) :=
  Ok (snd <$> keyed).

Definition policy_chunks : list ChunkData.t :=
  [ ChunkData.mk (Some "Refunds are issued within 30 days.")
      (Some [("doc_id", PStr "doc-A")]) (Some (8 # 10));
    ChunkData.mk (Some "Refund requests need a receipt.")
      (Some [("doc_id", PStr "doc-A")]) (Some (5 # 10)) ].

(** An engine over a corpus of one document of two passages, whose
    generator answers with the given themes. *)
Definition theme_engine (themes : list dict) : QueryEngine.t :=
  {| vector_store :=
       {| VectorStoreService.similarity_search :=
            fun _ _ => Ok refund_results;
          VectorStoreService.get_chunks_by_document_id :=
            fun _ => Ok policy_chunks;
          VectorStoreService.list_all_documents :=
            Ok (Some [("doc-A", [("filename", PStr "policy.pdf")])]) |};
     llm_service :=
       {| LLMService.answer_query := fun _ _ => Ok "Within 30 days.";
          LLMService.extract_themes := fun _ => Ok themes |} |}.

Definition theme_with (indices : list Z) : dict :=
  [ ("theme_name", PStr "Refunds");
    ("document_indices", PList (PInt <$> indices)) ].

(** ** Document filter, citation builder and query engine, continued *)

Definition lacks_key (key : string) (chunk : DocumentChunk) : bool :=
  negb (dict_mem key (metadata chunk)).

Definition special_key (key : string) : bool :=
  String.eqb key "date_range" || String.eqb key "relevance_threshold"
  || String.eqb key "document_ids".

(** The basic response that an enhanced response extends. *)
Definition basic_response (r : EnhancedQueryResponse.t) : QueryResponse.t :=
  {| QueryResponse.answers := EnhancedQueryResponse.answers r;
     QueryResponse.citations :=
       EnhancedCitation.base <$> EnhancedQueryResponse.citations r;
     QueryResponse.metadata := EnhancedQueryResponse.metadata r |}.

(** A list of citations, respectively of document ids, drawn from the given
    candidate passages. *)
Definition cited_from (chunks : list DocumentChunk) (cs : list Citation.t)
  : Prop :=
  Forall (fun citation =>
            exists chunk, In chunk chunks /\ citation_of chunk = Ok citation)
    cs.

Definition ids_from (chunks : list DocumentChunk) (ids : list pyval) : Prop :=
  Forall (fun doc_id =>
            exists chunk, In chunk chunks /\
              doc_id = dict_get_or (metadata chunk) "doc_id" (PStr "Unknown"))
    ids.

Definition has_key {V : Type} (d : list (pyval * V)) (k : pyval) : Prop :=
  exists kv, In kv d /\ py_eq (fst kv) k = true.

(** No two members of the list are equal ([==]). *)
Definition distinct (l : list pyval) : Prop :=
  ForallOrdPairs (fun x y => py_eq x y = false) l.

Definition broken_passage : DocumentChunk :=
  mkChunk "Refunds are issued within 30 days."
    [("doc_id", PStr "doc-A"); ("position", PNone)] (8 # 10).

(** ** Document search, continued *)

(** The entries of [filters_applied] for a request: one for each field that
    is neither [None] nor empty, in the order in which the source sets
    them. *)
Definition applied_entry (name : string) (field : option string) : dict :=
  match nonempty field with
  | Some value => [(name, PStr value)]
  | None => []
  end.

Definition applied_filters (search_request : DocumentSearchRequest.t) : dict :=
  (applied_entry "search_term"
     (DocumentSearchRequest.search_term search_request)
   ++ applied_entry "filename_filter"
        (DocumentSearchRequest.filename_filter search_request)
   ++ applied_entry "content_type_filter"
        (DocumentSearchRequest.content_type_filter search_request)
   ++ applied_entry "author_filter"
        (DocumentSearchRequest.author_filter search_request)
   ++ applied_entry "status_filter"
        (DocumentSearchRequest.status_filter search_request)
   ++ applied_entry "date_from"
        (DocumentSearchRequest.date_from search_request)
   ++ applied_entry "date_to"
        (DocumentSearchRequest.date_to search_request))%list.

(** What a document has to pass for a request. *)
Definition passes (test : string -> Document.t -> result bool)
    (lower : string -> string) (field : option string) (doc : Document.t)
  : Prop :=
  match nonempty field with
  | Some pattern => test (lower pattern) doc = Ok true
  | None => True
  end.

Section SearchStatements.

Variable lower : string -> string.
Variable py_str : pyval -> string.
Variable datetime : Type.
Variable strptime : string -> string -> option datetime.
Variable datetime_lt : datetime -> datetime -> bool.

(** A document passes every filter that the request makes active. *)
Definition matches_request (search_request : DocumentSearchRequest.t)
    (doc : Document.t) : Prop :=
  passes (matches_search_term lower py_str) lower
    (DocumentSearchRequest.search_term search_request) doc /\
  passes (matches_filename lower) lower
    (DocumentSearchRequest.filename_filter search_request) doc /\
  passes (matches_metadata lower py_str "file_type") lower
    (DocumentSearchRequest.content_type_filter search_request) doc /\
  passes (matches_metadata lower py_str "author") lower
    (DocumentSearchRequest.author_filter search_request) doc /\
  passes (matches_status lower) lower
    (DocumentSearchRequest.status_filter search_request) doc /\
  (nonempty (DocumentSearchRequest.date_from search_request) <> None \/
   nonempty (DocumentSearchRequest.date_to search_request) <> None ->
   in_date_range datetime strptime datetime_lt
     (DocumentSearchRequest.date_from search_request)
     (DocumentSearchRequest.date_to search_request) doc = true).

End SearchStatements.

(** ** Ingestion *)

(** The paragraphs of a document, each with its page. *)
Definition paragraphs_of (document : ProcessedDocument.t)
  : list (DocumentPage.t * DocumentParagraph.t) :=
  flat_map (fun page => pair page <$> DocumentPage.paragraphs page)
    (ProcessedDocument.pages document).

(** A paragraph is clean when it is not blank and has no white space at
    either end. *)
Definition clean (paragraph : DocumentParagraph.t) : Prop :=
  blank (DocumentParagraph.text paragraph) = false
  /\ strip (DocumentParagraph.text paragraph)
     = DocumentParagraph.text paragraph.

(** An id is listed when some document of the listing has it. *)
Definition listed (docs : list Document.t) (doc_id : string) : bool :=
  existsb (fun doc => String.eqb (Document.id doc) doc_id) docs.

(** A string matches a sequence of character classes when it has one
    character for each class, in the class. *)
Definition matches (pattern : list (ascii -> bool)) (s : string) : Prop :=
  Forall2 (fun class c => class c = true) pattern (list_ascii_of_string s).

(** Four digits, a dash, two digits, a dash, two digits. *)
Definition date_shaped (s : string) : Prop :=
  matches MetadataExtractor.date_pattern s.

(** The number of occurrences of a character in a string. *)
Fixpoint count_char (c : ascii) (s : string) : nat :=
  match s with
  | EmptyString => 0
  | String c' s' => (if Ascii.eqb c' c then 1 else 0) + count_char c s'
  end.

(** The date that a string of the shape dddd-dd-dd denotes, as the number
    yyyymmdd. *)
Definition digit_value (c : ascii) : Z := Z.of_nat (nat_of_ascii c) - 48.

Definition date_number (s : string) : Z :=
  match list_ascii_of_string s with
  | [y1; y2; y3; y4; _; m1; m2; _; d1; d2] =>
      10000000 * digit_value y1 + 1000000 * digit_value y2
      + 100000 * digit_value y3 + 10000 * digit_value y4
      + 1000 * digit_value m1 + 100 * digit_value m2
      + 10 * digit_value d1 + digit_value d2
  | _ => 0
  end.

(** ** Sample data *)

(** A listing of two dated documents, a calendar that reads days only, and
    a request for the invoices uploaded since February 2024. *)
Definition dated_entries : list (string * dict) :=
  [ ("d1", [ ("filename", PStr "invoice-01.pdf");
             ("upload_timestamp", PStr "2024-03-15") ]);
    ("d2", [ ("filename", PStr "invoice-02.pdf");
             ("upload_timestamp", PStr "2024-01-10") ]) ].

Definition dated_engine : QueryEngine.t :=
  {| vector_store :=
       {| VectorStoreService.similarity_search := fun _ _ => Ok [];
          VectorStoreService.get_chunks_by_document_id := fun _ => Ok [];
          VectorStoreService.list_all_documents := Ok (Some dated_entries) |};
     llm_service :=
       {| LLMService.answer_query := fun _ _ => Ok "";
          LLMService.extract_themes := fun _ => Ok [] |} |}.

Definition day_only (date_str format : string) : option string :=
  if String.eqb format "%Y-%m-%d" then Some date_str else None.

Definition since_february : DocumentSearchRequest.t :=
  {| DocumentSearchRequest.search_term := Some "invoice";
     DocumentSearchRequest.filename_filter := None;
     DocumentSearchRequest.content_type_filter := None;
     DocumentSearchRequest.author_filter := None;
     DocumentSearchRequest.date_from := Some "2024-02-01";
     DocumentSearchRequest.date_to := None;
     DocumentSearchRequest.status_filter := None;
     DocumentSearchRequest.page_size := None;
     DocumentSearchRequest.page_number := None;
     DocumentSearchRequest.sort_by := Some "filename";
     DocumentSearchRequest.sort_order := Some "asc" |}.

(** An uploaded PDF of one page with two paragraphs, an image block and a
    blank block. *)
Definition report_page : TextExtractor.Page :=
  {| TextExtractor.get_text := "Quarterly report Revenue grew.";
     TextExtractor.blocks :=
       [ TextExtractor.mkBlock (Some [["Quarterly"; "report"]])
           [0%Q; 0%Q; 200%Q; 20%Q];
         TextExtractor.mkBlock None [0%Q; 20%Q; 200%Q; 120%Q];
         TextExtractor.mkBlock (Some [[" "]]) [0%Q; 120%Q; 200%Q; 130%Q];
         TextExtractor.mkBlock (Some [["Revenue grew."]])
           [0%Q; 130%Q; 200%Q; 150%Q] ] |}.

Definition report_content : TextExtractor.Content :=
  {| TextExtractor.size := 2048;
     TextExtractor.fitz_open := Done [report_page];
     TextExtractor.get_tesseract_version :=
       Failed (Exception "tesseract is not installed");
     TextExtractor.image_open := Failed (Exception "cannot identify image");
     TextExtractor.image_to_string :=
       fun _ => Failed (Exception "tesseract is not installed") |}.

Definition report_file : UploadFile.t :=
  {| UploadFile.filename := "Smith.J_report_2024-03-15.pdf";
     UploadFile.content_type := "application/pdf";
     UploadFile.content := report_content |}.

(** A vector store whose index cannot be reached, and a processor over it
    with an empty, writable database. *)
Definition unreachable_store : VectorStore.t :=
  {| VectorStore._ensure_collection_exists :=
       Raise (ServiceError "connection refused");
     VectorStore.add_documents :=
       fun _ _ => Raise (ServiceError "connection refused");
     VectorStore.similarity_search_with_score :=
       fun _ _ _ => Raise (ServiceError "connection refused");
     VectorStore.list_documents := [];
     VectorStore.added := [] |}.

Definition fresh_processor : DocumentProcessor.t :=
  {| DocumentProcessor.vector_store := unreachable_store;
     DocumentProcessor.database :=
       {| DatabaseService.documents_dir := [];
          DatabaseService.writable := true |} |}.

(** * Properties *)

(** ** Generic facts *)

Lemma rbind_Ok {A B : Type} (m : result A) (k : A -> result B) (b : B) :
  rbind m k = Ok b -> exists a, m = Ok a /\ k a = Ok b.
Proof. destruct m as [a|e]; simpl; [eauto | discriminate]. Qed.

Ltac bind_inv H :=
  let a := fresh "a" in
  let Ha := fresh "Ha" in
  apply rbind_Ok in H; destruct H as (a & Ha & H).

Lemma filter_sublist {A : Type} (p : A -> bool) (l : list A) :
  List.filter p l `sublist_of` l.
Proof.
  induction l as [|x l IH]; simpl.
  - constructor.
  - destruct (p x); [apply sublist_skip | apply sublist_cons]; exact IH.
Qed.

Lemma negb_Qlt_bool (x y : Q) : negb (Qlt_bool x y) = Qle_bool y x.
Proof. unfold Qlt_bool. apply negb_involutive. Qed.

(** ** Document filter *)

Lemma filter_loop_Ok chunks filters r :
  filter_loop chunks filters = Ok r ->
  r = List.filter (includes filters) chunks.
Proof.
  revert r. induction chunks as [|c cs IH]; simpl; intros r H.
  - congruence.
  - bind_inv H. bind_inv H. injection H as <-.
    rewrite (IH _ Ha0). cbn [List.filter].
    replace (includes filters c) with a
      by (unfold includes; now rewrite Ha).
    reflexivity.
Qed.

Lemma filter_loop_total chunks filters :
  Forall (fun c => returns (_should_include_chunk c filters)) chunks ->
  filter_loop chunks filters = Ok (List.filter (includes filters) chunks).
Proof.
  induction 1 as [|c cs [b Hb] _ IH]; [reflexivity|].
  cbn [filter_loop List.filter]. rewrite Hb, IH.
  replace (includes filters c) with b
    by (unfold includes; now rewrite Hb).
  reflexivity.
Qed.

Lemma check_date_range_returns chunk date_range :
  dated_chunk chunk = true ->
  str_or_none (dict_get date_range "start") = true ->
  str_or_none (dict_get date_range "end") = true ->
  returns (_check_date_range chunk date_range).
Proof.
  unfold dated_chunk, _check_date_range, py_gt, returns.
  destruct (dict_get (metadata chunk) "document_date") as [| | | |d| |];
    try discriminate; intros _; simpl; [eauto|].
  destruct (String.eqb d ""); simpl; [eauto|].
  destruct (dict_get date_range "start") as [| | | |s| |];
    try discriminate; intros _;
    destruct (dict_get date_range "end") as [| | | |e| |];
    try discriminate; intros _; simpl;
    repeat (match goal with
            | |- context [if ?b then _ else _] => destruct b; simpl
            end); eauto.
Qed.

Lemma check_item_returns chunk key value :
  dated_chunk chunk = true -> dated_item (key, value) = true ->
  returns (check_item chunk key value).
Proof.
  intros Hc Hi. unfold check_item. unfold dated_item in Hi. simpl in Hi.
  destruct (String.eqb key "date_range" && is_dict value); simpl in Hi.
  - apply andb_true_iff in Hi as [Hs He].
    now apply check_date_range_returns.
  - repeat (match goal with
            | |- context [if ?b then _ else _] => destruct b
            end); unfold returns; eauto.
Qed.

Lemma should_include_returns chunk filters :
  dated_chunk chunk = true -> forallb dated_item filters = true ->
  returns (_should_include_chunk chunk filters).
Proof.
  intros Hc. induction filters as [|[key value] rest IH]; simpl; intros Hf.
  - unfold returns; eauto.
  - apply andb_true_iff in Hf as [Hi Hrest].
    destruct (check_item_returns chunk key value Hc Hi) as [b ->]. simpl.
    destruct b; [auto | unfold returns; eauto].
Qed.

(** C1.  For every passage list [P] and filter spec [f], whatever
    [apply_filters P f] returns is a sublist of [P]: a subset of the passages
    in their original relative order.  When [f] is absent or empty the result
    is [P] itself.  The call returns whenever dates are strings (the
    [document_date] of each passage and the bounds of a [date_range]).  The
    function is a pure map from its arguments to its result: the source
    builds a fresh list and assigns to nothing reachable from [P]. *)
Theorem apply_filters_sublist (P : list DocumentChunk) (f : option dict) :
  (f = None \/ f = Some [] -> apply_filters P f = Ok P) /\
  (forall r, apply_filters P f = Ok r -> r `sublist_of` P) /\
  (forallb dated_chunk P = true -> dated_filters f = true ->
   returns (apply_filters P f)).
Proof.
  split; [|split].
  - intros [-> | ->]; reflexivity.
  - intros r H. destruct f as [[|item f]|]; simpl in H.
    + injection H as <-. reflexivity.
    + apply filter_loop_Ok in H. subst r. apply filter_sublist.
    + injection H as <-. reflexivity.
  - intros HP Hf. destruct f as [[|item f]|]; simpl;
      try (unfold returns; eauto; fail).
    rewrite filter_loop_total; [unfold returns; eauto|].
    apply Forall_forall. intros c Hc.
    apply should_include_returns; [|exact Hf].
    rewrite forallb_forall in HP. apply HP.
    now apply list_elem_of_In.
Qed.

Lemma apply_filters_sublist_witness :
  returns (apply_filters sample_passages (Some sample_filters)).
Proof.
  apply (proj2 (proj2 (apply_filters_sublist sample_passages
                         (Some sample_filters)))); reflexivity.
Defined.

Lemma threshold_item_verdict (chunk : DocumentChunk) (t : pyval) :
  is_number t = true ->
  check_item chunk "relevance_threshold" t
    = Ok (Qle_bool (number_of t) (similarity_score chunk)).
Proof.
  intros Ht. unfold check_item. simpl. rewrite Ht. simpl.
  unfold check_threshold. cbn [float_lt]. now rewrite negb_Qlt_bool.
Qed.

Lemma threshold_bounds_accepted (chunk : DocumentChunk) (filters : dict)
    (t : pyval) :
  In ("relevance_threshold", t) filters -> is_number t = true ->
  _should_include_chunk chunk filters = Ok true ->
  Qle_bool (number_of t) (similarity_score chunk) = true.
Proof.
  intros Hin Ht.
  induction filters as [|[key value] rest IH]; [destruct Hin|].
  cbn [_should_include_chunk]. destruct Hin as [Heq | Hin].
  - injection Heq as -> ->. rewrite (threshold_item_verdict chunk t Ht).
    cbn [rbind]. destruct (Qle_bool _ _); [reflexivity | discriminate].
  - destruct (check_item chunk key value) as [[|]|e]; cbn [rbind];
      [auto | discriminate | discriminate].
Qed.

Lemma check_threshold_ge (score x : pyfloat) :
  score <> NaN -> x <> NaN ->
  check_threshold score x = float_ge score x.
Proof.
  intros Hscore Hx. unfold check_threshold.
  destruct score as [a|negative|], x as [b|negative'|];
    cbn [float_lt float_ge]; try congruence.
  - apply negb_Qlt_bool.
  - apply negb_involutive.
  - now destruct negative, negative'.
Qed.

Lemma check_threshold_not_a_number (score x : pyfloat) :
  score = NaN \/ x = NaN -> check_threshold score x = true.
Proof. intros [-> | ->]; [reflexivity | now destruct score]. Qed.

(** C5, as stated, fails for the threshold not-a-number, which is a float
    and so takes the [relevance_threshold] branch: no score is below it, so
    that the branch drops no passage, and no score is at least it.  In the
    same way a score that is not-a-number is below no threshold. *)
Lemma relevance_threshold_not_a_number :
  List.filter
    (fun c => check_threshold (Finite (similarity_score c)) NaN)
    sample_passages = sample_passages /\
  List.filter (fun c => float_ge (Finite (similarity_score c)) NaN)
    sample_passages = [] /\
  check_threshold NaN (Finite (5 # 10)) = true /\
  float_ge NaN (Finite (5 # 10)) = false.
Proof. repeat split; reflexivity. Qed.

(** C5.  With the filter spec [{"relevance_threshold": t}], [t] a number, the
    result is exactly the passages of [P] that the branch does not drop,
    which are those whose score is at least [t], in order; in particular a
    passage whose score equals [t] is kept.  Under any filter spec that has
    this entry, every passage of the result has a score of at least [t].
    For every score and every threshold that are floats other than
    not-a-number, the infinities included, the branch keeps a passage
    exactly when its score is at least the threshold; when one of them is
    not-a-number it keeps the passage. *)
Theorem relevance_threshold_exact (P : list DocumentChunk) (t : pyval) :
  is_number t = true ->
  apply_filters P (Some [("relevance_threshold", t)]) =
    Ok (List.filter
          (fun c => check_threshold (Finite (similarity_score c))
                      (Finite (number_of t))) P)
  /\ apply_filters P (Some [("relevance_threshold", t)]) =
    Ok (List.filter (fun c => Qle_bool (number_of t) (similarity_score c)) P)
  /\ (forall c, In c P -> (similarity_score c == number_of t)%Q ->
      In c (List.filter
              (fun c => Qle_bool (number_of t) (similarity_score c)) P))
  /\ (forall f r, In ("relevance_threshold", t) f ->
      apply_filters P (Some f) = Ok r ->
      Forall (fun c => (number_of t <= similarity_score c)%Q) r)
  /\ (forall score x : pyfloat, score <> NaN -> x <> NaN ->
      check_threshold score x = float_ge score x)
  /\ (forall score x : pyfloat, score = NaN \/ x = NaN ->
      check_threshold score x = true).
Proof.
  intros Ht.
  assert (Hexact : apply_filters P (Some [("relevance_threshold", t)]) =
    Ok (List.filter (fun c => Qle_bool (number_of t) (similarity_score c)) P)).
  { simpl. rewrite filter_loop_total.
    + f_equal. apply List.filter_ext. intros c.
      unfold includes. cbn [_should_include_chunk].
      rewrite (threshold_item_verdict c t Ht). cbn [rbind].
      destruct (Qle_bool _ _); reflexivity.
    + apply Forall_forall. intros c _. cbn [_should_include_chunk].
      rewrite (threshold_item_verdict c t Ht). cbn [rbind].
      destruct (Qle_bool _ _); unfold returns; eauto. }
  split; [|split; [exact Hexact|split; [|split; [|split]]]].
  - rewrite Hexact. f_equal. apply List.filter_ext. intros c.
    symmetry.
    apply (check_threshold_ge (Finite (similarity_score c))
             (Finite (number_of t))); discriminate.
  - intros c Hc Heq. apply filter_In. split; [exact Hc|].
    apply Qle_bool_iff. rewrite Heq. apply Qle_refl.
  - intros f r Hin Hr. destruct f as [|item f]; [destruct Hin|].
    simpl in Hr. apply filter_loop_Ok in Hr. subst r.
    apply Forall_forall. intros c Hc.
    apply list_elem_of_In, filter_In in Hc as [_ Hc].
    apply Qle_bool_iff. apply (threshold_bounds_accepted c _ t Hin Ht).
    unfold includes in Hc.
    destruct (_should_include_chunk c (item :: f)) as [[|]|e];
      [reflexivity | discriminate | discriminate].
  - apply check_threshold_ge.
  - apply check_threshold_not_a_number.
Qed.

Lemma relevance_threshold_exact_witness :
  apply_filters sample_passages
    (Some [("relevance_threshold", PFloat (5 # 10))]) =
  Ok [ mkChunk "Refunds are issued within 30 days."
         [("doc_id", PStr "doc-A"); ("document_date", PStr "2024-03-01")]
         (8 # 10);
       mkChunk "Refund requests need a receipt."
         [("doc_id", PStr "doc-A"); ("document_date", PStr "2023-11-20")]
         (5 # 10) ].
Proof.
  exact (proj1 (proj2 (relevance_threshold_exact sample_passages
                         (PFloat (5 # 10)) eq_refl))).
Defined.

(** *** The date predicate *)

Lemma string_leb_ltb (s d : string) : String.leb s d = negb (String.ltb d s).
Proof.
  unfold String.leb, String.ltb. rewrite (String.compare_antisym d s).
  destruct (String.compare s d); reflexivity.
Qed.

Lemma truthy_pyval_of_str (o : option string) :
  truthy (pyval_of_str o) = match nonempty o with Some _ => true | None => false end.
Proof. destruct o as [[|a s]|]; reflexivity. Qed.

Lemma nonempty_Some (o : option string) (s : string) :
  nonempty o = Some s -> o = Some s.
Proof. destruct o as [[|a s']|]; simpl; congruence. Qed.

(** C7, as stated, fails: an end bound that is given as the empty string is
    ignored by the source, so a dated passage is kept by the filter although
    its date is not at most the bound. *)
Lemma date_range_empty_end_bound :
  let chunk :=
    mkChunk "text" [("document_date", PStr "2024-06-01")] 0 in
  let date_range := [("start", PStr "2024-01-01"); ("end", PStr "")] in
  _check_date_range chunk date_range = Ok true /\
  apply_filters [chunk] (Some [("date_range", PDict date_range)])
    = Ok [chunk] /\
  date_rule_as_specified (Some "2024-06-01") (Some "2024-01-01") (Some "")
    = false.
Proof. repeat split; reflexivity. Qed.

(** C7, amended.  Under a [date_range] filter whose bounds are strings or
    [None], a passage whose [document_date] is missing, [None] or the empty
    string passes; a passage with a non-empty [document_date] passes iff the
    date is lexicographically at least the start bound, when that bound is
    given and not empty, and at most the end bound, when that bound is given
    and not empty.  The comparison is the plain order of strings, and the
    verdict is the one of the filter [{"date_range": date_range}]. *)
Theorem check_date_range_rule (chunk : DocumentChunk) (date_range : dict)
    (doc_date start_date end_date : option string) :
  dict_get (metadata chunk) "document_date" = pyval_of_str doc_date ->
  dict_get date_range "start" = pyval_of_str start_date ->
  dict_get date_range "end" = pyval_of_str end_date ->
  _check_date_range chunk date_range
    = Ok (date_rule doc_date start_date end_date) /\
  _should_include_chunk chunk [("date_range", PDict date_range)]
    = Ok (date_rule doc_date start_date end_date).
Proof.
  intros Hd Hs He.
  assert (H : _check_date_range chunk date_range
              = Ok (date_rule doc_date start_date end_date)).
  { unfold _check_date_range, py_gt, date_rule.
    rewrite Hd, Hs, He, !truthy_pyval_of_str.
    destruct (nonempty doc_date) as [d|] eqn:Ed; simpl; [|reflexivity].
    apply nonempty_Some in Ed. subst doc_date. simpl.
    destruct (nonempty start_date) as [s|] eqn:Es;
      [apply nonempty_Some in Es; subst start_date|];
      (destruct (nonempty end_date) as [e|] eqn:Ee;
       [apply nonempty_Some in Ee; subst end_date|]);
      simpl; rewrite ?string_leb_ltb;
      repeat (match goal with
              | |- context [String.ltb ?a ?b] =>
                  destruct (String.ltb a b); simpl
              end); reflexivity. }
  split; [exact H|].
  cbn [_should_include_chunk]. unfold check_item.
  cbn [String.eqb Ascii.eqb Bool.eqb is_dict dict_of andb]. rewrite H.
  simpl. destruct (date_rule doc_date start_date end_date); reflexivity.
Qed.

Lemma check_date_range_rule_witness :
  _check_date_range
    (mkChunk "text" [("document_date", PStr "2023-11-20")] 0)
    [("start", PStr "2024-01-01"); ("end", PStr "")]
  = Ok false.
Proof.
  exact (proj1 (check_date_range_rule
           (mkChunk "text" [("document_date", PStr "2023-11-20")] 0)
           [("start", PStr "2024-01-01"); ("end", PStr "")]
           (Some "2023-11-20") (Some "2024-01-01") (Some "")
           eq_refl eq_refl eq_refl)).
Defined.

(** ** Citation builder *)

Lemma substring_prefix (n : nat) (s : string) :
  (n <= String.length s)%nat ->
  exists rest, s = substring 0 n s ++ rest /\
               String.length (substring 0 n s) = n.
Proof.
  revert s. induction n as [|n IH]; intros s Hn.
  - exists s. destruct s; split; reflexivity.
  - destruct s as [|c s]; simpl in Hn; [lia|].
    destruct (IH s) as (rest & Hrest & Hlen); [lia|].
    exists rest. simpl. split; [|now f_equal].
    change (String c s = String c (substring 0 n s ++ rest)). now f_equal.
Qed.

Lemma citation_of_returns (chunk : DocumentChunk) :
  position_ok chunk = true -> returns (citation_of chunk).
Proof.
  unfold position_ok, citation_of, position_rect_of, returns.
  destruct (dict_lookup (metadata chunk) "position") as [[]|];
    try discriminate; simpl; eauto.
Qed.

Lemma citation_of_snippet (chunk : DocumentChunk) (c : Citation.t) :
  citation_of chunk = Ok c ->
  Citation.content_snippet c = _create_snippet (content chunk) 200.
Proof.
  unfold citation_of. intros H. bind_inv H. now injection H as <-.
Qed.

Lemma create_basic_citations_Ok (chunks : list DocumentChunk)
    (cs : list Citation.t) :
  create_basic_citations chunks = Ok cs ->
  Forall2 (fun chunk c => citation_of chunk = Ok c) chunks cs.
Proof.
  revert cs. induction chunks as [|chunk chunks IH]; simpl; intros cs H.
  - injection H as <-. constructor.
  - bind_inv H. bind_inv H. injection H as <-. constructor; auto.
Qed.

Lemma create_basic_citations_total (chunks : list DocumentChunk) :
  forallb position_ok chunks = true ->
  returns (create_basic_citations chunks).
Proof.
  induction chunks as [|chunk chunks IH]; simpl; intros H.
  - unfold returns; eauto.
  - apply andb_true_iff in H as [Hc Hcs].
    destruct (citation_of_returns chunk Hc) as [c ->].
    destruct (IH Hcs) as [cs ->]. simpl. unfold returns; eauto.
Qed.

(** C6.  The snippet of a content of at most 200 characters is the content;
    the snippet of a longer content is its first 200 characters followed by
    ["..."].  Whatever [create_basic_citations] returns has one citation per
    passage, in the order of the passages, the i-th carrying the snippet of
    the i-th passage; it returns whenever the [position] metadata of every
    passage is a mapping or is missing. *)
Theorem create_basic_citations_snippets :
  (forall text, (String.length text <= 200)%nat ->
     _create_snippet text 200 = text) /\
  (forall text, (200 < String.length text)%nat ->
     exists first rest,
       text = first ++ rest /\ String.length first = 200%nat /\
       _create_snippet text 200 = first ++ "...") /\
  (forall chunks cs, create_basic_citations chunks = Ok cs ->
     length cs = length chunks /\
     forall i chunk, chunks !! i = Some chunk ->
       exists c, cs !! i = Some c /\ citation_of chunk = Ok c /\
         Citation.content_snippet c = _create_snippet (content chunk) 200) /\
  (forall chunks, forallb position_ok chunks = true ->
     returns (create_basic_citations chunks)).
Proof.
  repeat split.
  - intros text Hlen. unfold _create_snippet.
    destruct (Nat.ltb_spec 200 (String.length text)); [lia | reflexivity].
  - intros text Hlen. unfold _create_snippet.
    destruct (Nat.ltb_spec 200 (String.length text)); [|lia].
    destruct (substring_prefix 200 text) as (rest & Hrest & Hfirst); [lia|].
    exists (substring 0 200 text), rest. auto.
  - apply create_basic_citations_Ok in H.
    symmetry. eapply Forall2_length, H.
  - intros i chunk Hi. apply create_basic_citations_Ok in H.
    destruct (Forall2_lookup_l _ _ _ _ _ H Hi) as (c & Hc & Hcit).
    exists c. repeat split; auto. now apply citation_of_snippet.
  - apply create_basic_citations_total.
Qed.

Lemma create_basic_citations_snippets_witness :
  (exists first rest,
     long_text = first ++ rest /\ String.length first = 200%nat /\
     _create_snippet long_text 200 = first ++ "...") /\
  returns (create_basic_citations sample_passages).
Proof.
  destruct create_basic_citations_snippets as (_ & Hlong & _ & Htotal).
  split.
  - apply Hlong. vm_compute. lia.
  - apply Htotal. reflexivity.
Defined.

Lemma enhanced_loop_Ok (chunks : list DocumentChunk)
    (vector_results : list ScoredResult.t) :
  forall (i0 : nat) (cs : list EnhancedCitation.t),
  enhanced_loop i0 chunks vector_results = Ok cs ->
  create_basic_citations chunks = Ok (EnhancedCitation.base <$> cs) /\
  forall j ec, cs !! j = Some ec ->
    EnhancedCitation.embedding_info ec
      = embedding_info_of <$> vector_results !! (i0 + j)%nat.
Proof.
  induction chunks as [|chunk chunks IH]; simpl; intros i0 cs H.
  - injection H as <-. split; [reflexivity | intros j ec Hj; discriminate].
  - bind_inv H. bind_inv H. injection H as <-.
    destruct (IH _ _ Ha0) as [Hbase Hinfo]. split.
    + rewrite Ha, Hbase. reflexivity.
    + intros [|j] ec Hj; simpl in Hj.
      * injection Hj as <-. simpl. rewrite Nat.add_0_r.
        destruct (Nat.ltb_spec i0 (length vector_results)) as [_|Hge];
          [reflexivity|].
        now rewrite (lookup_ge_None_2 vector_results i0 Hge).
      * rewrite (Hinfo j ec Hj). f_equal. f_equal. lia.
Qed.

Lemma enhanced_loop_total (chunks : list DocumentChunk)
    (vector_results : list ScoredResult.t) (bs : list Citation.t) :
  create_basic_citations chunks = Ok bs ->
  forall i0, returns (enhanced_loop i0 chunks vector_results).
Proof.
  revert bs. induction chunks as [|chunk chunks IH]; simpl; intros bs H i0.
  - unfold returns; eauto.
  - bind_inv H. bind_inv H. rewrite Ha.
    destruct (IH _ Ha0 (S i0)) as [cs ->]. simpl. unfold returns; eauto.
Qed.

(** C8.  Whatever [create_enhanced_citations] returns has one enhanced
    citation per passage, in order, whose base fields are those of the basic
    citation of the same passage.  The citation at position [i] carries
    embedding information when [i] is below the length of [vector_results]:
    its vector id is [str(vector_results[i].id)], its similarity score is
    [vector_results[i].score], its dimension is 768 and its model name is
    "embedding-model".  At every other position the citation carries none.
    [create_enhanced_citations] returns whenever [create_basic_citations]
    does. *)
Theorem create_enhanced_citations_positional (chunks : list DocumentChunk)
    (vector_results : list ScoredResult.t) :
  (forall cs, create_enhanced_citations chunks vector_results = Ok cs ->
     create_basic_citations chunks = Ok (EnhancedCitation.base <$> cs) /\
     length cs = length chunks /\
     forall i ec, cs !! i = Some ec ->
       ((i < length vector_results)%nat ->
        exists result info,
          vector_results !! i = Some result /\
          EnhancedCitation.embedding_info ec = Some info /\
          EmbeddingInfo.vector_id info = str_of_id (ScoredResult.id result) /\
          EmbeddingInfo.similarity_score info = ScoredResult.score result /\
          EmbeddingInfo.dimension info = 768 /\
          EmbeddingInfo.model_name info = "embedding-model") /\
       ((length vector_results <= i)%nat ->
        EnhancedCitation.embedding_info ec = None)) /\
  (forall bs, create_basic_citations chunks = Ok bs ->
     returns (create_enhanced_citations chunks vector_results)).
Proof.
  split.
  - intros cs H. apply enhanced_loop_Ok in H as [Hbase Hinfo].
    split; [exact Hbase|]. split.
    + apply create_basic_citations_Ok, Forall2_length in Hbase.
      rewrite length_fmap in Hbase. auto.
    + intros i ec Hi. rewrite (Hinfo i ec Hi). simpl. split.
      * intros Hlt. destruct (lookup_lt_is_Some_2 vector_results i Hlt)
          as [result Hr].
        exists result, (embedding_info_of result). rewrite Hr.
        split; [reflexivity|]. split; [reflexivity|].
        split; [reflexivity|]. split; [reflexivity|].
        split; reflexivity.
      * intros Hge. now rewrite (lookup_ge_None_2 vector_results i Hge).
  - intros bs H. now apply (enhanced_loop_total chunks vector_results bs).
Qed.

Lemma create_enhanced_citations_positional_witness :
  exists cs,
    create_enhanced_citations sample_passages sample_results = Ok cs /\
    length cs = 3%nat /\
    (forall ec, cs !! 0%nat = Some ec ->
       exists info,
         EnhancedCitation.embedding_info ec = Some info /\
         EmbeddingInfo.vector_id info = "17" /\
         EmbeddingInfo.similarity_score info = 8 # 10) /\
    (forall ec, cs !! 2%nat = Some ec ->
       EnhancedCitation.embedding_info ec = None).
Proof.
  destruct (create_basic_citations sample_passages) as [bs|e] eqn:E;
    [|discriminate E].
  destruct (proj2 (create_enhanced_citations_positional sample_passages
                     sample_results) bs E) as [cs Hcs].
  destruct (proj1 (create_enhanced_citations_positional sample_passages
                     sample_results) cs Hcs) as (_ & Hlen & Hpos).
  exists cs. split; [exact Hcs|]. split; [exact Hlen|]. split.
  - intros ec Hec.
    destruct (proj1 (Hpos 0%nat ec Hec))
      as (result & info & Hr & Hinfo & Hid & Hscore & _);
      [apply Nat.lt_0_succ|].
    injection Hr as <-. exists info.
    split; [exact Hinfo|]. split; [exact Hid | exact Hscore].
  - intros ec Hec. apply (proj2 (Hpos 2%nat ec Hec)). apply Nat.le_refl.
Defined.

(** ** Query engine: the retrieval pipeline *)

(** C2, as stated, fails: with the empty allow-list and nothing retrieved the
    answer is the bare message, without a mention of the allow-list. *)
Lemma process_query_empty_allow_list :
  exists response,
    process_query (engine_over [] []) "refund policy" None (Some [])
      = Ok response /\
    QueryResponse.answers response = [no_documents_message] /\
    QueryResponse.answers response <> [message_as_specified (Some [])].
Proof.
  eexists. split; [reflexivity|]. split; [reflexivity|].
  vm_compute. discriminate.
Qed.

(** C2, amended.  When the retriever returns and the passages that survive
    the document selection and the filters are none, [process_query] returns
    a response whose only answer is the fixed message, followed by the
    mention of the size of the allow-list exactly when the allow-list is
    given and not empty; its citations are empty and its metadata has
    [total_results] equal to 0. *)
Theorem process_query_no_results (self : QueryEngine.t) (query : string)
    (filters : option dict) (selected_document_ids : option (list string))
    (raw_results : list retrieved) :
  VectorStoreService.similarity_search (vector_store self) query 10
    = Ok raw_results ->
  apply_filters
    (select_documents (_convert_to_document_chunks raw_results)
       selected_document_ids) filters = Ok [] ->
  exists response,
    process_query self query filters selected_document_ids = Ok response /\
    QueryResponse.answers response
      = [ match selected_document_ids with
          | Some (id :: ids) =>
              no_documents_message ++ " Search was limited to "
                ++ pretty (length (id :: ids)) ++ " selected documents."
          | Some [] | None => no_documents_message
          end ] /\
    QueryResponse.citations response = [] /\
    dict_lookup (QueryResponse.metadata response) "total_results"
      = Some (PInt 0).
Proof.
  intros Hsearch Hfilter. unfold process_query.
  rewrite Hsearch. simpl. rewrite Hfilter. simpl.
  eexists. split; [reflexivity|]. simpl. split; [|split; reflexivity].
  destruct selected_document_ids as [[|id ids]|]; reflexivity.
Qed.

(** The scenario of the specification: one selected document, and retrieved
    passages that belong to another one. *)
Lemma process_query_no_results_witness :
  exists response,
    process_query
      (engine_over
         [LangchainDocument "Shipping takes five days."
            [("doc_id", PStr "doc-B")]] [])
      "refund policy" None (Some ["doc-A"]) = Ok response /\
    QueryResponse.answers response
      = [ "No relevant documents found matching the criteria. Search was limited to 1 selected documents." ] /\
    QueryResponse.citations response = [] /\
    dict_lookup (QueryResponse.metadata response) "total_results"
      = Some (PInt 0).
Proof.
  exact (process_query_no_results
           (engine_over
              [LangchainDocument "Shipping takes five days."
                 [("doc_id", PStr "doc-B")]] [])
           "refund policy" None (Some ["doc-A"])
           [LangchainDocument "Shipping takes five days."
              [("doc_id", PStr "doc-B")]]
           eq_refl eq_refl).
Defined.

(** *** Raw results and the relevance threshold *)








(** *** Enhanced citations of the enhanced pipeline *)

Lemma enhanced_citations_without_results (chunks : list DocumentChunk)
    (cs : list EnhancedCitation.t) :
  create_enhanced_citations chunks [] = Ok cs ->
  Forall (fun ec => EnhancedCitation.embedding_info ec = None) cs.
Proof.
  intros H. apply Forall_lookup. intros i ec Hi.
  apply enhanced_loop_Ok in H as [_ Hinfo].
  now rewrite (Hinfo i ec Hi).
Qed.

(** C10.  [process_enhanced_query] builds its citations with
    [create_enhanced_citations filtered_chunks []]: in every response it
    returns, the citations are either none (the empty response) or the
    enhanced citations of a non-empty passage list paired with the empty list
    of scored results, and every one of them has no embedding information. *)
Theorem process_enhanced_query_no_embedding (self : QueryEngine.t)
    (query : string) (filters : option dict)
    (selected_document_ids : option (list string))
    (response : EnhancedQueryResponse.t) :
  process_enhanced_query self query filters selected_document_ids
    = Ok response ->
  (EnhancedQueryResponse.citations response = [] \/
   exists filtered_chunks,
     filtered_chunks <> [] /\
     create_enhanced_citations filtered_chunks []
       = Ok (EnhancedQueryResponse.citations response) /\
     length (EnhancedQueryResponse.citations response)
       = length filtered_chunks) /\
  Forall (fun ec => EnhancedCitation.embedding_info ec = None)
    (EnhancedQueryResponse.citations response).
Proof.
  unfold process_enhanced_query. intros H.
  bind_inv H. cbv zeta in H. bind_inv H.
  destruct a0 as [|chunk filtered_chunks].
  - injection H as <-. simpl. split; [left; reflexivity | constructor].
  - bind_inv H. bind_inv H. injection H as <-. simpl. split.
    + right. exists (chunk :: filtered_chunks).
      split; [discriminate|]. split; [exact Ha2|].
      apply enhanced_loop_Ok in Ha2 as [Hbase _].
      apply create_basic_citations_Ok, Forall2_length in Hbase.
      rewrite length_fmap in Hbase. auto.
    + now apply (enhanced_citations_without_results
                   (chunk :: filtered_chunks)).
Qed.

Lemma process_enhanced_query_no_embedding_witness :
  exists response,
    process_enhanced_query (engine_over refund_results []) "refund policy"
      None None = Ok response /\
    length (EnhancedQueryResponse.citations response) = 2%nat /\
    Forall (fun ec => EnhancedCitation.embedding_info ec = None)
      (EnhancedQueryResponse.citations response).
Proof.
  eexists. split; [reflexivity|]. split; [reflexivity|].
  eapply (proj2 (process_enhanced_query_no_embedding
                   (engine_over refund_results []) "refund policy"
                   None None _ eq_refl)).
Defined.

(** ** Query engine: pagination *)

Lemma ceiling_of_quotient_pos (n s : Z) :
  0 < s -> ceiling_of_quotient n s = (n + s - 1) / s.
Proof.
  intros Hs. destruct s as [|p|p]; try lia.
  unfold ceiling_of_quotient, Qceiling, Qfloor, Qdiv, Qinv, Qmult, Qopp,
    inject_Z.
  cbn [Qnum Qden]. rewrite Z.mul_1_r, Pos.mul_1_l.
  pose proof (Z.div_mod (n + Z.pos p - 1) (Z.pos p) ltac:(lia)) as Hdiv.
  pose proof (Z.mod_pos_bound (n + Z.pos p - 1) (Z.pos p) ltac:(lia)) as Hmod.
  set (q := (n + Z.pos p - 1) / Z.pos p) in *.
  set (r := (n + Z.pos p - 1) mod Z.pos p) in *.
  enough (- n / Z.pos p = - q) by lia.
  symmetry. apply (Z.div_unique_pos (- n) (Z.pos p) (- q) (Z.pos p - 1 - r));
    lia.
Qed.

(** *** The float quotient *)

Lemma round_half_even_le (num den M : Z) :
  0 < den -> num <= M * den -> round_half_even num den <= M.
Proof.
  intros Hd HM. unfold round_half_even.
  pose proof (Z.div_mod num den ltac:(lia)) as Hdm.
  pose proof (Z.mod_pos_bound num den Hd) as Hr.
  assert (num / den <= M) by nia.
  assert (0 < num mod den -> num / den + 1 <= M) by nia.
  destruct (Z.compare_spec (2 * (num mod den)) den);
    [destruct (Z.even _)| |]; lia.
Qed.

Lemma round_half_even_gt (num den M : Z) :
  0 < den -> den < 2 * (num - M * den) -> M < round_half_even num den.
Proof.
  intros Hd HM. unfold round_half_even.
  pose proof (Z.div_mod num den ltac:(lia)) as Hdm.
  pose proof (Z.mod_pos_bound num den Hd) as Hr.
  assert (M <= num / den) by nia.
  assert (num / den = M -> den < 2 * (num mod den)) by nia.
  destruct (Z.compare_spec (2 * (num mod den)) den);
    [destruct (Z.even _)| |]; lia.
Qed.

(** Rounding [n / s] to a multiple of [2^-k] does not move it across an
    integer, as long as [s] is below [2^(k+1)]. *)
Lemma round_scaled_ceiling (n s k : Z) :
  0 < n -> 0 < s -> 0 <= k -> s < 2 ^ (k + 1) ->
  let m := round_half_even (n * 2 ^ k) s in
  (m + 2 ^ k - 1) / 2 ^ k = (n + s - 1) / s.
Proof.
  intros Hn Hs Hk Hb m.
  set (c := (n + s - 1) / s).
  assert (Hc : (c - 1) * s < n <= c * s).
  { pose proof (Z.div_mod (n + s - 1) s ltac:(lia)) as Hdm.
    pose proof (Z.mod_pos_bound (n + s - 1) s Hs). fold c in Hdm. nia. }
  assert (Hp : 0 < 2 ^ k) by (apply Z.pow_pos_nonneg; lia).
  assert (Hp' : 2 ^ (k + 1) = 2 * 2 ^ k)
    by (rewrite Z.pow_add_r by lia; change (2 ^ 1) with 2; lia).
  assert (Hle : m <= c * 2 ^ k).
  { apply round_half_even_le; [exact Hs|]. nia. }
  assert (Hgt : (c - 1) * 2 ^ k < m).
  { apply round_half_even_gt; [exact Hs|]. nia. }
  symmetry. apply Z.div_unique with (r := m + 2 ^ k - 1 - 2 ^ k * c); lia.
Qed.

Lemma pow2_le_bound (e a b : Z) :
  0 < a < 2 ^ 53 -> 0 < b -> e <= 52 -> pow2_le e a b = true ->
  b < 2 ^ (53 - e).
Proof.
  intros Ha Hb He H. unfold pow2_le in H.
  destruct (Z.leb_spec 0 e) as [H0 | H0].
  - apply Z.leb_le in H.
    assert (Hp : 0 < 2 ^ e) by (apply Z.pow_pos_nonneg; lia).
    assert (Hs : 2 ^ 53 = 2 ^ (53 - e) * 2 ^ e)
      by (rewrite <- Z.pow_add_r by lia; f_equal; lia).
    assert (0 < 2 ^ (53 - e)) by (apply Z.pow_pos_nonneg; lia).
    nia.
  - apply Z.leb_le in H.
    assert (Hp : 0 < 2 ^ (- e)) by (apply Z.pow_pos_nonneg; lia).
    assert (Hs : 2 ^ (53 - e) = 2 ^ 53 * 2 ^ (- e))
      by (rewrite <- Z.pow_add_r by lia; f_equal; lia).
    nia.
Qed.

Lemma exponent_spec (a b : Z) :
  0 < a -> 0 < b ->
  pow2_le (exponent a b) a b = true /\ exponent a b <= Z.log2 a.
Proof.
  intros Ha Hb. unfold exponent.
  pose proof (Z.log2_spec a Ha) as [Ha1 Ha2].
  pose proof (Z.log2_spec b Hb) as [Hb1 Hb2].
  pose proof (Z.log2_nonneg a) as Hla. pose proof (Z.log2_nonneg b) as Hlb.
  set (la := Z.log2 a) in *. set (lb := Z.log2 b) in *.
  destruct (pow2_le (la - lb) a b) eqn:E; [split; [exact E | lia]|].
  split; [|lia]. unfold pow2_le.
  destruct (Z.leb_spec 0 (la - lb - 1)) as [H0 | H0]; apply Z.leb_le.
  - assert (Hs : 2 ^ la = 2 ^ (Z.succ lb) * 2 ^ (la - lb - 1))
      by (rewrite <- Z.pow_add_r by lia; f_equal; lia).
    assert (0 < 2 ^ (la - lb - 1)) by (apply Z.pow_pos_nonneg; lia).
    nia.
  - assert (Hs : 2 ^ (Z.succ lb) = 2 ^ la * 2 ^ (- (la - lb - 1)))
      by (rewrite <- Z.pow_add_r by lia; f_equal; lia).
    assert (0 < 2 ^ la) by (apply Z.pow_pos_nonneg; lia).
    nia.
Qed.

Lemma nearest_double_ceiling (n s : Z) :
  0 < n < 2 ^ 53 -> 0 < s < 2 ^ 1075 ->
  Qceiling (nearest_double n s) = (n + s - 1) / s.
Proof.
  intros Hn Hs. unfold nearest_double.
  destruct (exponent_spec n s) as [Hle He]; [lia | lia |].
  assert (Hl : Z.log2 n < 53) by (apply Z.log2_lt_pow2; lia).
  set (e := exponent n s) in *.
  assert (Hb : s < 2 ^ (53 - Z.max e (-1022))).
  { destruct (Z.max_spec e (-1022)) as [[_ ->] | [_ ->]]; [lia|].
    apply pow2_le_bound with (a := n); [lia | lia | lia | exact Hle]. }
  assert (He' : Z.max e (-1022) <= 52) by lia.
  generalize dependent (Z.max e (-1022)). intros e' Hb He'.
  destruct (Z.leb_spec 0 (e' - 52)) as [H0 | H0].
  - assert (e' = 52) as -> by lia.
    change (52 - 52) with 0. change (2 ^ 0) with 1. rewrite !Z.mul_1_r.
    unfold Qceiling. rewrite <- inject_Z_opp, Qfloor_Z, Z.opp_involutive.
    pose proof (round_scaled_ceiling n s 0 ltac:(lia) ltac:(lia) ltac:(lia) Hb)
      as H.
    cbv zeta in H. change (2 ^ 0) with 1 in H.
    rewrite Z.mul_1_r, Z.div_1_r in H. lia.
  - fold (ceiling_of_quotient (round_half_even (n * 2 ^ (- (e' - 52))) s)
            (2 ^ (- (e' - 52)))).
    rewrite ceiling_of_quotient_pos by (apply Z.pow_pos_nonneg; lia).
    apply round_scaled_ceiling; [lia | lia | lia |].
    replace (- (e' - 52) + 1) with (53 - e') by lia. exact Hb.
Qed.

(** The ceiling of the float quotient is that of the exact quotient for
    fewer than [2^53] documents and a page size below [2^1075]. *)
Lemma ceil_div_exact (n s : Z) :
  0 < n < 2 ^ 53 -> 0 < s < 2 ^ 1075 ->
  ceil_div n s = ceiling_of_quotient n s.
Proof.
  intros Hn Hs. rewrite ceiling_of_quotient_pos by lia.
  unfold ceil_div, int_truediv.
  rewrite (Z.sgn_pos n), (Z.sgn_pos s) by lia. cbn [Z.mul Pos.mul].
  rewrite !Z.abs_eq by lia. now apply nearest_double_ceiling.
Qed.

Lemma py_slice_page {A : Type} (l : list A) (a b : Z) :
  0 <= a -> 0 <= b ->
  py_slice l a (a + b) = take (Z.to_nat b) (drop (Z.to_nat a) l).
Proof.
  intros Ha Hb. unfold py_slice, slice_bound.
  destruct (Z.ltb_spec a 0); [lia|].
  destruct (Z.ltb_spec (a + b) 0); [lia|].
  set (n := Z.of_nat (length l)).
  destruct (Z.le_gt_cases n a) as [Hna | Hna].
  - rewrite (Z.min_r a n) by lia.
    rewrite !(drop_ge l) by lia. now rewrite !take_nil.
  - rewrite (Z.min_l a n) by lia.
    destruct (Z.le_gt_cases (a + b) n) as [Hab | Hab].
    + rewrite (Z.min_l (a + b) n) by lia. do 2 f_equal. lia.
    + rewrite (Z.min_r (a + b) n) by lia.
      rewrite !take_ge; [reflexivity | |]; rewrite length_drop; lia.
Qed.

Lemma pages_cover {A : Type} (s : nat) (k : nat) (l : list A) :
  (length l <= k * s)%nat ->
  concat ((fun i => take s (drop (i * s) l)) <$> seq 0 k) = l.
Proof.
  revert l. induction k as [|k IH]; intros l Hlen.
  - simpl in *. destruct l; [reflexivity | simpl in Hlen; lia].
  - rewrite <- cons_seq, <- fmap_S_seq. cbn [fmap list_fmap concat].
    rewrite <- list_fmap_compose. rewrite Nat.mul_0_l, drop_0.
    transitivity (take s l ++ drop s l)%list; [|apply take_drop]. f_equal.
    rewrite <- (IH (drop s l)) by (rewrite length_drop; lia).
    f_equal. apply list_fmap_ext. intros _ i _. simpl.
    rewrite drop_drop. reflexivity.
Qed.

Lemma int_or_nonzero (z dflt : Z) : z <> 0 -> int_or (Some z) dflt = z.
Proof. destruct z; [congruence | reflexivity | reflexivity]. Qed.

Lemma page_count_max (total page_size : Z) :
  0 <= total < 2 ^ 53 -> 0 < page_size < 2 ^ 1075 ->
  (if 0 <? total then ceil_div total page_size else 1)
    = Z.max 1 (ceiling_of_quotient total page_size) /\
  total <= Z.max 1 (ceiling_of_quotient total page_size) * page_size.
Proof.
  intros Ht Hs.
  assert (Hexact : 0 < total ->
            ceil_div total page_size = ceiling_of_quotient total page_size)
    by (intros Hpos; apply ceil_div_exact; lia).
  rewrite (ceiling_of_quotient_pos total page_size) in * by lia.
  pose proof (Z.div_mod (total + page_size - 1) page_size ltac:(lia)) as Hdiv.
  pose proof (Z.mod_pos_bound (total + page_size - 1) page_size
                ltac:(lia)) as Hmod.
  set (q := (total + page_size - 1) / page_size) in *.
  destruct (Z.ltb_spec 0 total) as [Hpos | Hzero].
  - assert (1 <= q) by
      (apply (Z.div_le_lower_bound _ page_size 1); lia).
    rewrite (Hexact Hpos). split; [lia | nia].
  - assert (total = 0) by lia. subst total.
    assert (q = 0) by (apply Z.div_small; lia).
    split; lia.
Qed.

Section Pagination.

Variable lower : string -> string.
Variable py_str : pyval -> string.
Variable datetime : Type.
Variable strptime : string -> string -> option datetime.
Variable datetime_lt : datetime -> datetime -> bool.
Variable list_sort :
  list (pyval * Document.t) -> bool -> result (list Document.t).

Local Abbreviation sorted_listing :=
  (filter_and_sort lower py_str datetime strptime datetime_lt list_sort).
Local Abbreviation search :=
  (search_documents lower py_str datetime strptime datetime_lt list_sort).

Lemma search_documents_page (self : QueryEngine.t)
    (search_request : DocumentSearchRequest.t)
    (docs : list Document.t) (filters_applied : dict)
    (page_size page_number : Z) :
  sorted_listing self search_request = Ok (docs, filters_applied) ->
  0 < page_size < 2 ^ 1075 -> Z.of_nat (length docs) < 2 ^ 53 ->
  page_number <> 0 ->
  search self (with_page search_request page_size page_number)
    = Ok {| DocumentSearchResult.documents :=
              py_slice docs ((page_number - 1) * page_size)
                ((page_number - 1) * page_size + page_size);
            DocumentSearchResult.total_count := Z.of_nat (length docs);
            DocumentSearchResult.page_count :=
              Z.max 1
                (ceiling_of_quotient (Z.of_nat (length docs)) page_size);
            DocumentSearchResult.current_page := page_number;
            DocumentSearchResult.page_size := page_size;
            DocumentSearchResult.filters_applied := filters_applied |}.
Proof.
  intros Hsorted Hs Hlen Hn. unfold search_documents.
  change (filter_and_sort lower py_str datetime strptime datetime_lt
            list_sort self (with_page search_request page_size page_number))
    with (sorted_listing self search_request).
  rewrite Hsorted. cbn [rbind fst snd]. unfold paginate.
  cbn [with_page DocumentSearchRequest.page_size
       DocumentSearchRequest.page_number].
  rewrite (int_or_nonzero page_size 50) by lia.
  rewrite (int_or_nonzero page_number 1) by exact Hn.
  destruct (page_count_max (Z.of_nat (length docs)) page_size) as [-> _];
    [lia | exact Hs | reflexivity].
Qed.

(** C3.  Let [docs] be the filtered and sorted listing of a request, of
    fewer than [2^53] documents, and [page_size] a positive page size below
    [2^1075].  Every page of the request has [page_count] equal to
    [max(1, ceil(total_count / page_size))], which is 1 when the listing is
    empty, and the page slices of the pages [1 .. page_count], appended in
    order, are [docs]. *)
Theorem search_documents_pagination (self : QueryEngine.t)
    (search_request : DocumentSearchRequest.t)
    (docs : list Document.t) (filters_applied : dict) (page_size : Z) :
  sorted_listing self search_request = Ok (docs, filters_applied) ->
  0 < page_size < 2 ^ 1075 ->
  Z.of_nat (length docs) < 2 ^ 53 ->
  let total_count := Z.of_nat (length docs) in
  let page_count := Z.max 1 (ceiling_of_quotient total_count page_size) in
  let page n := search self (with_page search_request page_size n) in
  (forall n, exists res,
     page n = Ok res /\
     DocumentSearchResult.total_count res = total_count /\
     DocumentSearchResult.page_count res = page_count) /\
  (total_count = 0 -> page_count = 1) /\
  concat ((fun n => page_documents (page n)) <$> seqZ 1 page_count) = docs.
Proof.
  intros Hsorted Hs Hlen total_count page_count page.
  destruct (page_count_max total_count page_size) as [Hcount Hcover];
    [lia | exact Hs |].
  fold page_count in Hcount, Hcover.
  split; [|split].
  - intros n. destruct (Z.eq_dec n 0) as [-> | Hn].
    + unfold page, search_documents.
      change (filter_and_sort lower py_str datetime strptime datetime_lt
                list_sort self (with_page search_request page_size 0))
        with (sorted_listing self search_request).
      rewrite Hsorted. cbn [rbind fst snd]. eexists.
      split; [reflexivity|]. unfold paginate.
      cbn [with_page DocumentSearchRequest.page_size
           DocumentSearchRequest.page_number
           DocumentSearchResult.total_count
           DocumentSearchResult.page_count].
      rewrite (int_or_nonzero page_size 50) by lia.
      split; [reflexivity | exact Hcount].
    + eexists. split;
        [apply (search_documents_page _ _ _ _ _ _ Hsorted Hs Hlen Hn)|].
      split; reflexivity.
  - intros H0. unfold page_count. rewrite H0.
    rewrite ceiling_of_quotient_pos by lia.
    rewrite Z.div_small by lia. reflexivity.
  - unfold seqZ. rewrite <- list_fmap_compose.
    transitivity
      (concat ((fun i => take (Z.to_nat page_size)
                           (drop (i * Z.to_nat page_size) docs))
               <$> seq 0 (Z.to_nat page_count)));
      [|apply pages_cover; nia].
    f_equal. apply list_fmap_ext. intros _ i _. simpl. unfold page.
    rewrite (search_documents_page _ _ _ _ _ (Z.of_nat i + 1)
               Hsorted Hs Hlen) by lia.
    simpl. rewrite py_slice_page by lia. do 2 f_equal. lia.
Qed.

End Pagination.

Lemma search_documents_pagination_witness :
  let page n :=
    search_documents (fun s => s) (fun _ => "") Z (fun _ _ => None) Z.ltb
      keep_order listing_engine (with_page invoice_request 2 n) in
  (forall n, exists res,
     page n = Ok res /\
     DocumentSearchResult.total_count res = 5 /\
     DocumentSearchResult.page_count res = 3) /\
  (5 = 0 -> 3 = 1) /\
  concat ((fun n => page_documents (page n)) <$> seqZ 1 3)
    = listed_documents.
Proof.
  pose proof
    (search_documents_pagination (fun s => s) (fun _ => "") Z
       (fun _ _ => None) Z.ltb keep_order listing_engine invoice_request
       listed_documents
       [("search_term", PStr "invoice")] 2 eq_refl
       (conj eq_refl eq_refl) eq_refl) as H.
  cbv zeta in H.
  change (Z.of_nat (length listed_documents)) with 5 in H.
  change (Z.max 1 (ceiling_of_quotient 5 2)) with 3 in H.
  exact H.
Defined.

(** C3, as stated, fails for a page size of [2^1075] or more: the float
    quotient of the two numbers is then 0.0.  With five documents and a page
    size of [10^400] the search reports a [page_count] of 0, where
    [max(1, ceil(total_count / page_size))] is 1, so that the pages
    [1 .. page_count] are none at all, and yet it returns the five
    documents as page 1. *)
Lemma search_documents_huge_page_size :
  let page n :=
    search_documents (fun s => s) (fun _ => "") Z (fun _ _ => None) Z.ltb
      keep_order listing_engine (with_page invoice_request (10 ^ 400) n) in
  exists res,
    page 1 = Ok res /\
    DocumentSearchResult.total_count res = 5 /\
    DocumentSearchResult.page_count res = 0 /\
    Z.max 1 (ceiling_of_quotient 5 (10 ^ 400)) = 1 /\
    DocumentSearchResult.documents res = listed_documents /\
    concat ((fun n => page_documents (page n))
              <$> seqZ 1 (DocumentSearchResult.page_count res))
      <> listed_documents.
Proof.
  cbv zeta. eexists. split; [vm_compute; reflexivity|].
  split; [reflexivity|]. split; [reflexivity|].
  split; [vm_compute; reflexivity|]. split; [reflexivity|].
  discriminate.
Qed.

(** ** Query engine: theme index resolution *)

Lemma py_lt_int (z n : Z) : py_lt (PInt z) (PInt n) = Ok (z <? n).
Proof.
  simpl. f_equal. unfold Qlt_bool, Qle_bool, inject_Z. simpl.
  rewrite !Z.mul_1_r. rewrite Z.ltb_antisym. reflexivity.
Qed.

(** An index at or beyond the length of the candidate list is skipped. *)
Lemma resolve_indices_skips_large (chunks : list DocumentChunk) (z : Z)
    (rest : list pyval) :
  Z.of_nat (length chunks) <= z ->
  resolve_indices chunks (PInt z :: rest) = resolve_indices chunks rest.
Proof.
  intros Hz. cbn [resolve_indices]. rewrite py_lt_int.
  destruct (Z.ltb_spec z (Z.of_nat (length chunks))); [lia | reflexivity].
Qed.

(** An index within [0 .. len-1] resolves to the passage at that
    position. *)
Lemma resolve_indices_in_range (chunks : list DocumentChunk) (z : Z)
    (rest : list pyval) (chunk : DocumentChunk) :
  0 <= z -> chunks !! Z.to_nat z = Some chunk ->
  resolve_indices chunks (PInt z :: rest)
    = (do theme_chunks <- resolve_indices chunks rest;
       Ok (chunk :: theme_chunks)).
Proof.
  intros Hz Hlookup. pose proof (lookup_lt_Some _ _ _ Hlookup) as Hlt.
  cbn [resolve_indices]. rewrite py_lt_int.
  rewrite (proj2 (Z.ltb_lt z _)) by lia. cbn [rbind].
  unfold list_getitem. cbv zeta.
  rewrite (proj2 (Z.ltb_ge z 0)) by lia. cbv iota.
  rewrite (proj2 (Z.ltb_ge z 0)), (proj2 (Z.leb_gt _ z)) by lia.
  cbn [orb]. rewrite Hlookup. reflexivity.
Qed.

(** A negative index is not skipped: it counts from the end of the candidate
    list, and raises [IndexError] when it reaches before the first
    candidate. *)
Lemma resolve_indices_negative (chunks : list DocumentChunk) (z : Z)
    (rest : list pyval) :
  z < 0 ->
  (z < - Z.of_nat (length chunks) ->
   resolve_indices chunks (PInt z :: rest) = Raise IndexError) /\
  (- Z.of_nat (length chunks) <= z ->
   exists chunk,
     chunks !! Z.to_nat (z + Z.of_nat (length chunks)) = Some chunk /\
     resolve_indices chunks (PInt z :: rest)
       = (do theme_chunks <- resolve_indices chunks rest;
          Ok (chunk :: theme_chunks))).
Proof.
  intros Hz. cbn [resolve_indices]. rewrite py_lt_int.
  rewrite (proj2 (Z.ltb_lt z _)) by lia. cbn [rbind].
  unfold list_getitem. cbv zeta. rewrite (proj2 (Z.ltb_lt z 0)) by lia.
  cbv iota. split; intros Hlow.
  - rewrite (proj2 (Z.ltb_lt (z + _) 0)) by lia. reflexivity.
  - rewrite (proj2 (Z.ltb_ge (z + _) 0)), (proj2 (Z.leb_gt _ (z + _))) by lia.
    cbn [orb].
    destruct (lookup_lt_is_Some_2 chunks
                (Z.to_nat (z + Z.of_nat (length chunks)))) as [chunk Hc];
      [lia|].
    exists chunk. rewrite Hc. split; reflexivity.
Qed.

(** Whatever is resolved is one of the candidates. *)
Lemma resolve_indices_members (chunks : list DocumentChunk)
    (doc_indices : list pyval) (theme_chunks : list DocumentChunk) :
  resolve_indices chunks doc_indices = Ok theme_chunks ->
  Forall (fun chunk => chunk ∈ chunks) theme_chunks.
Proof.
  revert theme_chunks.
  induction doc_indices as [|idx rest IH]; simpl; intros theme_chunks H.
  - injection H as <-. constructor.
  - bind_inv H. destruct a; [|auto].
    bind_inv H. bind_inv H. injection H as <-. constructor; [|auto].
    unfold list_getitem in Ha0.
    destruct idx; try discriminate;
      match type of Ha0 with
      | (if ?b then _ else _) = _ => destruct b; [discriminate|]
      end;
      match type of Ha0 with
      | match ?l !! ?i with _ => _ end = _ =>
          destruct (l !! i) as [x|] eqn:E; [|discriminate]
      end;
      injection Ha0 as <-; eapply list_elem_of_lookup_2; eauto.
Qed.

(** C4, on the source.  With two candidate passages, the out-of-range index
    [-3] of a theme is not discarded: each of the three entry points raises
    [IndexError].  The out-of-range index [-1] is not discarded either: it
    resolves to the last candidate, which is cited for the theme.  The index
    [2], at the length of the candidate list, is discarded. *)
Theorem theme_negative_index_not_discarded :
  extract_themes (theme_engine [theme_with [0; -3]]) "refund policy" None
    = Raise IndexError /\
  extract_themes_for_document (theme_engine [theme_with [0; -3]]) "doc-A"
    = Raise IndexError /\
  extract_all_themes (theme_engine [theme_with [0; -3]]) = Raise IndexError /\
  (exists response,
     extract_themes (theme_engine [theme_with [-1]]) "refund policy" None
       = Ok response /\
     (Citation.content_snippet <$>
        default [] (snd <$> head (ThemeResponse.detailed_citations response)))
       = ["Refund requests need a receipt."]) /\
  (exists response,
     extract_themes (theme_engine [theme_with [2]]) "refund policy" None
       = Ok response /\
     ThemeResponse.detailed_citations response = [(PStr "Refunds", [])]).
Proof.
  repeat split; try reflexivity; eexists; split; reflexivity.
Qed.

(** * Further properties *)

(** ** Document filter, continued *)

Lemma filter_loop_no_filters (chunks : list DocumentChunk) :
  filter_loop chunks [] = Ok chunks.
Proof.
  induction chunks as [|c cs IH]; [reflexivity|].
  cbn [filter_loop _should_include_chunk rbind]. now rewrite IH.
Qed.

Lemma apply_filters_loop (chunks : list DocumentChunk) (filters : dict) :
  apply_filters chunks (Some filters) = filter_loop chunks filters.
Proof.
  destruct filters; [|reflexivity]. simpl. now rewrite filter_loop_no_filters.
Qed.

Lemma should_include_app (chunk : DocumentChunk) (f1 f2 : dict) :
  _should_include_chunk chunk (f1 ++ f2)%list
    = (do pass <- _should_include_chunk chunk f1;
       if pass then _should_include_chunk chunk f2 else Ok false).
Proof.
  induction f1 as [|[key value] f1 IH]; [reflexivity|].
  cbn [app _should_include_chunk].
  destruct (check_item chunk key value) as [[|]|e]; cbn [rbind];
    [exact IH | reflexivity | reflexivity].
Qed.

Lemma filter_loop_app (chunks : list DocumentChunk) (f1 f2 : dict)
    (r : list DocumentChunk) :
  filter_loop chunks (f1 ++ f2)%list = Ok r <->
  exists r1, filter_loop chunks f1 = Ok r1 /\ filter_loop r1 f2 = Ok r.
Proof.
  revert r. induction chunks as [|c cs IH]; intros r.
  - simpl. split.
    + intros H. exists []. split; [reflexivity | exact H].
    + intros (r1 & H1 & H2). injection H1 as <-. exact H2.
  - cbn [filter_loop]. rewrite should_include_app. split.
    + intros H. bind_inv H. bind_inv H. injection H as <-.
      bind_inv Ha. apply IH in Ha0 as (r1 & Hr1 & Hr2).
      rewrite Ha1, Hr1. cbn [rbind]. destruct a1.
      * eexists. split; [reflexivity|]. cbn [filter_loop].
        rewrite Ha, Hr2. reflexivity.
      * injection Ha as <-. eexists. split; [reflexivity | exact Hr2].
    + intros (r1 & H1 & H2). bind_inv H1. bind_inv H1. injection H1 as <-.
      rewrite Ha. cbn [rbind]. destruct a.
      * cbn [filter_loop] in H2. bind_inv H2. bind_inv H2. injection H2 as <-.
        rewrite Ha1. cbn [rbind].
        rewrite (proj2 (IH a1) (ex_intro _ a0 (conj Ha0 Ha2))). reflexivity.
      * cbn [rbind]. rewrite (proj2 (IH r) (ex_intro _ a0 (conj Ha0 H2))).
        reflexivity.
Qed.

(** X1.  Filtering by the entries of [f1] and then by those of [f2] is the
    same as filtering once by all of them: the entries are AND-ed. *)
Theorem apply_filters_stages (P : list DocumentChunk) (f1 f2 : dict)
    (r : list DocumentChunk) :
  apply_filters P (Some (f1 ++ f2)%list) = Ok r <->
  exists r1, apply_filters P (Some f1) = Ok r1 /\
             apply_filters r1 (Some f2) = Ok r.
Proof.
  rewrite apply_filters_loop, filter_loop_app.
  split; intros (r1 & H1 & H2); exists r1;
    rewrite ?apply_filters_loop in *; auto.
Qed.

Lemma filter_loop_accepts (chunks : list DocumentChunk) (filters : dict)
    (r : list DocumentChunk) :
  filter_loop chunks filters = Ok r ->
  Forall (fun c => returns (_should_include_chunk c filters)) chunks /\
  Forall (fun c => _should_include_chunk c filters = Ok true) r.
Proof.
  revert r. induction chunks as [|c cs IH]; simpl; intros r H.
  - injection H as <-. split; constructor.
  - bind_inv H. bind_inv H. injection H as <-.
    destruct (IH _ Ha0) as [Hall Hr]. split.
    + constructor; [now exists a | exact Hall].
    + destruct a; [constructor; assumption | exact Hr].
Qed.

Lemma filter_loop_fixed (chunks : list DocumentChunk) (filters : dict) :
  Forall (fun c => _should_include_chunk c filters = Ok true) chunks ->
  filter_loop chunks filters = Ok chunks.
Proof.
  induction 1 as [|c cs Hc _ IH]; [reflexivity|].
  cbn [filter_loop]. rewrite Hc, IH. reflexivity.
Qed.

(** X2.  Filtering is idempotent: applying the same filter spec to a result
    of [apply_filters] returns that result unchanged. *)
Theorem apply_filters_idempotent (P : list DocumentChunk)
    (f : option dict) (r : list DocumentChunk) :
  apply_filters P f = Ok r -> apply_filters r f = Ok r.
Proof.
  destruct f as [f|]; [|intros _; reflexivity].
  rewrite !apply_filters_loop. intros H.
  apply filter_loop_fixed. now apply (filter_loop_accepts P).
Qed.

Lemma apply_filters_idempotent_witness :
  apply_filters (take 1 sample_passages) (Some sample_filters)
  = Ok (take 1 sample_passages).
Proof.
  exact (apply_filters_idempotent sample_passages (Some sample_filters)
           (take 1 sample_passages) eq_refl).
Defined.

Lemma should_include_true_iff (chunk : DocumentChunk) (filters : dict) :
  _should_include_chunk chunk filters = Ok true <->
  Forall (fun item => check_item chunk (fst item) (snd item) = Ok true)
    filters.
Proof.
  induction filters as [|[key value] rest IH]; simpl.
  - split; [constructor | reflexivity].
  - split.
    + intros H. bind_inv H. destruct a; [|discriminate].
      constructor; [exact Ha | now apply IH].
    + intros H. inversion H as [|? ? Hitem Hrest]; subst. simpl in Hitem.
      rewrite Hitem. simpl. now apply IH.
Qed.

Lemma should_include_false_item (chunk : DocumentChunk) (filters : dict) :
  _should_include_chunk chunk filters = Ok false ->
  exists item, In item filters /\
               check_item chunk (fst item) (snd item) = Ok false.
Proof.
  induction filters as [|[key value] rest IH]; simpl; [discriminate|].
  intros H. bind_inv H. destruct a.
  - destruct (IH H) as (item & Hin & Hitem). exists item. auto.
  - exists (key, value). auto.
Qed.

Lemma should_include_permutation (chunk : DocumentChunk) (f f' : dict)
    (b b' : bool) :
  Permutation f f' ->
  _should_include_chunk chunk f = Ok b ->
  _should_include_chunk chunk f' = Ok b' -> b = b'.
Proof.
  intros Hperm Hb Hb'. destruct b, b'; try reflexivity.
  - apply should_include_true_iff in Hb.
    apply should_include_false_item in Hb' as (item & Hin & Hitem).
    rewrite Forall_forall in Hb.
    apply (Permutation_in _ (Permutation_sym Hperm)) in Hin.
    apply list_elem_of_In, Hb in Hin. congruence.
  - apply should_include_true_iff in Hb'.
    apply should_include_false_item in Hb as (item & Hin & Hitem).
    rewrite Forall_forall in Hb'.
    apply (Permutation_in _ Hperm) in Hin.
    apply list_elem_of_In, Hb' in Hin. congruence.
Qed.

(** X3.  The order of the entries of a filter spec does not matter for the
    result: two specs with the same entries in different orders give the
    same passages, whenever both calls return. *)
Theorem apply_filters_entry_order (P : list DocumentChunk) (f f' : dict)
    (r r' : list DocumentChunk) :
  Permutation f f' ->
  apply_filters P (Some f) = Ok r -> apply_filters P (Some f') = Ok r' ->
  r = r'.
Proof.
  rewrite !apply_filters_loop. intros Hperm Hr Hr'.
  destruct (filter_loop_accepts _ _ _ Hr) as [Hall _].
  destruct (filter_loop_accepts _ _ _ Hr') as [Hall' _].
  apply filter_loop_Ok in Hr, Hr'. subst r r'.
  clear -Hperm Hall Hall'.
  induction P as [|c cs IH]; [reflexivity|].
  inversion Hall as [|? ? [b Hb] Hcs]; subst.
  inversion Hall' as [|? ? [b' Hb'] Hcs']; subst.
  cbn [List.filter].
  replace (includes f c) with b by (unfold includes; now rewrite Hb).
  replace (includes f' c) with b' by (unfold includes; now rewrite Hb').
  rewrite (should_include_permutation c f f' b b' Hperm Hb Hb').
  now rewrite (IH Hcs Hcs').
Qed.

Lemma apply_filters_entry_order_witness :
  exists r r',
    apply_filters sample_passages (Some sample_filters) = Ok r
    /\ apply_filters sample_passages (Some (rev sample_filters)) = Ok r'
    /\ r = r'.
Proof.
  eexists _, _. split; [reflexivity|]. split; [reflexivity|].
  exact (apply_filters_entry_order sample_passages sample_filters
           (rev sample_filters) _ _ (Permutation_rev sample_filters)
           eq_refl eq_refl).
Defined.


(** X4.  An entry of the filter spec whose key a passage does not have in its
    metadata does not reject the passage, unless it is one of the three
    special entries in its expected type.  In particular a
    [relevance_threshold] that is not a number, a [document_ids] that is not
    a list and a [date_range] that is not a mapping are ignored for passages
    that have no metadata under those names. *)
Theorem absent_key_not_checked (P : list DocumentChunk) (key : string)
    (value : pyval) :
  forallb (lacks_key key) P = true ->
  (special_key key = false \/
   (key = "date_range" /\ is_dict value = false) \/
   (key = "relevance_threshold" /\ is_number value = false) \/
   (key = "document_ids" /\ is_list value = false)) ->
  apply_filters P (Some [(key, value)]) = Ok P.
Proof.
  intros Hlack Hkey. rewrite apply_filters_loop. apply filter_loop_fixed.
  apply Forall_forall. intros c Hc.
  rewrite forallb_forall in Hlack.
  apply list_elem_of_In, Hlack in Hc. unfold lacks_key in Hc.
  apply negb_true_iff in Hc.
  cbn [_should_include_chunk]. unfold check_item. rewrite Hc.
  destruct Hkey as [Hsp | [[-> Hv] | [[-> Hv] | [-> Hv]]]].
  - unfold special_key in Hsp.
    apply orb_false_iff in Hsp as [Hsp H3].
    apply orb_false_iff in Hsp as [H1 H2].
    rewrite H1, H2, H3. reflexivity.
  - rewrite Hv. reflexivity.
  - rewrite Hv. reflexivity.
  - rewrite Hv. reflexivity.
Qed.

Lemma absent_key_not_checked_witness :
  apply_filters sample_passages (Some [("author", PStr "Smith")])
  = Ok sample_passages
  /\ apply_filters sample_passages
       (Some [("relevance_threshold", PStr "0.9")])
     = Ok sample_passages.
Proof.
  split.
  - exact (absent_key_not_checked sample_passages "author" (PStr "Smith")
             eq_refl (or_introl eq_refl)).
  - exact (absent_key_not_checked sample_passages "relevance_threshold"
             (PStr "0.9") eq_refl
             (or_intror (or_intror (or_introl (conj eq_refl eq_refl))))).
Defined.

(** X5.  The filter entry [document_ids] with a non-empty list of ids keeps
    the same passages as the selection of those ids in [process_query]; with
    the empty list the filter entry rejects every passage, whereas the
    selection keeps every passage. *)
Theorem document_ids_filter_and_selection (P : list DocumentChunk)
    (ids : list string) :
  (ids <> [] ->
   apply_filters P (Some [("document_ids", PList (PStr <$> ids))])
     = Ok (select_documents P (Some ids))) /\
  apply_filters P (Some [("document_ids", PList [])]) = Ok [] /\
  select_documents P (Some []) = P.
Proof.
  assert (Hitem : forall l c,
            _should_include_chunk c [("document_ids", PList l)]
            = Ok (py_in (dict_get (metadata c) "doc_id") l)).
  { intros l c. cbn [_should_include_chunk]. unfold check_item. simpl.
    destruct (py_in _ l); reflexivity. }
  assert (Hfilter : forall l,
            apply_filters P (Some [("document_ids", PList l)])
            = Ok (List.filter
                    (fun c => py_in (dict_get (metadata c) "doc_id") l) P)).
  { intros l. rewrite apply_filters_loop, filter_loop_total.
    - f_equal. apply List.filter_ext. intros c. unfold includes.
      now rewrite Hitem.
    - apply Forall_forall. intros c _. rewrite Hitem. unfold returns. eauto. }
  split; [|split].
  - intros Hne. rewrite Hfilter. unfold select_documents.
    destruct ids; [congruence | reflexivity].
  - rewrite Hfilter. f_equal. clear. induction P as [|c cs IH];
      [reflexivity | exact IH].
  - reflexivity.
Qed.

(** ** Citation builder, continued *)

Lemma length_append (s t : string) :
  String.length (s ++ t) = (String.length s + String.length t)%nat.
Proof.
  induction s as [|c s IH]; [reflexivity|].
  change (String c s ++ t) with (String c (s ++ t)). simpl. now rewrite IH.
Qed.

(** X6.  A snippet is never longer than [max_length + 3]: it has the length
    of the content when that is at most [max_length], and exactly
    [max_length + 3] otherwise, so with the default limit a snippet has up
    to 203 characters and may be longer than the content it abbreviates. *)
Theorem create_snippet_length (text : string) (max_length : nat) :
  ((String.length text <= max_length)%nat ->
   String.length (_create_snippet text max_length) = String.length text) /\
  ((max_length < String.length text)%nat ->
   String.length (_create_snippet text max_length) = (max_length + 3)%nat) /\
  (String.length (_create_snippet text max_length) <= max_length + 3)%nat.
Proof.
  unfold _create_snippet.
  destruct (Nat.ltb_spec max_length (String.length text)) as [Hlt | Hle].
  - destruct (substring_prefix max_length text) as (rest & _ & Hlen); [lia|].
    rewrite length_append, Hlen. simpl. repeat split; lia.
  - repeat split; lia.
Qed.

Lemma create_snippet_length_witness :
  String.length (_create_snippet long_text 200) = 203%nat.
Proof.
  apply (proj1 (proj2 (create_snippet_length long_text 200))).
  vm_compute. lia.
Defined.

(** X7.  [create_basic_citations] fails exactly when the [position] metadata
    of some passage is present and is not a mapping, and then with
    [AttributeError]; this is its only failure. *)
Theorem create_basic_citations_failure (chunks : list DocumentChunk) :
  (forallb position_ok chunks = false <->
   create_basic_citations chunks = Raise AttributeError) /\
  (forall e, create_basic_citations chunks = Raise e -> e = AttributeError).
Proof.
  assert (Hone : forall chunk,
            if position_ok chunk then returns (citation_of chunk)
            else citation_of chunk = Raise AttributeError).
  { intros chunk. unfold position_ok, citation_of, position_rect_of, returns.
    destruct (dict_lookup (metadata chunk) "position") as [[]|]; simpl; eauto. }
  induction chunks as [|chunk chunks [IH1 IH2]].
  - simpl. split; [split; discriminate | discriminate].
  - cbn [forallb create_basic_citations]. specialize (Hone chunk).
    destruct (position_ok chunk).
    + destruct Hone as [c ->]. cbn [andb rbind].
      destruct (create_basic_citations chunks) as [cs|e']; cbn [rbind].
      * split; [|discriminate]. rewrite IH1. split; discriminate.
      * split.
        -- rewrite IH1. split; intros H; injection H as ->; reflexivity.
        -- intros e H. injection H as <-. now apply IH2.
    + rewrite Hone. cbn [andb rbind]. split; [split; reflexivity|].
      intros e H. now injection H as <-.
Qed.


Lemma create_basic_citations_failure_witness :
  create_basic_citations (sample_passages ++ [broken_passage])%list
    = Raise AttributeError.
Proof.
  apply (proj1 (create_basic_citations_failure _)). reflexivity.
Defined.

(** ** Query engine, continued *)

(** X8.  A response of [process_query] that is not the empty response has
    exactly one answer, the one of the generative collaborator for the query
    and the context made of the surviving passages; it has one citation per
    surviving passage, and [total_results] in its metadata is their number;
    [documents_searched] is the size of the allow-list when a non-empty one
    was given and ["all"] otherwise. *)
Theorem process_query_found (self : QueryEngine.t) (query : string)
    (filters : option dict) (selected_document_ids : option (list string))
    (raw_results : list retrieved) (chunk : DocumentChunk)
    (chunks : list DocumentChunk) (response : QueryResponse.t) :
  VectorStoreService.similarity_search (vector_store self) query 10
    = Ok raw_results ->
  apply_filters
    (select_documents (_convert_to_document_chunks raw_results)
       selected_document_ids) filters = Ok (chunk :: chunks) ->
  process_query self query filters selected_document_ids = Ok response ->
  (exists answer,
     LLMService.answer_query (llm_service self) query
       (build_context (chunk :: chunks)) = Ok answer /\
     QueryResponse.answers response = [answer]) /\
  create_basic_citations (chunk :: chunks)
    = Ok (QueryResponse.citations response) /\
  length (QueryResponse.citations response) = length (chunk :: chunks) /\
  dict_lookup (QueryResponse.metadata response) "total_results"
    = Some (PInt (Z.of_nat (length (chunk :: chunks)))) /\
  dict_lookup (QueryResponse.metadata response) "documents_searched"
    = Some match selected_document_ids with
           | Some (id :: ids) => PInt (Z.of_nat (length (id :: ids)))
           | _ => PStr "all"
           end.
Proof.
  intros Hsearch Hfilter H. unfold process_query in H.
  rewrite Hsearch in H. cbn [rbind] in H. cbv zeta in H.
  rewrite Hfilter in H. cbn [rbind] in H.
  bind_inv H. bind_inv H. injection H as <-.
  cbn [QueryResponse.answers QueryResponse.citations QueryResponse.metadata].
  split; [exists a; split; [exact Ha | reflexivity]|]. split; [exact Ha0|].
  split.
  - apply create_basic_citations_Ok, Forall2_length in Ha0. auto.
  - split; [reflexivity|].
    destruct selected_document_ids as [[|id ids]|]; reflexivity.
Qed.

Lemma process_query_found_witness :
  exists response,
    process_query (engine_over refund_results []) "refund policy" None
      (Some ["doc-A"]) = Ok response /\
    QueryResponse.answers response = ["Within 30 days."] /\
    length (QueryResponse.citations response) = 2%nat /\
    dict_lookup (QueryResponse.metadata response) "documents_searched"
      = Some (PInt 1).
Proof.
  eexists. split; [reflexivity|]. split; [reflexivity|].
  edestruct (process_query_found (engine_over refund_results [])
               "refund policy" None (Some ["doc-A"]) refund_results)
    as (_ & _ & Hlen & _ & Hsearched);
    [reflexivity | reflexivity | reflexivity |].
  split; [exact Hlen | exact Hsearched].
Defined.


Lemma enhanced_loop_base (chunks : list DocumentChunk)
    (vector_results : list ScoredResult.t) (i0 : nat) :
  create_basic_citations chunks
    = (do cs <- enhanced_loop i0 chunks vector_results;
       Ok (EnhancedCitation.base <$> cs)).
Proof.
  revert i0. induction chunks as [|chunk chunks IH]; intros i0;
    [reflexivity|].
  cbn [create_basic_citations enhanced_loop].
  destruct (citation_of chunk) as [c|e]; cbn [rbind]; [|reflexivity].
  rewrite (IH (S i0)).
  destruct (enhanced_loop (S i0) chunks vector_results); reflexivity.
Qed.

(** X9.  [process_query] and [process_enhanced_query] agree: on the same
    engine and arguments either both raise the same exception, or both
    return, with the same answers and metadata, and the citations of the
    former are the base citations of the latter. *)
Theorem process_query_of_enhanced (self : QueryEngine.t) (query : string)
    (filters : option dict) (selected_document_ids : option (list string)) :
  process_query self query filters selected_document_ids
    = (do response <-
         process_enhanced_query self query filters selected_document_ids;
       Ok (basic_response response)).
Proof.
  unfold process_query, process_enhanced_query.
  destruct (VectorStoreService.similarity_search _ _ _) as [raw|e];
    cbn [rbind]; [|reflexivity]. cbv zeta.
  destruct (apply_filters _ _) as [[|chunk chunks]|e]; cbn [rbind];
    [reflexivity | | reflexivity].
  destruct (LLMService.answer_query _ _ _) as [answer|e]; cbn [rbind];
    [|reflexivity].
  unfold create_enhanced_citations.
  rewrite (enhanced_loop_base (chunk :: chunks) [] 0).
  destruct (enhanced_loop 0 (chunk :: chunks) []); reflexivity.
Qed.

Lemma py_eq_str (a : pyval) (s : string) : py_eq a (PStr s) = true -> a = PStr s.
Proof.
  destruct a; simpl; try discriminate.
  intros H. apply String.eqb_eq in H. now subst.
Qed.

Lemma py_in_strings (a : pyval) (ids : list string) :
  py_in a (PStr <$> ids) = true -> exists s, In s ids /\ a = PStr s.
Proof.
  unfold py_in. induction ids as [|id ids IH]; simpl; [discriminate|].
  intros H. apply orb_true_iff in H as [H | H].
  - exists id. split; [now left | now apply py_eq_str].
  - destruct (IH H) as (s & Hin & Hs). exists s. split; [now right | exact Hs].
Qed.

Lemma apply_filters_subset (P : list DocumentChunk) (f : option dict)
    (r : list DocumentChunk) :
  apply_filters P f = Ok r -> forall c, In c r -> In c P.
Proof.
  destruct f as [f|]; [|intros H; injection H as <-; auto].
  rewrite apply_filters_loop. intros H c Hc.
  apply filter_loop_Ok in H. subst r. now apply filter_In in Hc as [Hc _].
Qed.

Lemma citations_from_chunks (chunks : list DocumentChunk)
    (cs : list Citation.t) :
  create_basic_citations chunks = Ok cs ->
  Forall (fun citation =>
            exists chunk, In chunk chunks /\ citation_of chunk = Ok citation)
    cs.
Proof.
  intros H. apply create_basic_citations_Ok in H.
  induction H as [|chunk c chunks cs Hc _ IH]; constructor.
  - exists chunk. split; [now left | exact Hc].
  - eapply Forall_impl; [exact IH|]. intros c' (chunk' & Hin & Hc').
    exists chunk'. split; [now right | exact Hc'].
Qed.

(** X10.  With a non-empty allow-list, every citation of a response of
    [process_query] names a document of the allow-list: its [doc_id] is one
    of the selected ids. *)
Theorem process_query_cites_selected (self : QueryEngine.t) (query : string)
    (filters : option dict) (id : string) (ids : list string)
    (response : QueryResponse.t) :
  process_query self query filters (Some (id :: ids)) = Ok response ->
  Forall (fun citation =>
            exists s, In s (id :: ids) /\ Citation.doc_id citation = PStr s)
    (QueryResponse.citations response).
Proof.
  unfold process_query. intros H. bind_inv H. cbv zeta in H. bind_inv H.
  destruct a0 as [|chunk chunks].
  - injection H as <-. constructor.
  - bind_inv H. bind_inv H. injection H as <-.
    cbn [QueryResponse.citations].
    eapply Forall_impl; [exact (citations_from_chunks _ _ Ha2)|].
    intros citation (c & Hin & Hc).
    apply (apply_filters_subset _ _ _ Ha0) in Hin.
    unfold select_documents in Hin. cbn [ids_given] in Hin.
    apply filter_In in Hin as [_ Hsel].
    apply py_in_strings in Hsel as (s & Hs & Hid).
    exists s. split; [exact Hs|].
    unfold citation_of in Hc. bind_inv Hc. injection Hc as <-.
    cbn [Citation.doc_id]. unfold dict_get, dict_get_or in *.
    destruct (dict_lookup (metadata c) "doc_id"); [exact Hid | discriminate].
Qed.

Lemma process_query_cites_selected_witness :
  exists response,
    process_query (engine_over refund_results []) "refund policy" None
      (Some ["doc-A"]) = Ok response /\
    Forall (fun citation =>
              exists s, In s ["doc-A"] /\ Citation.doc_id citation = PStr s)
      (QueryResponse.citations response).
Proof.
  eexists. split; [reflexivity|].
  exact (process_query_cites_selected (engine_over refund_results [])
           "refund policy" None "doc-A" [] _ eq_refl).
Defined.

(** ** Theme extraction, continued *)

(** X11.  For indices that are non-negative integers the resolution never
    raises: it yields, in the order of the indices, the candidates at the
    indices below the number of candidates, and skips the others. *)
Theorem resolve_indices_nonnegative (chunks : list DocumentChunk)
    (indices : list Z) :
  Forall (fun z => 0 <= z) indices ->
  resolve_indices chunks (PInt <$> indices)
    = Ok (omap (fun z => chunks !! Z.to_nat z) indices).
Proof.
  induction 1 as [|z zs Hz _ IH]; [reflexivity|].
  cbn [fmap list_fmap omap list_omap].
  destruct (chunks !! Z.to_nat z) as [chunk|] eqn:E.
  - rewrite (resolve_indices_in_range chunks z _ chunk Hz E).
    fold (fmap (M:=list) PInt zs). rewrite IH. reflexivity.
  - apply lookup_ge_None_1 in E.
    rewrite resolve_indices_skips_large by lia. exact IH.
Qed.

Lemma resolve_indices_nonnegative_witness :
  resolve_indices (_convert_to_document_chunks refund_results)
    (PInt <$> [1; 5; 0; 1])
  = Ok [ mkChunk "Refund requests need a receipt."
           [("doc_id", PStr "doc-A"); ("filename", PStr "policy.pdf")] 0;
         mkChunk "Refunds are issued within 30 days."
           [("doc_id", PStr "doc-A"); ("filename", PStr "policy.pdf")] 0;
         mkChunk "Refund requests need a receipt."
           [("doc_id", PStr "doc-A"); ("filename", PStr "policy.pdf")] 0 ].
Proof.
  apply (resolve_indices_nonnegative
           (_convert_to_document_chunks refund_results) [1; 5; 0; 1]).
  repeat constructor; lia.
Defined.

Lemma sample_length (self : QueryEngine.t) (doc_ids : list string)
    (sample_chunks : list DocumentChunk) :
  sample self doc_ids = Ok sample_chunks ->
  (length sample_chunks <= 2 * length doc_ids)%nat.
Proof.
  revert sample_chunks.
  induction doc_ids as [|doc_id rest IH]; simpl; intros sample_chunks H.
  - injection H as <-. simpl. lia.
  - bind_inv H. bind_inv H. injection H as <-.
    rewrite length_app, length_fmap, length_take.
    specialize (IH _ Ha0). lia.
Qed.

(** X12.  The corpus-wide variant works on a bounded sample: the
    [total_results] it reports, the number of sampled passages, is at most
    20 (two passages of each of at most ten documents), however many
    documents and passages the index holds. *)
Theorem extract_all_themes_sample_bound (self : QueryEngine.t)
    (response : ThemeResponse.t) :
  extract_all_themes self = Ok response ->
  exists n, dict_lookup (ThemeResponse.metadata response) "total_results"
              = Some (PInt n) /\ 0 <= n <= 20.
Proof.
  unfold extract_all_themes. intros H. bind_inv H.
  destruct a as [[|doc documents]|].
  - injection H as <-. exists 0. split; [reflexivity | lia].
  - bind_inv H. apply sample_length in Ha0.
    rewrite length_take, length_fmap in Ha0.
    destruct a as [|chunk sample_chunks].
    + injection H as <-. exists 0. split; [reflexivity | lia].
    + bind_inv H. bind_inv H. injection H as <-.
      eexists. split; [reflexivity|]. cbn [length] in *. lia.
  - injection H as <-. exists 0. split; [reflexivity | lia].
Qed.

Lemma extract_all_themes_sample_bound_witness :
  exists n,
    dict_lookup
      (ThemeResponse.metadata
         (match extract_all_themes (theme_engine [theme_with [0]]) with
          | Ok response => response
          | Raise _ => empty_themes []
          end)) "total_results" = Some (PInt n) /\ 0 <= n <= 20.
Proof.
  exact (extract_all_themes_sample_bound (theme_engine [theme_with [0]])
           _ eq_refl).
Defined.


Lemma pydict_set_values {V : Type} (Q : V -> Prop) (d : list (pyval * V))
    (k : pyval) (v : V) :
  Forall (fun kv => Q (snd kv)) d -> Q v ->
  Forall (fun kv => Q (snd kv)) (pydict_set d k v).
Proof.
  intros Hd Hv. induction Hd as [|[k' v'] d Hkv Hd IH]; simpl.
  - constructor; [exact Hv | constructor].
  - destruct (py_eq k' k); constructor; auto.
Qed.

Lemma setitem_values {V : Type} (Q : V -> Prop) (d d' : list (pyval * V))
    (k : pyval) (v : V) :
  setitem d k v = Ok d' ->
  Forall (fun kv => Q (snd kv)) d -> Q v ->
  Forall (fun kv => Q (snd kv)) d'.
Proof.
  unfold setitem. destruct (hashable k); [|discriminate].
  intros H. injection H as <-. apply pydict_set_values.
Qed.

Lemma theme_chunks_members (chunks : list DocumentChunk) (theme : dict)
    (theme_chunks : list DocumentChunk) :
  theme_chunks_of chunks theme = Ok theme_chunks ->
  forall chunk, In chunk theme_chunks -> In chunk chunks.
Proof.
  unfold theme_chunks_of. intros H. bind_inv H.
  apply resolve_indices_members in H. rewrite Forall_forall in H.
  intros chunk Hc. now apply list_elem_of_In, H, list_elem_of_In.
Qed.

Lemma cited_from_members (chunks theme_chunks : list DocumentChunk)
    (cs : list Citation.t) :
  (forall chunk, In chunk theme_chunks -> In chunk chunks) ->
  create_basic_citations theme_chunks = Ok cs -> cited_from chunks cs.
Proof.
  intros Hsub H. eapply Forall_impl; [exact (citations_from_chunks _ _ H)|].
  intros c (chunk & Hin & Hc). exists chunk. auto.
Qed.

Lemma ids_from_members (chunks theme_chunks : list DocumentChunk) :
  (forall chunk, In chunk theme_chunks -> In chunk chunks) ->
  ids_from chunks (supporting_docs_of theme_chunks).
Proof.
  intros Hsub. unfold ids_from, supporting_docs_of.
  apply Forall_forall. intros x Hx.
  apply list_elem_of_In, in_map_iff in Hx as (chunk & <- & Hin).
  exists chunk. auto.
Qed.

Lemma organize_themes_from (finish : list pyval -> result (list pyval))
    (chunks : list DocumentChunk) (themes_data : list dict) :
  (forall l l', finish l = Ok l' -> forall x, In x l' -> In x l) ->
  forall tables tables',
  organize_themes finish chunks themes_data tables = Ok tables' ->
  Forall (fun kv => ids_from chunks (snd kv)) (fst tables) ->
  Forall (fun kv => cited_from chunks (snd kv)) (snd tables) ->
  Forall (fun kv => ids_from chunks (snd kv)) (fst tables') /\
  Forall (fun kv => cited_from chunks (snd kv)) (snd tables').
Proof.
  intros Hfinish.
  induction themes_data as [|theme rest IH]; simpl; intros tables tables' H.
  - injection H as <-. auto.
  - intros Hids Hcs. bind_inv H. bind_inv H. bind_inv H. bind_inv H.
    bind_inv H. apply IH in H; [exact H | |]; cbn [fst snd].
    + apply (setitem_values _ _ _ _ _ Ha1 Hids).
      pose proof (ids_from_members chunks a (theme_chunks_members _ _ _ Ha))
        as Hfrom.
      unfold ids_from in *. apply Forall_forall. intros x Hx.
      rewrite Forall_forall in Hfrom. apply Hfrom.
      apply list_elem_of_In. apply (Hfinish _ _ Ha0).
      now apply list_elem_of_In.
    + apply (setitem_values _ _ _ _ _ Ha3 Hcs).
      apply (cited_from_members chunks a); [|exact Ha2].
      exact (theme_chunks_members _ _ _ Ha).
Qed.

Lemma cite_themes_from (chunks : list DocumentChunk) (themes_data : list dict) :
  forall detailed detailed',
  cite_themes chunks themes_data detailed = Ok detailed' ->
  Forall (fun kv => cited_from chunks (snd kv)) detailed ->
  Forall (fun kv => cited_from chunks (snd kv)) detailed'.
Proof.
  induction themes_data as [|theme rest IH]; simpl; intros d d' H Hd.
  - now injection H as <-.
  - bind_inv H. bind_inv H. bind_inv H. apply IH in H; [exact H|].
    apply (setitem_values _ _ _ _ _ Ha1 Hd).
    apply (cited_from_members chunks a); [|exact Ha0].
    exact (theme_chunks_members _ _ _ Ha).
Qed.

Lemma dedup_subset (l : list pyval) : forall x, In x (dedup l) -> In x l.
Proof.
  induction l as [|y l IH]; simpl; [auto|].
  intros x [-> | Hx]; [now left|]. apply filter_In in Hx as [Hx _]. auto.
Qed.

Lemma list_of_set_subset (l l' : list pyval) :
  list_of_set l = Ok l' -> forall x, In x l' -> In x l.
Proof.
  unfold list_of_set. destruct (forallb hashable l); [|discriminate].
  intros H. injection H as <-. apply dedup_subset.
Qed.

(** X13.  Whenever a theme extraction returns, what it reports for a theme is
    drawn from the candidate passages: every citation of a theme is the
    citation of a candidate, and (query-scoped and corpus-wide variants)
    every supporting document id is the [doc_id] of a candidate. *)
Theorem theme_tables_from_candidates (self : QueryEngine.t) :
  (forall query filters raw_results candidates response,
     VectorStoreService.similarity_search (vector_store self) query 20
       = Ok raw_results ->
     apply_filters (_convert_to_document_chunks raw_results) filters
       = Ok candidates ->
     extract_themes self query filters = Ok response ->
     Forall (fun kv => ids_from candidates (snd kv))
       (ThemeResponse.supporting_documents response) /\
     Forall (fun kv => cited_from candidates (snd kv))
       (ThemeResponse.detailed_citations response)) /\
  (forall document_id raw_chunks response,
     VectorStoreService.get_chunks_by_document_id (vector_store self)
       document_id = Ok raw_chunks ->
     extract_themes_for_document self document_id = Ok response ->
     Forall (fun kv => cited_from (chunk_of_data <$> raw_chunks) (snd kv))
       (ThemeResponse.detailed_citations response)) /\
  (forall documents candidates response,
     VectorStoreService.list_all_documents (vector_store self)
       = Ok (Some documents) ->
     sample self (take 10 (fst <$> documents)) = Ok candidates ->
     extract_all_themes self = Ok response ->
     Forall (fun kv => ids_from candidates (snd kv))
       (ThemeResponse.supporting_documents response) /\
     Forall (fun kv => cited_from candidates (snd kv))
       (ThemeResponse.detailed_citations response)).
Proof.
  split; [|split].
  - intros query filters raw candidates response Hsearch Hfilter H.
    unfold extract_themes in H. rewrite Hsearch in H. cbn [rbind] in H.
    cbv zeta in H. rewrite Hfilter in H. cbn [rbind] in H.
    destruct candidates as [|c cs].
    + injection H as <-. split; constructor.
    + bind_inv H. bind_inv H. injection H as <-.
      cbn [ThemeResponse.supporting_documents
           ThemeResponse.detailed_citations].
      apply (organize_themes_from Ok (c :: cs) a) in Ha0;
        [exact Ha0 | | constructor | constructor].
      intros l l' Hl. now injection Hl as <-.
  - intros document_id raw_chunks response Hchunks H.
    unfold extract_themes_for_document in H. rewrite Hchunks in H.
    cbn [rbind] in H. cbv zeta in H.
    destruct (chunk_of_data <$> raw_chunks) as [|c cs] eqn:E.
    + injection H as <-. constructor.
    + bind_inv H. bind_inv H. bind_inv H. injection H as <-.
      cbn [ThemeResponse.detailed_citations].
      apply (cite_themes_from (c :: cs) a) in Ha1; [exact Ha1 | constructor].
  - intros documents candidates response Hlist Hsample H.
    unfold extract_all_themes in H. rewrite Hlist in H. cbn [rbind] in H.
    destruct documents as [|doc documents].
    + injection H as <-. split; constructor.
    + rewrite Hsample in H. cbn [rbind] in H.
      destruct candidates as [|c cs].
      * injection H as <-. split; constructor.
      * bind_inv H. bind_inv H. injection H as <-.
        cbn [ThemeResponse.supporting_documents
             ThemeResponse.detailed_citations].
        apply (organize_themes_from list_of_set (c :: cs) a) in Ha0;
          [exact Ha0 | exact list_of_set_subset | constructor | constructor].
Qed.

Lemma theme_tables_from_candidates_witness :
  exists response,
    extract_themes (theme_engine [theme_with [0; 1]]) "refund policy" None
      = Ok response /\
    Forall
      (fun kv =>
         cited_from (_convert_to_document_chunks refund_results) (snd kv))
      (ThemeResponse.detailed_citations response).
Proof.
  eexists. split; [reflexivity|].
  exact (proj2 (proj1 (theme_tables_from_candidates
                         (theme_engine [theme_with [0; 1]]))
                  "refund policy" None refund_results
                  (_convert_to_document_chunks refund_results) _
                  eq_refl eq_refl eq_refl)).
Defined.

Lemma py_eq_hashable_refl (k : pyval) : hashable k = true -> py_eq k k = true.
Proof.
  destruct k as [|b|z|q|s|l|d]; simpl; try discriminate; intros _.
  - reflexivity.
  - destruct b; reflexivity.
  - apply Qeq_bool_iff. reflexivity.
  - apply Qeq_bool_iff. reflexivity.
  - apply String.eqb_refl.
Qed.


Lemma pydict_set_keeps_keys {V : Type} (d : list (pyval * V)) (k k0 : pyval)
    (v : V) :
  has_key d k0 -> has_key (pydict_set d k v) k0.
Proof.
  intros (kv & Hin & Hk). induction d as [|[k' v'] d IH]; [destruct Hin|].
  simpl. destruct Hin as [<- | Hin].
  - destruct (py_eq k' k).
    + exists (k', v). split; [now left | exact Hk].
    + exists (k', v'). split; [now left | exact Hk].
  - destruct (IH Hin) as (kv' & Hin' & Hk').
    destruct (py_eq k' k).
    + exists kv. split; [now right | exact Hk].
    + exists kv'. split; [now right | exact Hk'].
Qed.

Lemma pydict_set_has_key {V : Type} (d : list (pyval * V)) (k : pyval)
    (v : V) :
  py_eq k k = true -> has_key (pydict_set d k v) k.
Proof.
  intros Hk. induction d as [|[k' v'] d IH]; simpl.
  - exists (k, v). split; [now left | exact Hk].
  - destruct (py_eq k' k) eqn:E.
    + exists (k', v). split; [now left | exact E].
    + destruct IH as (kv & Hin & Hkv). exists kv. split; [now right | exact Hkv].
Qed.

Lemma document_for_themes_spec (document_id : string)
    (theme_names : list pyval) :
  forall acc supporting,
  document_for_themes document_id theme_names acc = Ok supporting ->
  (Forall (fun kv => snd kv = [PStr document_id]) acc ->
   Forall (fun kv => snd kv = [PStr document_id]) supporting) /\
  (forall k, has_key acc k \/ In k theme_names -> has_key supporting k).
Proof.
  induction theme_names as [|name rest IH]; simpl; intros acc supporting H.
  - injection H as <-. split; [auto|]. intros k [Hk | []]. exact Hk.
  - bind_inv H. destruct (IH _ _ H) as [Hvals Hkeys].
    unfold setitem in Ha. destruct (hashable name) eqn:Hh; [|discriminate].
    injection Ha as <-. split.
    + intros Hacc. apply Hvals.
      now apply (pydict_set_values (fun v => v = [PStr document_id])).
    + intros k [Hk | [<- | Hk]]; apply Hkeys; auto.
      * left. now apply pydict_set_keeps_keys.
      * left. apply pydict_set_has_key. now apply py_eq_hashable_refl.
Qed.

(** X14.  In a response of [extract_themes_for_document], every theme of the
    list of themes has an entry among the supporting documents, and every
    entry consists of the requested document alone, whether or not a passage
    of the document was resolved for the theme. *)
Theorem extract_themes_for_document_supporting (self : QueryEngine.t)
    (document_id : string) (response : ThemeResponse.t) :
  extract_themes_for_document self document_id = Ok response ->
  Forall (fun kv => snd kv = [PStr document_id])
    (ThemeResponse.supporting_documents response) /\
  (forall name, In name (ThemeResponse.themes response) ->
     has_key (ThemeResponse.supporting_documents response) name).
Proof.
  unfold extract_themes_for_document. intros H. bind_inv H. cbv zeta in H.
  destruct (chunk_of_data <$> a) as [|c cs].
  - injection H as <-. split; [constructor | intros name []].
  - bind_inv H. bind_inv H. bind_inv H. injection H as <-.
    cbn [ThemeResponse.supporting_documents ThemeResponse.themes].
    destruct (document_for_themes_spec _ _ _ _ Ha1) as [Hvals Hkeys].
    split; [apply Hvals; constructor|]. intros name Hname.
    apply Hkeys. now right.
Qed.

Lemma extract_themes_for_document_supporting_witness :
  exists response,
    extract_themes_for_document (theme_engine [theme_with [7]]) "doc-A"
      = Ok response /\
    ThemeResponse.detailed_citations response = [(PStr "Refunds", [])] /\
    Forall (fun kv => snd kv = [PStr "doc-A"])
      (ThemeResponse.supporting_documents response).
Proof.
  eexists. split; [reflexivity|]. split; [reflexivity|].
  exact (proj1 (extract_themes_for_document_supporting
                  (theme_engine [theme_with [7]]) "doc-A" _ eq_refl)).
Defined.


Lemma distinct_filter (p : pyval -> bool) (l : list pyval) :
  distinct l -> distinct (List.filter p l).
Proof.
  induction 1 as [|x l Hx _ IH]; simpl; [constructor|].
  destruct (p x); [|exact IH]. constructor; [|exact IH].
  apply Forall_forall. intros y Hy.
  apply list_elem_of_In, filter_In in Hy as [Hy _].
  rewrite Forall_forall in Hx. now apply Hx, list_elem_of_In.
Qed.

Lemma dedup_distinct (l : list pyval) : distinct (dedup l).
Proof.
  induction l as [|x l IH]; simpl; [constructor|].
  constructor; [|now apply distinct_filter].
  apply Forall_forall. intros y Hy.
  apply list_elem_of_In, filter_In in Hy as [_ Hy].
  now apply negb_true_iff in Hy.
Qed.

Lemma organize_themes_distinct (chunks : list DocumentChunk)
    (themes_data : list dict) :
  forall tables tables',
  organize_themes list_of_set chunks themes_data tables = Ok tables' ->
  Forall (fun kv => distinct (snd kv)) (fst tables) ->
  Forall (fun kv => distinct (snd kv)) (fst tables').
Proof.
  induction themes_data as [|theme rest IH]; simpl; intros tables tables' H.
  - now injection H as <-.
  - intros Hd. bind_inv H. bind_inv H. bind_inv H. bind_inv H. bind_inv H.
    apply IH in H; [exact H|]. cbn [fst].
    apply (setitem_values _ _ _ _ _ Ha1 Hd).
    unfold list_of_set in Ha0.
    destruct (forallb hashable _); [|discriminate].
    injection Ha0 as <-. apply dedup_distinct.
Qed.

(** X15.  In a response of [extract_all_themes] no supporting document is
    listed twice for a theme. *)
Theorem extract_all_themes_distinct_documents (self : QueryEngine.t)
    (response : ThemeResponse.t) :
  extract_all_themes self = Ok response ->
  Forall (fun kv => distinct (snd kv))
    (ThemeResponse.supporting_documents response).
Proof.
  unfold extract_all_themes. intros H. bind_inv H.
  destruct a as [[|doc documents]|]; try (injection H as <-; constructor).
  bind_inv H. destruct a as [|c cs]; [injection H as <-; constructor|].
  bind_inv H. bind_inv H. injection H as <-.
  cbn [ThemeResponse.supporting_documents].
  apply (organize_themes_distinct _ _ _ _ Ha2). constructor.
Qed.

Lemma extract_all_themes_distinct_documents_witness :
  exists response,
    extract_all_themes (theme_engine [theme_with [0; 1; 0]]) = Ok response /\
    ThemeResponse.supporting_documents response
      = [(PStr "Refunds", [PStr "doc-A"])] /\
    Forall (fun kv => distinct (snd kv))
      (ThemeResponse.supporting_documents response).
Proof.
  eexists. split; [reflexivity|]. split; [reflexivity|].
  exact (extract_all_themes_distinct_documents
           (theme_engine [theme_with [0; 1; 0]]) _ eq_refl).
Defined.

(** ** Document search, continued *)


Lemma keep_if_Ok (test : Document.t -> result bool) (docs kept : list Document.t) :
  keep_if test docs = Ok kept ->
  kept `sublist_of` docs /\ Forall (fun doc => test doc = Ok true) kept.
Proof.
  revert kept. induction docs as [|doc docs IH]; simpl; intros kept H.
  - injection H as <-. split; constructor.
  - bind_inv H. bind_inv H. injection H as <-.
    destruct (IH _ Ha0) as [Hsub Hall]. destruct a.
    + split; [now apply sublist_skip | constructor; auto].
    + split; [now apply sublist_cons | exact Hall].
Qed.

Lemma sublist_Forall {A : Type} (Q : A -> Prop) (l k : list A) :
  l `sublist_of` k -> Forall Q k -> Forall Q l.
Proof.
  intros Hsub Hk. apply Forall_forall. intros x Hx.
  rewrite Forall_forall in Hk. apply Hk.
  now apply (sublist_subseteq _ _ Hsub).
Qed.

Section SearchFacts.

Variable lower : string -> string.
Variable py_str : pyval -> string.
Variable datetime : Type.
Variable strptime : string -> string -> option datetime.
Variable datetime_lt : datetime -> datetime -> bool.
Variable list_sort :
  list (pyval * Document.t) -> bool -> result (list Document.t).

Local Abbreviation sorted_listing :=
  (filter_and_sort lower py_str datetime strptime datetime_lt list_sort).
Local Abbreviation search :=
  (search_documents lower py_str datetime strptime datetime_lt list_sort).

Lemma substring_filter_Ok (field : option string) (name : string)
    (test : string -> Document.t -> result bool)
    (state state' : list Document.t * dict) :
  substring_filter lower field name test state = Ok state' ->
  fst state' `sublist_of` fst state /\
  Forall (passes test lower field) (fst state') /\
  snd state' = (snd state ++ applied_entry name field)%list.
Proof.
  unfold substring_filter, passes, applied_entry.
  destruct (nonempty field) as [pattern|].
  - intros H. bind_inv H. injection H as <-. cbn [fst snd].
    destruct (keep_if_Ok _ _ _ Ha) as [Hsub Hall]. auto.
  - intros H. injection H as <-. rewrite app_nil_r.
    split; [reflexivity|]. split; [|reflexivity].
    apply Forall_forall. intros; exact I.
Qed.

Lemma with_keys_docs (sort_field : string) (docs : list Document.t)
    (keyed : list (pyval * Document.t)) :
  with_keys lower sort_field docs = Ok keyed -> snd <$> keyed = docs.
Proof.
  revert keyed. induction docs as [|doc docs IH]; simpl; intros keyed H.
  - now injection H as <-.
  - bind_inv H. bind_inv H. injection H as <-.
    cbn [fmap list_fmap snd]. f_equal. now apply IH.
Qed.

Lemma date_filter_spec (date_from date_to : option string)
    (state : list Document.t * dict) :
  let state' :=
    date_filter datetime strptime datetime_lt date_from date_to state in
  fst state' `sublist_of` fst state /\
  snd state' = (snd state ++ applied_entry "date_from" date_from
                  ++ applied_entry "date_to" date_to)%list /\
  (nonempty date_from <> None \/ nonempty date_to <> None ->
   Forall (fun doc =>
             in_date_range datetime strptime datetime_lt date_from date_to doc
             = true) (fst state')).
Proof.
  unfold date_filter, applied_entry.
  destruct (nonempty date_from) as [from|], (nonempty date_to) as [to|];
    cbn [fst snd]; (split; [apply filter_sublist || reflexivity|]);
    (split; [rewrite ?app_nil_r, ?app_nil_l; reflexivity|]); intros Hgiven;
    try (apply Forall_forall; intros doc Hdoc;
         now apply list_elem_of_In, filter_In in Hdoc as [_ Hdoc]).
  destruct Hgiven; congruence.
Qed.


(** Everything the listing goes through before pagination, in one
    statement. *)
Lemma filter_and_sort_Ok (self : QueryEngine.t)
    (search_request : DocumentSearchRequest.t)
    (docs : list Document.t) (filters_applied : dict) :
  sorted_listing self search_request = Ok (docs, filters_applied) ->
  exists entries kept keyed reverse,
    VectorStoreService.list_all_documents (vector_store self) = Ok entries /\
    snd <$> keyed = kept /\ list_sort keyed reverse = Ok docs /\
    kept `sublist_of` (document_of <$> default [] entries) /\
    filters_applied = applied_filters search_request /\
    Forall (passes (matches_search_term lower py_str) lower
              (DocumentSearchRequest.search_term search_request)) kept /\
    Forall (passes (matches_filename lower) lower
              (DocumentSearchRequest.filename_filter search_request)) kept /\
    Forall (passes (matches_metadata lower py_str "file_type") lower
              (DocumentSearchRequest.content_type_filter search_request))
      kept /\
    Forall (passes (matches_metadata lower py_str "author") lower
              (DocumentSearchRequest.author_filter search_request)) kept /\
    Forall (passes (matches_status lower) lower
              (DocumentSearchRequest.status_filter search_request)) kept /\
    (nonempty (DocumentSearchRequest.date_from search_request) <> None \/
     nonempty (DocumentSearchRequest.date_to search_request) <> None ->
     Forall (fun doc =>
               in_date_range datetime strptime datetime_lt
                 (DocumentSearchRequest.date_from search_request)
                 (DocumentSearchRequest.date_to search_request) doc = true)
       kept).
Proof.
  unfold filter_and_sort. intros H.
  apply rbind_Ok in H as (entries & Hentries & H). cbv zeta in H.
  apply rbind_Ok in H as (s1 & H1 & H).
  apply substring_filter_Ok in H1 as (S1 & P1 & A1).
  apply rbind_Ok in H as (s2 & H2 & H).
  apply substring_filter_Ok in H2 as (S2 & P2 & A2).
  apply rbind_Ok in H as (s3 & H3 & H).
  apply substring_filter_Ok in H3 as (S3 & P3 & A3).
  apply rbind_Ok in H as (s4 & H4 & H).
  apply substring_filter_Ok in H4 as (S4 & P4 & A4).
  apply rbind_Ok in H as (s5 & H5 & H).
  apply substring_filter_Ok in H5 as (S5 & P5 & A5).
  destruct (date_filter_spec
              (DocumentSearchRequest.date_from search_request)
              (DocumentSearchRequest.date_to search_request) s5)
    as (S6 & A6 & P6).
  set (final := date_filter datetime strptime datetime_lt _ _ s5) in *.
  apply rbind_Ok in H as (keyed & Hkeyed & H).
  apply rbind_Ok in H as (sorted & Hsorted & H). injection H as <- <-.
  apply with_keys_docs in Hkeyed. cbn [fst snd] in *.
  exists entries, (fst final), keyed. eexists. split; [exact Hentries|].
  split; [exact Hkeyed|]. split; [exact Hsorted|].
  assert (T5 : fst final `sublist_of` fst s5) by exact S6.
  assert (T4 : fst final `sublist_of` fst s4) by (etransitivity; eauto).
  assert (T3 : fst final `sublist_of` fst s3) by (etransitivity; eauto).
  assert (T2 : fst final `sublist_of` fst s2) by (etransitivity; eauto).
  assert (T1 : fst final `sublist_of` fst s1) by (etransitivity; eauto).
  split; [etransitivity; eauto|]. split.
  { rewrite A6, A5, A4, A3, A2, A1. unfold applied_filters.
    cbn [app]. rewrite <- !app_assoc. reflexivity. }
  repeat split; eauto using sublist_Forall.
Qed.

(** X16.  [filters_applied] records the request fields that are neither
    [None] nor empty, and only those, in the order search term, filename,
    content type, author, status, start date, end date; an unparseable date
    bound is recorded as well. *)
Theorem search_documents_filters_applied (self : QueryEngine.t)
    (search_request : DocumentSearchRequest.t)
    (res : DocumentSearchResult.t) :
  search self search_request = Ok res ->
  DocumentSearchResult.filters_applied res = applied_filters search_request.
Proof.
  unfold search_documents. intros H. bind_inv H. injection H as <-.
  destruct a as [docs fa]. apply filter_and_sort_Ok in Ha
    as (entries & kept & keyed & reverse & _ & _ & _ & _ & Hfa & _).
  exact Hfa.
Qed.


Lemma py_slice_subset {A : Type} (l : list A) (start stop : Z) :
  forall x, In x (py_slice l start stop) -> In x l.
Proof.
  intros x Hx. unfold py_slice in Hx.
  apply list_elem_of_In in Hx. apply list_elem_of_In.
  eapply (sublist_subseteq _ _ (sublist_drop l _)).
  eapply (sublist_subseteq _ _ (sublist_take _ _)). exact Hx.
Qed.

(** [list.sort] rearranges the list it is given. *)
Hypothesis list_sort_permutation :
  forall keyed reverse docs,
    list_sort keyed reverse = Ok docs -> Permutation docs (snd <$> keyed).

(** X17.  A search result is sound: [total_count] is at most the number of
    documents of the listing, and every document of the returned page is a
    document of the listing that passes every filter the request makes
    active (search term, filename, content type, author, status and date
    range). *)
Theorem search_documents_sound (self : QueryEngine.t)
    (search_request : DocumentSearchRequest.t)
    (res : DocumentSearchResult.t) :
  search self search_request = Ok res ->
  exists entries,
    VectorStoreService.list_all_documents (vector_store self) = Ok entries /\
    DocumentSearchResult.total_count res
      <= Z.of_nat (length (default [] entries)) /\
    Forall (fun doc =>
              In doc (document_of <$> default [] entries) /\
              matches_request lower py_str datetime strptime datetime_lt
                search_request doc)
      (DocumentSearchResult.documents res).
Proof.
  unfold search_documents. intros H.
  apply rbind_Ok in H as ([docs fa] & Hsorted & H). injection H as <-.
  apply filter_and_sort_Ok in Hsorted
    as (entries & kept & keyed & reverse & Hentries & Hkeyed & Hsort & Hsub
        & _ & P1 & P2 & P3 & P4 & P5 & P6).
  apply list_sort_permutation in Hsort. rewrite Hkeyed in Hsort.
  exists entries. split; [exact Hentries|].
  cbn [paginate DocumentSearchResult.total_count
       DocumentSearchResult.documents fst snd]. split.
  - rewrite (Permutation_length Hsort).
    apply sublist_length in Hsub. rewrite length_fmap in Hsub. lia.
  - apply Forall_forall. intros doc Hdoc.
    apply list_elem_of_In, py_slice_subset in Hdoc.
    apply (Permutation_in _ Hsort) in Hdoc.
    apply list_elem_of_In in Hdoc.
    rewrite Forall_forall in P1, P2, P3, P4, P5. split.
    + apply list_elem_of_In. now apply (sublist_subseteq _ _ Hsub).
    + unfold matches_request. repeat split; auto.
      intros Hgiven. specialize (P6 Hgiven).
      rewrite Forall_forall in P6. auto.
Qed.


End SearchFacts.

Lemma search_documents_filters_applied_witness :
  exists res,
    search_documents (fun s => s) (fun _ => EmptyString) string day_only
      String.ltb keep_order dated_engine since_february = Ok res
    /\ DocumentSearchResult.filters_applied res
       = [("search_term", PStr "invoice"); ("date_from", PStr "2024-02-01")].
Proof.
  eexists. split; [reflexivity|].
  exact (search_documents_filters_applied (fun s => s)
           (fun _ => EmptyString) string day_only String.ltb keep_order
           dated_engine since_february _ eq_refl).
Defined.

Lemma keep_order_permutation (keyed : list (pyval * Document.t))
    (reverse : bool) (docs : list Document.t) :
  keep_order keyed reverse = Ok docs -> Permutation docs (snd <$> keyed).
Proof. intros [= <-]. apply Permutation_refl. Qed.

Lemma search_documents_sound_witness :
  exists res entries,
    search_documents (fun s => s) (fun _ => EmptyString) string day_only
      String.ltb keep_order dated_engine since_february = Ok res
    /\ VectorStoreService.list_all_documents (vector_store dated_engine)
       = Ok entries
    /\ DocumentSearchResult.total_count res
       <= Z.of_nat (length (default [] entries)).
Proof.
  destruct (search_documents_sound (fun s => s) (fun _ => EmptyString)
              string day_only String.ltb keep_order keep_order_permutation
              dated_engine since_february _ eq_refl)
    as (entries & Hentries & Hcount & _).
  eexists _, entries. split; [reflexivity|]. split; assumption.
Defined.



Section SearchPages.

Variable lower : string -> string.
Variable py_str : pyval -> string.
Variable datetime : Type.
Variable strptime : string -> string -> option datetime.
Variable datetime_lt : datetime -> datetime -> bool.
Variable list_sort :
  list (pyval * Document.t) -> bool -> result (list Document.t).

Local Abbreviation sorted_listing :=
  (filter_and_sort lower py_str datetime strptime datetime_lt list_sort).
Local Abbreviation search :=
  (search_documents lower py_str datetime strptime datetime_lt list_sort).

(** X19.  With fewer than [2^53] documents in the listing and a positive
    page size below [2^1075], a page never holds more documents than the
    page size, every page before the last one ([page_count]) is full, and
    every page after the last one is empty. *)
Theorem search_documents_page_lengths (self : QueryEngine.t)
    (search_request : DocumentSearchRequest.t)
    (docs : list Document.t) (filters_applied : dict)
    (page_size page_number : Z) :
  sorted_listing self search_request = Ok (docs, filters_applied) ->
  Z.of_nat (length docs) < 2 ^ 53 ->
  0 < page_size < 2 ^ 1075 -> 1 <= page_number ->
  exists res,
    search self (with_page search_request page_size page_number) = Ok res /\
    Z.of_nat (length (DocumentSearchResult.documents res)) <= page_size /\
    (page_number < DocumentSearchResult.page_count res ->
     Z.of_nat (length (DocumentSearchResult.documents res)) = page_size) /\
    (DocumentSearchResult.page_count res < page_number ->
     DocumentSearchResult.documents res = []).
Proof.
  intros Hsorted Hlen Hs Hn. eexists. split.
  - apply (search_documents_page _ _ _ _ _ _ _ _ _ _ _ _ Hsorted Hs Hlen).
    lia.
  - cbn [DocumentSearchResult.documents DocumentSearchResult.page_count].
    rewrite py_slice_page by nia.
    destruct (page_count_max (Z.of_nat (length docs)) page_size)
      as [_ Hcover]; [lia | exact Hs |].
    rewrite (ceiling_of_quotient_pos _ _ (proj1 Hs)) in *.
    pose proof (Z.mul_div_le (Z.of_nat (length docs) + page_size - 1)
                  page_size (proj1 Hs)) as Hfloor.
    set (q := (Z.of_nat (length docs) + page_size - 1) / page_size) in *.
    rewrite length_take, length_drop. split; [lia|]. split.
    + intros Hlt. nia.
    + intros Hgt. rewrite drop_ge by nia. apply take_nil.
Qed.


End SearchPages.

Lemma search_documents_page_lengths_witness :
  exists res,
    search_documents (fun s => s) (fun _ => EmptyString) Z (fun _ _ => None)
      Z.ltb keep_order listing_engine (with_page invoice_request 2 3)
    = Ok res
    /\ Z.of_nat (length (DocumentSearchResult.documents res)) <= 2
    /\ DocumentSearchResult.page_count res = 3.
Proof.
  destruct (search_documents_page_lengths (fun s => s)
              (fun _ => EmptyString) Z (fun _ _ => None) Z.ltb keep_order
              listing_engine invoice_request listed_documents
              [("search_term", PStr "invoice")] 2 3 eq_refl)
    as (res & Hres & Hle & _); [reflexivity|split; reflexivity|lia|].
  exists res. split; [exact Hres|]. split; [exact Hle|].
  vm_compute in Hres. injection Hres as <-. reflexivity.
Defined.

(** ** Methods of [str] *)

Lemma rstrip_cons_keep (c : ascii) (s : string) :
  is_space c = false -> rstrip (String c s) = String c (rstrip s).
Proof.
  intros Hc. cbn [rstrip]. destruct (rstrip s); [now rewrite Hc|reflexivity].
Qed.

Lemma rstrip_idempotent (s : string) : rstrip (rstrip s) = rstrip s.
Proof.
  induction s as [|c s IH]; [reflexivity|].
  cbn [rstrip]. destruct (rstrip s) as [|c' r] eqn:Hr.
  - destruct (is_space c) eqn:Hc; [reflexivity|].
    cbn [rstrip]. now rewrite Hc.
  - cbn [rstrip]. cbn [rstrip] in IH.
    destruct (rstrip r) as [|c'' r'] eqn:Hr'.
    + destruct (is_space c') eqn:Hc'; [discriminate|].
      injection IH as <-. reflexivity.
    + now rewrite IH.
Qed.

Lemma lstrip_head (s : string) :
  lstrip s = EmptyString
  \/ exists c r, lstrip s = String c r /\ is_space c = false.
Proof.
  induction s as [|c s IH]; [now left|].
  cbn [lstrip]. destruct (is_space c) eqn:Hc; [exact IH|].
  right. now exists c, s.
Qed.

Lemma strip_idempotent (s : string) : strip (strip s) = strip s.
Proof.
  unfold strip.
  destruct (lstrip_head s) as [->|(c & r & -> & Hc)]; [reflexivity|].
  rewrite (rstrip_cons_keep c r Hc).
  cbn [lstrip]. rewrite Hc.
  rewrite <- (rstrip_cons_keep c r Hc). apply rstrip_idempotent.
Qed.

Lemma blank_strip (s : string) : blank (strip s) = blank s.
Proof. unfold blank. now rewrite strip_idempotent. Qed.

(** ** Text extraction and chunking *)

Lemma pdf_paragraphs_clean (page_num block_idx : Z)
    (page_blocks : list TextExtractor.Block) :
  Forall clean (TextExtractor.pdf_paragraphs page_num block_idx page_blocks).
Proof.
  revert block_idx.
  induction page_blocks as [|block rest IH]; intros block_idx;
    cbn [TextExtractor.pdf_paragraphs].
  - constructor.
  - destruct (TextExtractor.lines block) as [block_lines|]; [|apply IH].
    destruct (blank (TextExtractor.paragraph_text_of block_lines)) eqn:Hb;
      cbn [negb]; [apply IH|].
    constructor; [|apply IH].
    split; unfold DocumentParagraph.text;
      [now rewrite blank_strip|apply strip_idempotent].
Qed.

Lemma pdf_pages_clean (page_num : Z) (doc : list TextExtractor.Page) :
  Forall (fun page => Forall clean (DocumentPage.paragraphs page))
    (fst (TextExtractor.pdf_pages page_num doc)).
Proof.
  revert page_num. induction doc as [|page rest IH]; intros page_num; cbn.
  - constructor.
  - constructor; [apply pdf_paragraphs_clean|apply IH].
Qed.

Lemma ocr_paragraphs_clean (i : Z) (pieces : list string) :
  Forall clean (TextExtractor.ocr_paragraphs i pieces).
Proof.
  revert i. induction pieces as [|para_text rest IH]; intros i;
    cbn [TextExtractor.ocr_paragraphs].
  - constructor.
  - destruct (blank para_text) eqn:Hb; cbn [negb]; [apply IH|].
    constructor; [|apply IH].
    split; unfold DocumentParagraph.text;
      [now rewrite blank_strip|apply strip_idempotent].
Qed.

Lemma extract_from_file_clean (filename : string)
    (content : TextExtractor.Content) (extracted : ProcessedDocument.t) :
  TextExtractor.extract_from_file filename content = Done extracted ->
  Forall (fun page => Forall clean (DocumentPage.paragraphs page))
    (ProcessedDocument.pages extracted).
Proof.
  unfold TextExtractor.extract_from_file.
  destruct (String.eqb _ "pdf").
  - unfold TextExtractor._extract_from_pdf.
    destruct (TextExtractor.fitz_open content) as [doc|]; [|discriminate].
    destruct (blank _); [discriminate|].
    intros [= <-]. cbn. apply pdf_pages_clean.
  - destruct (existsb _ _); [|discriminate].
    unfold TextExtractor._extract_from_image.
    destruct (TextExtractor.get_tesseract_version content); [|discriminate].
    destruct (TextExtractor.image_open content); [|discriminate].
    destruct (TextExtractor.image_to_string content None) as [first_text|];
      [|discriminate].
    destruct (if blank first_text then _ else _) as [extracted_text|];
      [|discriminate].
    destruct (blank extracted_text); [discriminate|].
    intros [= <-]. cbn. constructor; [|constructor].
    apply ocr_paragraphs_clean.
Qed.

Lemma create_chunks_clean (document : ProcessedDocument.t) :
  Forall (fun page => Forall clean (DocumentPage.paragraphs page))
    (ProcessedDocument.pages document) ->
  VectorStore._create_chunks document
  = (fun entry => VectorStore.chunk_of document (fst entry) (snd entry))
      <$> paragraphs_of document.
Proof.
  unfold VectorStore._create_chunks, paragraphs_of.
  induction (ProcessedDocument.pages document) as [|page pages IH];
    intros Hclean; [reflexivity|].
  inversion Hclean as [|? ? Hpage Hpages]; subst.
  cbn [flat_map]. rewrite fmap_app, IH by assumption. f_equal.
  clear IH Hclean Hpages.
  induction (DocumentPage.paragraphs page) as [|paragraph rest IH];
    [reflexivity|].
  inversion Hpage as [|? ? [Hb _] Hrest]; subst.
  cbn [flat_map]. rewrite Hb. cbn. f_equal. now apply IH.
Qed.

(** X20.  Every paragraph that text extraction produces becomes a chunk:
    the paragraphs of an extracted document are not blank and carry no
    white space at their ends, so that after the processor has set the id
    and the metadata, chunking skips none of them and keeps their texts and
    their order. *)
Theorem extracted_paragraphs_all_chunked (filename : string)
    (content : TextExtractor.Content) (extracted : ProcessedDocument.t)
    (uuid4 : string) (metadata : DocumentMetadata.t) :
  TextExtractor.extract_from_file filename content = Done extracted ->
  let document := DocumentProcessor.processed extracted uuid4 metadata in
  VectorStore._create_chunks document
  = (fun entry => VectorStore.chunk_of document (fst entry) (snd entry))
      <$> paragraphs_of extracted
  /\ Forall (fun entry => clean (snd entry)) (paragraphs_of extracted).
Proof.
  intros Hextract document.
  pose proof (extract_from_file_clean _ _ _ Hextract) as Hclean.
  split.
  - now rewrite (create_chunks_clean document Hclean).
  - unfold paragraphs_of.
    induction Hclean as [|page pages Hpage Hpages IH]; [constructor|].
    cbn [flat_map]. apply Forall_app. split; [|exact IH].
    clear IH Hpages. induction Hpage; constructor; auto.
Qed.

Lemma extracted_paragraphs_all_chunked_witness :
  exists extracted,
    TextExtractor.extract_from_file (UploadFile.filename report_file)
      report_content = Done extracted
    /\ content
       <$> VectorStore._create_chunks
             (DocumentProcessor.processed extracted "doc-1"
                (MetadataExtractor.extract_from_file report_file
                   "2024-03-16T09:00:00"))
       = ["Quarterly report"; "Revenue grew."].
Proof.
  eexists. split; [reflexivity|].
  rewrite (proj1 (extracted_paragraphs_all_chunked
                    (UploadFile.filename report_file) report_content _
                    "doc-1"
                    (MetadataExtractor.extract_from_file report_file
                       "2024-03-16T09:00:00") eq_refl)).
  reflexivity.
Defined.

(** ** Chunks of the vector store, cited and filtered *)

Lemma create_basic_citations_of_created (document : ProcessedDocument.t)
    (chunks : list DocumentChunk) :
  Forall (fun chunk => exists page paragraph,
            chunk = VectorStore.chunk_of document page paragraph) chunks ->
  exists citations,
    create_basic_citations chunks = Ok citations
    /\ Forall2
         (fun chunk citation =>
            Citation.content_snippet citation
            = _create_snippet (content chunk) 200
            /\ Citation.page_number citation
               = dict_get (metadata chunk) "page_number")
         chunks citations
    /\ Forall
         (fun citation =>
            Citation.doc_id citation = PStr (ProcessedDocument.id document)
            /\ Citation.document_name citation
               = PStr (DocumentMetadata.filename
                         (ProcessedDocument.metadata document)))
         citations.
Proof.
  induction 1 as [|chunk chunks (page & paragraph & ->) _ IH].
  - exists []. repeat split; constructor.
  - destruct IH as (citations & Hc & Hsnip & Hdoc).
    eexists. cbn [create_basic_citations]. rewrite Hc.
    split; [reflexivity|].
    split; constructor; auto; now split.
Qed.

Lemma create_chunks_shape (document : ProcessedDocument.t) :
  Forall (fun chunk => exists page paragraph,
            chunk = VectorStore.chunk_of document page paragraph)
    (VectorStore._create_chunks document).
Proof.
  unfold VectorStore._create_chunks.
  apply List.Forall_forall. intros chunk Hin.
  apply in_flat_map in Hin as (page & _ & Hin).
  apply in_flat_map in Hin as (paragraph & _ & Hin).
  destruct (blank _); [destruct Hin|].
  destruct Hin as [<-|[]]. eauto.
Qed.

(** X21.  The chunks that the vector store makes of a document can always be
    cited: [create_basic_citations] returns on them, with one citation per
    chunk that carries the snippet and the page number of the chunk, and
    every citation names the id and the file name of the document. *)
Theorem created_chunks_are_citable (document : ProcessedDocument.t) :
  exists citations,
    create_basic_citations (VectorStore._create_chunks document)
    = Ok citations
    /\ Forall2
         (fun chunk citation =>
            Citation.content_snippet citation
            = _create_snippet (content chunk) 200
            /\ Citation.page_number citation
               = dict_get (metadata chunk) "page_number")
         (VectorStore._create_chunks document) citations
    /\ Forall
         (fun citation =>
            Citation.doc_id citation = PStr (ProcessedDocument.id document)
            /\ Citation.document_name citation
               = PStr (DocumentMetadata.filename
                         (ProcessedDocument.metadata document)))
         citations.
Proof.
  apply create_basic_citations_of_created, create_chunks_shape.
Qed.

(** ** The document processor *)

Lemma has_text_false (pages : list DocumentPage.t) :
  DocumentProcessor.has_text pages = false.
Proof. induction pages as [|page rest IH]; [reflexivity|exact IH]. Qed.

Lemma has_indexable_content_false (document : ProcessedDocument.t) :
  DocumentProcessor._has_indexable_content document = false.
Proof.
  unfold DocumentProcessor._has_indexable_content.
  destruct (ProcessedDocument.pages document) eqn:Hp;
    [reflexivity|apply has_text_false].
Qed.

Lemma dict_lookup_write_same (files : dict) (name : string) (data : pyval) :
  dict_lookup (DatabaseService.write files name data) name = Some data.
Proof.
  induction files as [|[name' data'] rest IH]; cbn.
  - now rewrite String.eqb_refl.
  - destruct (String.eqb name' name) eqn:Hn; cbn; now rewrite Hn.
Qed.

Lemma dict_lookup_write_other (files : dict) (name other : string)
    (data : pyval) :
  other <> name ->
  dict_lookup (DatabaseService.write files name data) other
  = dict_lookup files other.
Proof.
  intros Hne. induction files as [|[name' data'] rest IH]; cbn.
  - destruct (String.eqb name other) eqn:Hn; [|reflexivity].
    apply String.eqb_eq in Hn. congruence.
  - destruct (String.eqb name' name) eqn:Hn; cbn; [|now rewrite IH].
    apply String.eqb_eq in Hn. subst name'.
    destruct (String.eqb name other) eqn:Ho; [|reflexivity].
    apply String.eqb_eq in Ho. congruence.
Qed.

(** X22.  An upload never reaches the vector index.  Whenever the upload
    route returns a body, its status is ["success"] while the processing
    status it reports is ["indexing_failed"]; the vector store is left as it
    was, and the database holds the document under the new id with that same
    processing status. *)
Theorem upload_document_never_indexes (processor : DocumentProcessor.t)
    (file : UploadFile.t) (uuid4 utcnow : string)
    (body : DocumentResponse.t) (processor' : DocumentProcessor.t) :
  DocumentRoutes.upload_document processor file uuid4 utcnow
  = (Returned body, processor') ->
  DocumentResponse.status body = "success"
  /\ DocumentResponse.document_id body = uuid4
  /\ dict_lookup (DocumentResponse.metadata body) "processing_status"
     = Some (PStr "indexing_failed")
  /\ DocumentProcessor.vector_store processor'
     = DocumentProcessor.vector_store processor
  /\ exists document,
       DatabaseService.get_document (DocumentProcessor.database processor')
         uuid4
       = Some (DatabaseService.doc_data document)
       /\ ProcessedDocument.id document = uuid4
       /\ DocumentMetadata.processing_status
            (ProcessedDocument.metadata document)
          = "indexing_failed".
Proof.
  unfold DocumentRoutes.upload_document.
  destruct (negb _); [discriminate|].
  unfold DocumentProcessor.process_document.
  destruct (TextExtractor.extract_from_file _ _) as [extracted|e];
    [|discriminate].
  cbv zeta. rewrite has_indexable_content_false.
  unfold DatabaseService.save_document.
  destruct (DatabaseService.writable (DocumentProcessor.database processor))
    eqn:Hw; cbn [fst snd negb DatabaseService.writable]; [|discriminate].
  intros [= <- <-]. cbn.
  repeat split.
  eexists. split; [|split].
  - unfold DatabaseService.get_document. cbn.
    apply dict_lookup_write_same.
  - reflexivity.
  - reflexivity.
Qed.

Lemma upload_document_never_indexes_witness :
  exists body processor',
    DocumentRoutes.upload_document fresh_processor report_file "doc-1"
      "2024-03-16T09:00:00" = (Returned body, processor')
    /\ DocumentResponse.status body = "success"
    /\ dict_lookup (DocumentResponse.metadata body) "processing_status"
       = Some (PStr "indexing_failed")
    /\ DocumentProcessor.vector_store processor' = unreachable_store.
Proof.
  eexists _, _. split; [reflexivity|].
  destruct (upload_document_never_indexes fresh_processor report_file
              "doc-1" "2024-03-16T09:00:00" _ _ eq_refl)
    as (Hstatus & _ & Hprocessing & Hstore & _).
  split; [exact Hstatus|]. split; [exact Hprocessing|exact Hstore].
Defined.

Lemma index_chunks_json (self : VectorStore.t) (pages : pyval) :
  VectorStore.index_chunks self (VectorStore._create_chunks_json pages)
  = (false, self).
Proof.
  unfold VectorStore._create_chunks_json.
  destruct (py_iter pages) as [[|item items]|e]; reflexivity.
Qed.

(** X23.  Indexing can never be retried with success: whatever the database
    holds under the id, [retry_indexing] returns [False] and leaves the
    processor, its database and its vector store as they were, and the
    retry route answers with status code 500. *)
Theorem retry_indexing_always_fails (processor : DocumentProcessor.t)
    (document_id : string) :
  DocumentProcessor.retry_indexing processor document_id
  = (false, processor)
  /\ DocumentRoutes.retry_document_indexing processor document_id
     = (HTTPException 500, processor).
Proof.
  assert (H : DocumentProcessor.retry_indexing processor document_id
              = (false, processor)).
  { unfold DocumentProcessor.retry_indexing.
    destruct (DatabaseService.get_document _ _) as [document_data|];
      [|reflexivity].
    destruct (negb (truthy document_data)); [reflexivity|].
    destruct document_data as [| | | | | |d]; try reflexivity.
    destruct (_ || _); [reflexivity|].
    destruct (dict_get_or d "metadata" (PDict [])); try reflexivity.
    rewrite index_chunks_json. cbn [fst snd].
    now destruct processor. }
  split; [exact H|].
  unfold DocumentRoutes.retry_document_indexing. now rewrite H.
Qed.

(** ** The vector store behind the query engine *)

Lemma apply_filters_nil (filters : option dict) :
  apply_filters [] filters = Ok [].
Proof. now destruct filters as [[|[]]|]. Qed.

Lemma select_documents_nil (ids : option (list string)) :
  select_documents [] ids = [].
Proof. unfold select_documents. now destruct (ids_given ids). Qed.

(** X24.  An index that cannot be searched is reported as an absence of
    results, not as an error: when every search of the vector store fails,
    the two query methods return the no-results response and the two theme
    methods the empty theme response, without consulting the language
    model. *)
Theorem unreachable_index_gives_empty_responses (store : VectorStore.t)
    (llm : LLMService.t) :
  (forall query k filter, exists e,
      VectorStore.similarity_search_with_score store query k filter
      = Raise e) ->
  let engine :=
    {| vector_store := VectorStore.service store; llm_service := llm |} in
  (forall query filters ids,
      process_query engine query filters ids
      = Ok {| QueryResponse.answers := [no_results_message ids];
              QueryResponse.citations := [];
              QueryResponse.metadata := empty_metadata query filters ids |})
  /\ (forall query filters ids,
         process_enhanced_query engine query filters ids
         = Ok {| EnhancedQueryResponse.answers := [no_results_message ids];
                 EnhancedQueryResponse.citations := [];
                 EnhancedQueryResponse.metadata :=
                   empty_metadata query filters ids |})
  /\ (forall query filters,
         extract_themes engine query filters
         = Ok (empty_themes [ ("query", PStr query);
                              ("filters", pyval_of_filters filters);
                              ("total_results", PInt 0) ]))
  /\ (forall document_id,
         extract_themes_for_document engine document_id
         = Ok (empty_themes [ ("document_id", PStr document_id);
                              ("total_results", PInt 0) ])).
Proof.
  intros Hfail engine.
  assert (Hsearch : forall query k,
             VectorStore.similarity_search store query k None = []).
  { intros query k. unfold VectorStore.similarity_search.
    now destruct (Hfail query k (VectorStore.filter_or_empty None)) as [e ->]. }
  assert (Hchunks : forall document_id,
             VectorStore.get_chunks_by_document_id store document_id = []).
  { intros document_id. unfold VectorStore.get_chunks_by_document_id.
    now destruct (Hfail EmptyString 10000 [("doc_id", PStr document_id)])
      as [e ->]. }
  repeat split.
  - intros query filters ids. unfold process_query, engine.
    cbn [vector_store VectorStore.service
         VectorStoreService.similarity_search rbind].
    rewrite Hsearch. cbn [_convert_to_document_chunks].
    rewrite select_documents_nil, apply_filters_nil. reflexivity.
  - intros query filters ids. unfold process_enhanced_query, engine.
    cbn [vector_store VectorStore.service
         VectorStoreService.similarity_search rbind].
    rewrite Hsearch. cbn [_convert_to_document_chunks].
    rewrite select_documents_nil, apply_filters_nil. reflexivity.
  - intros query filters. unfold extract_themes, engine.
    cbn [vector_store VectorStore.service
         VectorStoreService.similarity_search rbind].
    rewrite Hsearch. cbn [_convert_to_document_chunks].
    rewrite apply_filters_nil. reflexivity.
  - intros document_id. unfold extract_themes_for_document, engine.
    cbn [vector_store VectorStore.service
         VectorStoreService.get_chunks_by_document_id rbind].
    rewrite Hchunks. reflexivity.
Qed.

Lemma unreachable_index_gives_empty_responses_witness :
  process_query
    {| vector_store := VectorStore.service unreachable_store;
       llm_service :=
         {| LLMService.answer_query := fun _ _ => Ok "Within 30 days.";
            LLMService.extract_themes := fun _ => Ok [] |} |}
    "refund policy" None (Some ["doc-A"])
  = Ok {| QueryResponse.answers :=
            ["No relevant documents found matching the criteria. Search was limited to 1 selected documents."];
          QueryResponse.citations := [];
          QueryResponse.metadata :=
            empty_metadata "refund policy" None (Some ["doc-A"]) |}.
Proof.
  exact (proj1 (unreachable_index_gives_empty_responses unreachable_store
                  _ (fun _ _ _ => ex_intro _ _ eq_refl))
           "refund policy" None (Some ["doc-A"])).
Defined.

(** ** The document selection *)

Lemma doc_map_get_set (doc_map : list (string * Document.t))
    (doc : Document.t) (doc_id : string) :
  QueryRoutes.doc_map_get (QueryRoutes.doc_map_set doc_map doc) doc_id
  = if String.eqb (Document.id doc) doc_id then Some doc
    else QueryRoutes.doc_map_get doc_map doc_id.
Proof.
  induction doc_map as [|[k doc'] rest IH]; cbn; [reflexivity|].
  destruct (String.eqb k (Document.id doc)) eqn:Hk; cbn.
  - apply String.eqb_eq in Hk. subst k.
    now destruct (String.eqb (Document.id doc) doc_id).
  - rewrite IH. destruct (String.eqb k doc_id) eqn:Hd; [|reflexivity].
    apply String.eqb_eq in Hd. subst k.
    rewrite String.eqb_sym in Hk. now rewrite Hk.
Qed.

Lemma find_append {A : Type} (p : A -> bool) (l1 l2 : list A) :
  List.find p (l1 ++ l2)%list
  = match List.find p l1 with
    | Some x => Some x
    | None => List.find p l2
    end.
Proof.
  induction l1 as [|x l1 IH]; cbn; [reflexivity|].
  now destruct (p x).
Qed.

Lemma doc_map_get_fold (docs : list Document.t)
    (doc_map : list (string * Document.t)) (doc_id : string) :
  QueryRoutes.doc_map_get (fold_left QueryRoutes.doc_map_set docs doc_map)
    doc_id
  = match List.find (fun doc => String.eqb (Document.id doc) doc_id)
            (rev docs) with
    | Some doc => Some doc
    | None => QueryRoutes.doc_map_get doc_map doc_id
    end.
Proof.
  revert doc_map. induction docs as [|doc docs IH]; intros doc_map;
    [reflexivity|].
  cbn [fold_left rev]. rewrite IH, doc_map_get_set.
  rewrite find_append.
  destruct (List.find _ (rev docs)); [reflexivity|].
  cbn. now destruct (String.eqb (Document.id doc) doc_id).
Qed.

Lemma doc_map_get_Some (docs : list Document.t) (doc_id : string)
    (doc : Document.t) :
  QueryRoutes.doc_map_get (QueryRoutes.doc_map_of docs) doc_id = Some doc ->
  In doc docs /\ Document.id doc = doc_id.
Proof.
  unfold QueryRoutes.doc_map_of. rewrite doc_map_get_fold.
  destruct (List.find _ (rev docs)) as [found|] eqn:Hf; [|discriminate].
  intros [= <-]. apply find_some in Hf as [Hin Hid].
  split; [now apply in_rev|now apply String.eqb_eq].
Qed.

Lemma doc_map_get_listed (docs : list Document.t) (doc_id : string) :
  listed docs doc_id
  = match QueryRoutes.doc_map_get (QueryRoutes.doc_map_of docs) doc_id with
    | Some _ => true
    | None => false
    end.
Proof.
  unfold QueryRoutes.doc_map_of, listed. rewrite doc_map_get_fold.
  destruct (List.find _ (rev docs)) as [found|] eqn:Hf.
  - apply find_some in Hf as [Hin Hid].
    apply existsb_exists. exists found. split; [now apply in_rev|exact Hid].
  - cbn. apply not_true_is_false. intros Hex.
    apply existsb_exists in Hex as (doc & Hin & Hid).
    apply in_rev in Hin.
    pose proof (find_none _ _ Hf doc Hin) as Hno. cbv beta in Hno.
    congruence.
Qed.

Lemma validate_spec (docs : list Document.t) (document_ids : list string) :
  let validated :=
    QueryRoutes.validate (QueryRoutes.doc_map_of docs) document_ids in
  Document.id <$> fst validated = List.filter (listed docs) document_ids
  /\ snd validated
     = List.filter (fun doc_id => negb (listed docs doc_id)) document_ids
  /\ Forall (fun doc => In doc docs) (fst validated).
Proof.
  induction document_ids as [|doc_id rest IH]; cbn zeta.
  - repeat split. constructor.
  - destruct IH as (Hsel & Hinv & Hin).
    cbn [QueryRoutes.validate List.filter].
    rewrite (doc_map_get_listed docs doc_id).
    destruct (QueryRoutes.doc_map_get _ doc_id) as [doc|] eqn:Hget;
      cbn [fst snd negb].
    + apply doc_map_get_Some in Hget as [Hdoc Hid].
      repeat split; [|exact Hinv|constructor; assumption].
      rewrite fmap_cons. now rewrite Hid, Hsel.
    + repeat split; [exact Hsel| |exact Hin]. now rewrite Hinv.
Qed.

(** X25.  The selection route sorts the requested ids into listed and not
    listed.  The selected documents are documents of the listing whose ids
    are the requested ids that are listed, in the order of the request and
    with its repetitions; [count] is their number; and the status is
    ["success"] exactly when every requested id is listed. *)
Theorem validate_document_selection_listed (py_repr : list string -> string)
    (engine : QueryEngine.t) (document_ids : list string) :
  let docs := fst (list_all_documents engine) in
  let selection :=
    QueryRoutes.validate_document_selection py_repr engine document_ids in
  let selected :=
    QueryRoutes.DocumentSelectionResponse.selected_documents selection in
  Document.id <$> selected = List.filter (listed docs) document_ids
  /\ Forall (fun doc => In doc docs) selected
  /\ QueryRoutes.DocumentSelectionResponse.count selection
     = Z.of_nat (length selected)
  /\ (QueryRoutes.DocumentSelectionResponse.status selection = "success"
      <-> forallb (listed docs) document_ids = true).
Proof.
  intros docs selection selected.
  destruct (validate_spec docs document_ids) as (Hsel & Hinv & Hin).
  cbv zeta in Hsel, Hinv, Hin.
  unfold selected, selection, QueryRoutes.validate_document_selection.
  fold docs.
  destruct (snd (QueryRoutes.validate (QueryRoutes.doc_map_of docs)
                   document_ids)) as [|bad invalid] eqn:Hsnd;
    cbn [QueryRoutes.DocumentSelectionResponse.selected_documents
         QueryRoutes.DocumentSelectionResponse.count
         QueryRoutes.DocumentSelectionResponse.status].
  - repeat split; try assumption.
    intros _. apply forallb_forall. intros doc_id Hid.
    destruct (listed docs doc_id) eqn:Hl; [reflexivity|].
    assert (Hbad : In doc_id
              (List.filter (fun doc_id => negb (listed docs doc_id))
                 document_ids))
      by (apply filter_In; split; [exact Hid|now rewrite Hl]).
    rewrite <- Hinv in Hbad. destruct Hbad.
  - repeat split; try assumption.
    + discriminate.
    + intros Hall. exfalso.
      assert (Hbad : In bad
                (List.filter (fun doc_id => negb (listed docs doc_id))
                   document_ids))
        by (rewrite <- Hinv; now left).
      apply filter_In in Hbad as [Hid Hl].
      rewrite forallb_forall in Hall. rewrite (Hall _ Hid) in Hl.
      discriminate.
Qed.

(** ** Indexing in batches *)

Lemma py_slice_batch {A : Type} (l : list A) (j : nat) :
  py_slice l (Z.of_nat (VectorStore.batch_size * j))
    (Z.of_nat (VectorStore.batch_size * j)
     + Z.of_nat VectorStore.batch_size)
  = take 5 (drop (5 * j) l).
Proof.
  unfold VectorStore.batch_size.
  rewrite py_slice_page by lia. now rewrite !Nat2Z.id.
Qed.

Lemma add_batches_spec (self : VectorStore.t)
    (docs : list (string * dict)) (m k : nat)
    (sent : list (list (string * dict))) :
  let result :=
    VectorStore.add_batches self docs
      ((fun j => Z.of_nat (VectorStore.batch_size * j)) <$> seq k m) sent in
  exists batches,
    snd result = (sent ++ batches)%list
    /\ (exists p, concat batches = take p (drop (5 * k) docs))
    /\ Forall (fun batch => (length batch <= 5)%nat) batches
    /\ (fst result = true ->
        concat batches = take (5 * m) (drop (5 * k) docs))
    /\ (fst result = false ->
        exists earlier batch e,
          batches = (earlier ++ [batch])%list
          /\ VectorStore.add_documents self (sent ++ earlier)%list batch
             = Raise e)
    /\ ((forall history batch,
           VectorStore.add_documents self history batch = Ok tt) ->
        fst result = true)
    /\ ((5 * (k + m) < length docs + 5)%nat ->
        Forall (fun batch => batch <> []) batches).
Proof.
  revert k sent. induction m as [|m IH]; intros k sent; cbn zeta.
  - exists []. cbn [seq fmap list_fmap VectorStore.add_batches fst snd].
    rewrite app_nil_r.
    split; [reflexivity|]. split; [now exists 0%nat|].
    split; [constructor|]. split; [reflexivity|].
    split; [discriminate|]. split; [reflexivity|constructor].
  - cbn [seq fmap list_fmap VectorStore.add_batches].
    change (list_fmap _ _ ?f ?l) with (f <$> l).
    rewrite py_slice_batch.
    set (batch := take 5 (drop (5 * k) docs)).
    assert (Hbatch : (length batch <= 5)%nat)
      by (unfold batch; rewrite length_take; lia).
    assert (Hjoin : forall p,
               (batch ++ take p (drop (5 * S k) docs))%list
               = take (5 + p) (drop (5 * k) docs)).
    { intros p. unfold batch.
      replace (5 * S k)%nat with (5 * k + 5)%nat by lia.
      rewrite <- drop_drop. now rewrite take_take_drop. }
    assert (Hfull : (5 * (k + S m) < length docs + 5)%nat -> batch <> []).
    { intros Hk Hnil. apply (f_equal length) in Hnil. unfold batch in Hnil.
      rewrite length_take, length_drop in Hnil. cbn [length] in Hnil.
      lia. }
    destruct (VectorStore.add_documents self sent batch) as [[]|e] eqn:Hadd.
    + destruct (IH (S k) (sent ++ [batch])%list)
        as (batches & Hsnd & Hpre & Hlen & Hok & Hbad & Hall & Hne).
      exists (batch :: batches).
      split; [now rewrite Hsnd, <- app_assoc|].
      split; [destruct Hpre as [p Hp]; exists (5 + p)%nat;
              cbn [concat]; now rewrite Hp, Hjoin|].
      split; [now constructor|].
      split; [intros H; cbn [concat]; rewrite (Hok H), Hjoin;
              f_equal; lia|].
      split.
      { intros H. destruct (Hbad H) as (earlier & last & e & -> & Hlast).
        exists (batch :: earlier), last, e. split; [reflexivity|].
        now rewrite <- app_assoc in Hlast. }
      split; [exact Hall|].
      intros Hk. constructor; [now apply Hfull|]. apply Hne. lia.
    + exists [batch]. cbn [fst snd].
      split; [reflexivity|].
      split; [exists 5%nat; cbn [concat]; now rewrite app_nil_r|].
      split; [constructor; [exact Hbatch|constructor]|].
      split; [discriminate|].
      split.
      { intros _. exists [], batch, e. split; [reflexivity|].
        now rewrite app_nil_r. }
      split; [intros Hall; rewrite Hall in Hadd; discriminate|].
      intros Hk. constructor; [now apply Hfull|constructor].
Qed.

(** X26.  Indexing hands the chunks of a document to the vector store in
    order and in batches of at most five.  The batches that
    [index_document] adds are non-empty, hold at most five documents each
    and, put end to end, are an initial part of the chunks.  When it
    returns [True] there is at least one chunk and the batches are all the
    chunks; when it returns [False] there was no chunk, or the collection
    could not be ensured, or the last batch handed over was refused; and it
    returns [True] when there is a chunk, the collection can be ensured and
    no batch is refused. *)
Theorem index_document_batches (self : VectorStore.t)
    (document : ProcessedDocument.t) :
  let docs := VectorStore.Document <$> VectorStore._create_chunks document in
  let indexed := VectorStore.index_document self document in
  exists batches,
    VectorStore.added (snd indexed)
    = (VectorStore.added self ++ batches)%list
    /\ (exists p, concat batches = take p docs)
    /\ Forall (fun batch => batch <> [] /\ (length batch <= 5)%nat) batches
    /\ (fst indexed = true -> docs <> [] /\ concat batches = docs)
    /\ (fst indexed = false ->
        docs = []
        \/ (exists e, VectorStore._ensure_collection_exists self = Raise e)
        \/ exists earlier batch e,
             batches = (earlier ++ [batch])%list
             /\ VectorStore.add_documents self
                  (VectorStore.added self ++ earlier)%list batch
                = Raise e)
    /\ (docs <> [] ->
        VectorStore._ensure_collection_exists self = Ok tt ->
        (forall history batch,
            VectorStore.add_documents self history batch = Ok tt) ->
        fst indexed = true).
Proof.
  intros docs indexed. unfold indexed, VectorStore.index_document,
    VectorStore.index_chunks.
  assert (Hnone : exists batches : list (list (string * dict)),
             VectorStore.added self
             = (VectorStore.added self ++ batches)%list
             /\ (exists p, concat batches = take p docs)
             /\ Forall (fun batch => batch <> [] /\ (length batch <= 5)%nat)
                  batches).
  { exists []. rewrite app_nil_r. repeat split; [|constructor].
    now exists 0%nat. }
  destruct (VectorStore._create_chunks document) as [|chunk chunks] eqn:Hc.
  - destruct Hnone as (batches & Ha & Hp & Hf). exists batches.
    cbn [fst snd].
    split; [exact Ha|]. split; [exact Hp|]. split; [exact Hf|].
    split; [discriminate|]. split; [intros _; now left|].
    intros Hd. now destruct Hd.
  - destruct (VectorStore._ensure_collection_exists self) as [[]|e] eqn:He.
    + set (docs' := VectorStore.Document <$> chunk :: chunks) in *.
      unfold VectorStore.range_step.
      assert (Hdiv : (length docs'
                      <= 5 * Nat.div (length docs' + VectorStore.batch_size - 1)
                               VectorStore.batch_size
                      < length docs' + 5)%nat).
      { change VectorStore.batch_size with 5%nat.
        pose proof (Nat.Div0.mul_div_le (length docs' + 5 - 1) 5).
        pose proof (Nat.mul_succ_div_gt (length docs' + 5 - 1) 5).
        lia. }
      set (m := Nat.div (length docs' + VectorStore.batch_size - 1)
                  VectorStore.batch_size) in *.
      clearbody m.
      destruct (add_batches_spec self docs' m 0 (VectorStore.added self))
        as (batches & Hsnd & Hpre & Hlen & Hok & Hbad & Hall & Hne).
      set (sent := VectorStore.add_batches self docs' _ _) in *.
      exists batches. cbn [fst snd VectorStore.with_added
                           VectorStore.added].
      rewrite drop_0 in *.
      split; [exact Hsnd|]. split; [exact Hpre|].
      split; [apply Forall_and; split;
              [apply Hne; exact (proj2 Hdiv)|exact Hlen]|].
      split.
      { intros H. split; [discriminate|]. rewrite (Hok H).
        apply take_ge. exact (proj1 Hdiv). }
      split; [intros H; right; right; exact (Hbad H)|].
      intros _ _. exact Hall.
    + destruct Hnone as (batches & Ha & Hp & Hf). exists batches.
      cbn [fst snd].
      split; [exact Ha|]. split; [exact Hp|]. split; [exact Hf|].
      split; [discriminate|]. split; [intros _; right; left; eauto|].
      discriminate.
Qed.

(** ** Metadata from the file name *)

Lemma list_ascii_of_append (s t : string) :
  list_ascii_of_string (s ++ t)
  = (list_ascii_of_string s ++ list_ascii_of_string t)%list.
Proof.
  induction s as [|c s IH]; [reflexivity|].
  change (String c s ++ t) with (String c (s ++ t)).
  cbn [list_ascii_of_string]. now rewrite IH.
Qed.

Lemma string_append_cancel (s1 s2 t : string) :
  s1 ++ t = s2 ++ t -> s1 = s2.
Proof.
  intros H. apply (f_equal list_ascii_of_string) in H.
  rewrite !list_ascii_of_append in H. apply app_inv_tail in H.
  apply (f_equal string_of_list_ascii) in H.
  now rewrite !string_of_list_ascii_of_string in H.
Qed.

Lemma string_length_ascii (s : string) :
  String.length s = length (list_ascii_of_string s).
Proof. induction s as [|c s IH]; cbn; [reflexivity|now rewrite IH]. Qed.

Lemma match_at_Some (pattern : list (ascii -> bool)) (s group : string) :
  match_at pattern s = Some group
  <-> matches pattern group /\ exists rest, s = group ++ rest.
Proof.
  unfold matches. revert s group.
  induction pattern as [|class pattern IH]; intros s group; cbn [match_at].
  - split.
    + intros [= <-]. split; [constructor|now exists s].
    + intros [Hm [rest ->]]. destruct group; [reflexivity|].
      inversion Hm.
  - destruct s as [|c s].
    + split; [discriminate|].
      intros [Hm [rest Hs]]. destruct group; [inversion Hm|discriminate].
    + destruct (class c) eqn:Hc.
      * destruct (match_at pattern s) as [group'|] eqn:Hg; cbn.
        -- apply IH in Hg as [Hm [rest ->]]. split.
           ++ intros [= <-]. split; [now constructor|now exists rest].
           ++ intros [Hm' [rest' Hs]]. destruct group as [|c' group];
                [inversion Hm'|].
              change (String c' group ++ rest')
                with (String c' (group ++ rest')) in Hs.
              injection Hs as <- Hs.
              inversion Hm' as [|? ? ? ? _ Hm'']; subst.
              assert (Hg : match_at pattern (group' ++ rest) = Some group)
                by (apply IH; split; [exact Hm''|now exists rest']).
              assert (Hg' : match_at pattern (group' ++ rest) = Some group')
                by (apply IH; split; [exact Hm|now exists rest]).
              congruence.
        -- split; [discriminate|].
           intros [Hm' [rest' Hs]]. destruct group as [|c' group];
             [inversion Hm'|].
           change (String c' group ++ rest')
             with (String c' (group ++ rest')) in Hs.
           injection Hs as <- Hs.
           inversion Hm' as [|? ? ? ? _ Hm'']; subst.
           assert (Hg' : match_at pattern (group ++ rest') = Some group)
             by (apply IH; split; [exact Hm''|now exists rest']).
           congruence.
      * split; [discriminate|].
        intros [Hm' [rest' Hs]]. destruct group as [|c' group];
          [inversion Hm'|].
        change (String c' group ++ rest')
          with (String c' (group ++ rest')) in Hs.
        injection Hs as <- Hs.
        inversion Hm' as [|? ? ? ? Hc' _]; subst. congruence.
Qed.

Lemma re_search_Some (pattern : list (ascii -> bool)) (s group : string) :
  re_search pattern s = Some group ->
  matches pattern group
  /\ exists before after,
       s = before ++ group ++ after
       /\ forall before' group' after',
            s = before' ++ group' ++ after' ->
            matches pattern group' ->
            (String.length before <= String.length before')%nat.
Proof.
  induction s as [|c s IH]; cbn [re_search].
  - destruct (match_at pattern EmptyString) as [g|] eqn:Hg; [|discriminate].
    intros [= <-]. apply match_at_Some in Hg as [Hm [rest Hs]].
    split; [exact Hm|]. exists EmptyString, rest.
    split; [exact Hs|]. intros; cbn; lia.
  - destruct (match_at pattern (String c s)) as [g|] eqn:Hg.
    + intros [= <-]. apply match_at_Some in Hg as [Hm [rest Hs]].
      split; [exact Hm|]. exists EmptyString, rest.
      split; [exact Hs|]. intros; cbn; lia.
    + intros Hs. destruct (IH Hs) as (Hm & before & after & -> & Hleft).
      split; [exact Hm|]. exists (String c before), after.
      split; [reflexivity|].
      intros before' group' after' Hdec Hm'.
      destruct before' as [|c' before'].
      * assert (Hg' : match_at pattern (String c (before ++ group ++ after))
                      = Some group')
          by (apply match_at_Some; split; [exact Hm'|now exists after']).
        congruence.
      * change (String c' before' ++ group' ++ after')
          with (String c' (before' ++ group' ++ after')) in Hdec.
        injection Hdec as <- Hdec.
        specialize (Hleft _ _ _ Hdec Hm'). cbn. lia.
Qed.

Lemma re_search_None (pattern : list (ascii -> bool)) (s : string) :
  re_search pattern s = None ->
  forall before group after,
    s = before ++ group ++ after -> ~ matches pattern group.
Proof.
  induction s as [|c s IH]; cbn [re_search].
  - destruct (match_at pattern EmptyString) as [g|] eqn:Hg; [discriminate|].
    intros _ before group after Hs Hm.
    destruct before; [|discriminate].
    assert (Hg' : match_at pattern EmptyString = Some group)
      by (apply match_at_Some; split; [exact Hm|now exists after]).
    congruence.
  - destruct (match_at pattern (String c s)) as [g|] eqn:Hg; [discriminate|].
    intros Hs before group after Hdec Hm.
    destruct before as [|c' before].
    + assert (Hg' : match_at pattern (String c s) = Some group)
        by (apply match_at_Some; split; [exact Hm|now exists after]).
      congruence.
    + change (String c' before ++ group ++ after)
        with (String c' (before ++ group ++ after)) in Hdec.
      injection Hdec as <- Hdec.
      exact (IH Hs _ _ _ Hdec Hm).
Qed.

(** X27.  The document date is the leftmost date in the file name.  When
    [_extract_date] returns a string, it has ten characters of the shape
    dddd-dd-dd, it occurs in the file name, and no string of that shape
    occurs further to the left; when it returns [None], no string of that
    shape occurs in the file name. *)
Theorem extract_date_leftmost (filename : string) :
  match MetadataExtractor._extract_date filename with
  | Some date =>
      String.length date = 10%nat
      /\ date_shaped date
      /\ exists before after,
           filename = before ++ date ++ after
           /\ forall before' date' after',
                filename = before' ++ date' ++ after' ->
                date_shaped date' ->
                (String.length before <= String.length before')%nat
  | None =>
      forall before date after,
        filename = before ++ date ++ after -> ~ date_shaped date
  end.
Proof.
  unfold MetadataExtractor._extract_date, date_shaped.
  destruct (re_search MetadataExtractor.date_pattern filename) as [date|]
    eqn:Hs.
  - apply re_search_Some in Hs as (Hm & Hdec).
    split; [|split; assumption].
    rewrite string_length_ascii.
    now rewrite <- (Forall2_length _ _ _ Hm).
  - now apply re_search_None.
Qed.

Lemma prefix_char (sep c : ascii) (s : string) :
  String.prefix (String sep EmptyString) (String c s) = Ascii.eqb c sep.
Proof.
  cbn. destruct (ascii_dec sep c) as [->|Hne].
  - rewrite Ascii.eqb_refl. now destruct s.
  - symmetry. apply Ascii.eqb_neq. congruence.
Qed.

Lemma split_char_length (sep : ascii) (piece s : string) :
  length (split_loop (String sep EmptyString) 0 piece s)
  = S (count_char sep s).
Proof.
  revert piece. induction s as [|c s IH]; intros piece; [reflexivity|].
  cbn [split_loop count_char]. rewrite prefix_char.
  destruct (Ascii.eqb c sep); cbn [length String.length Nat.sub];
    rewrite IH; reflexivity.
Qed.

Lemma string_app_assoc (s t u : string) : (s ++ t) ++ u = s ++ t ++ u.
Proof.
  induction s as [|c s IH]; [reflexivity|].
  change (String c (s ++ t) ++ u = String c (s ++ t ++ u)).
  change (String c ((s ++ t) ++ u) = String c (s ++ t ++ u)).
  now rewrite IH.
Qed.

Lemma split_char_hd (sep : ascii) (piece s : string) :
  (1 <= count_char sep s)%nat ->
  exists first rest,
    s = first ++ String sep rest
    /\ count_char sep first = 0%nat
    /\ List.hd EmptyString (split_loop (String sep EmptyString) 0 piece s)
       = piece ++ first.
Proof.
  revert piece. induction s as [|c s IH]; intros piece Hc;
    [cbn in Hc; lia|].
  cbn [split_loop]. rewrite prefix_char.
  destruct (Ascii.eqb c sep) eqn:Hsep.
  - apply Ascii.eqb_eq in Hsep. subst c.
    exists EmptyString, s. repeat split. cbn [List.hd].
    clear. induction piece as [|c p IH]; [reflexivity|].
    change (String c p = String c (p ++ EmptyString)). now rewrite <- IH.
  - cbn [count_char] in Hc. rewrite Hsep in Hc.
    destruct (IH (piece ++ String c EmptyString) Hc)
      as (first & rest & -> & Hfirst & Hhd).
    exists (String c first), rest. repeat split.
    + cbn [count_char]. now rewrite Hsep.
    + rewrite Hhd. now rewrite string_app_assoc.
Qed.

Lemma replace_char_length (old new : ascii) (s : string) :
  String.length (replace_char old new s) = String.length s.
Proof. induction s as [|c s IH]; cbn; [reflexivity|now rewrite IH]. Qed.

Lemma replace_char_none (old new : ascii) (s : string) :
  old <> new -> count_char old (replace_char old new s) = 0%nat.
Proof.
  intros Hne. induction s as [|c s IH]; [reflexivity|].
  cbn [replace_char count_char]. rewrite IH.
  destruct (Ascii.eqb c old) eqn:Hc.
  - destruct (Ascii.eqb new old) eqn:Hn; [|reflexivity].
    apply Ascii.eqb_eq in Hn. congruence.
  - now rewrite Hc.
Qed.

(** X28.  An author is read from a file name exactly when the name holds at
    least two underscores; it is then what precedes the first underscore,
    with every full stop replaced by a space, so that it has the length of
    that part and holds no full stop. *)
Theorem extract_author_first_part (filename : string) :
  ((exists author, MetadataExtractor._extract_author filename = Some author)
   <-> (2 <= count_char "_" filename)%nat)
  /\ forall author,
       MetadataExtractor._extract_author filename = Some author ->
       exists first rest,
         filename = first ++ String "_" rest
         /\ count_char "_" first = 0%nat
         /\ author = replace_char "." " " first
         /\ String.length author = String.length first
         /\ count_char "." author = 0%nat.
Proof.
  unfold MetadataExtractor._extract_author, split.
  rewrite split_char_length.
  destruct (Nat.leb_spec 3 (S (count_char "_" filename))) as [Hc|Hc].
  - split.
    + split; [intros _; lia|intros _; eauto].
    + intros author [= <-].
      destruct (split_char_hd "_" EmptyString filename)
        as (first & rest & Hf & Hfirst & Hhd); [lia|].
      exists first, rest. rewrite Hhd.
      change (EmptyString ++ first) with first.
      repeat split; try assumption.
      * apply replace_char_length.
      * now apply replace_char_none.
  - split.
    + split; [intros [author Ha]; discriminate|intros; lia].
    + discriminate.
Qed.

(** ** The database *)

Lemma doc_file_inj (id1 id2 : string) :
  DatabaseService.doc_file id1 = DatabaseService.doc_file id2 -> id1 = id2.
Proof. apply string_append_cancel. Qed.


(** X29.  What is saved can be read back.  On a writable database
    [save_document] returns [True]; afterwards [get_document] gives, for the
    id of the document, the JSON form of the document, and for every other
    id what it gave before.  On a database that cannot be written,
    [save_document] returns [False] and changes nothing. *)
Theorem save_document_get_document (self : DatabaseService.t)
    (document : ProcessedDocument.t) :
  let saved := DatabaseService.save_document self document in
  fst saved = DatabaseService.writable self
  /\ (DatabaseService.writable self = true ->
      DatabaseService.get_document (snd saved)
        (ProcessedDocument.id document)
      = Some (DatabaseService.doc_data document)
      /\ forall other,
           other <> ProcessedDocument.id document ->
           DatabaseService.get_document (snd saved) other
           = DatabaseService.get_document self other)
  /\ (DatabaseService.writable self = false -> snd saved = self).
Proof.
  unfold DatabaseService.save_document, DatabaseService.get_document.
  destruct (DatabaseService.writable self); cbn [fst snd].
  - repeat split; try discriminate.
    + apply dict_lookup_write_same.
    + intros other Hne. cbn. apply dict_lookup_write_other.
      intros Heq. apply doc_file_inj in Heq. contradiction.
  - repeat split; discriminate.
Qed.


(** ** Date ranges on the dates of file names *)

Lemma is_digit_value (c : ascii) :
  is_digit c = true -> 0 <= digit_value c <= 9.
Proof.
  unfold is_digit, digit_value. intros H.
  apply andb_true_iff in H as [H1 H2].
  apply Nat.leb_le in H1, H2. lia.
Qed.

Lemma ascii_compare_value (a b : ascii) :
  Ascii.compare a b = (digit_value a ?= digit_value b).
Proof.
  unfold Ascii.compare, digit_value, nat_of_ascii.
  destruct (N.compare_spec (N_of_ascii a) (N_of_ascii b)),
    (Z.compare_spec (Z.of_nat (N.to_nat (N_of_ascii a)) - 48)
       (Z.of_nat (N.to_nat (N_of_ascii b)) - 48));
    try reflexivity; lia.
Qed.

Lemma date_shaped_inv (s : string) :
  date_shaped s ->
  exists y1 y2 y3 y4 m1 m2 d1 d2,
    s = String y1 (String y2 (String y3 (String y4 (String "-"
          (String m1 (String m2 (String "-"
             (String d1 (String d2 EmptyString)))))))))
    /\ Forall (fun c => is_digit c = true) [y1; y2; y3; y4; m1; m2; d1; d2].
Proof.
  unfold date_shaped, matches, MetadataExtractor.date_pattern.
  intros H.
  repeat (destruct s as [|? s]; cbn [list_ascii_of_string] in H;
          [now inversion H|];
          inversion H as [|? ? ? ? ?Hc ?Hrest]; subst; clear H;
          rename Hrest into H).
  destruct s; [|now inversion H].
  repeat match goal with
         | Hd : Ascii.eqb "-" ?c = true |- _ =>
             apply Ascii.eqb_eq in Hd; subst c
         end.
  do 8 eexists. split; [reflexivity|].
  repeat constructor; assumption.
Qed.

Lemma date_ltb_number (s t : string) :
  date_shaped s -> date_shaped t ->
  String.ltb s t = (date_number s <? date_number t).
Proof.
  intros Hs Ht.
  apply date_shaped_inv in Hs
    as (a1 & a2 & a3 & a4 & a5 & a6 & a7 & a8 & -> & Ha).
  apply date_shaped_inv in Ht
    as (b1 & b2 & b3 & b4 & b5 & b6 & b7 & b8 & -> & Hb).
  repeat match goal with
         | H : Forall _ (_ :: _) |- _ =>
             let Hd := fresh "Hd" in
             inversion H as [|? ? Hd ?]; subst; clear H;
             apply is_digit_value in Hd
         | H : Forall _ [] |- _ => clear H
         end.
  unfold String.ltb, date_number.
  cbn [String.compare list_ascii_of_string].
  rewrite !ascii_compare_value.
  change (digit_value "-" ?= digit_value "-") with Eq.
  repeat match goal with
         | |- context [digit_value ?a ?= digit_value ?b] =>
             destruct (Z.compare_spec (digit_value a) (digit_value b))
         end;
    cbv iota; symmetry;
    first [apply Z.ltb_lt; lia | apply Z.ltb_ge; lia].
Qed.

Lemma date_shaped_nonempty (s : string) :
  date_shaped s -> String.eqb s EmptyString = false.
Proof.
  intros Hs. apply date_shaped_inv in Hs as (? & ? & ? & ? & ? & ? & ? & ?
                                             & -> & _).
  reflexivity.
Qed.

Lemma filter_loop_uniform (chunks : list DocumentChunk) (filters : dict)
    (keep : bool) :
  Forall (fun chunk => _should_include_chunk chunk filters = Ok keep)
    chunks ->
  filter_loop chunks filters = Ok (if keep then chunks else []).
Proof.
  induction 1 as [|chunk chunks Hc _ IH]; [now destruct keep|].
  cbn [filter_loop]. rewrite Hc, IH. now destruct keep.
Qed.

(** A file whose name holds no date passes every date range. *)
Lemma undated_document_passes_date_range (file : UploadFile.t)
    (extracted : ProcessedDocument.t) (uuid4 utcnow : string)
    (date_range : dict) :
  MetadataExtractor._extract_date (UploadFile.filename file) = None ->
  let document :=
    DocumentProcessor.processed extracted uuid4
      (MetadataExtractor.extract_from_file file utcnow) in
  apply_filters (VectorStore._create_chunks document)
    (Some [("date_range", PDict date_range)])
  = Ok (VectorStore._create_chunks document).
Proof.
  intros Hdate document. cbn [apply_filters].
  apply filter_loop_fixed.
  eapply Forall_impl; [apply create_chunks_shape|].
  intros chunk (page & paragraph & ->).
  cbn [_should_include_chunk]. unfold check_item.
  cbn [String.eqb Ascii.eqb Bool.eqb andb is_dict dict_of].
  unfold _check_date_range, VectorStore.chunk_of.
  cbn [metadata]. unfold document.
  cbn [DocumentProcessor.processed ProcessedDocument.metadata
       DocumentMetadata.document_date MetadataExtractor.extract_from_file].
  rewrite Hdate. reflexivity.
Qed.

(** On the date of a file name a date range with bounds of the shape
    dddd-dd-dd is chronological. *)
Lemma dated_document_date_range (file : UploadFile.t)
    (extracted : ProcessedDocument.t) (uuid4 utcnow : string)
    (date start_date end_date : string) :
  MetadataExtractor._extract_date (UploadFile.filename file) = Some date ->
  date_shaped start_date -> date_shaped end_date ->
  let document :=
    DocumentProcessor.processed extracted uuid4
      (MetadataExtractor.extract_from_file file utcnow) in
  apply_filters (VectorStore._create_chunks document)
    (Some [("date_range",
             PDict [("start", PStr start_date); ("end", PStr end_date)])])
  = Ok (if (date_number start_date <=? date_number date)
           && (date_number date <=? date_number end_date)
        then VectorStore._create_chunks document
        else []).
Proof.
  intros Hdate Hstart Hend document. cbn [apply_filters].
  assert (Hshaped : date_shaped date).
  { unfold MetadataExtractor._extract_date in Hdate.
    now apply re_search_Some in Hdate as [Hm _]. }
  apply filter_loop_uniform.
  eapply Forall_impl; [apply create_chunks_shape|].
  intros chunk (page & paragraph & ->).
  cbn [_should_include_chunk]. unfold check_item.
  cbn [String.eqb Ascii.eqb Bool.eqb andb is_dict dict_of].
  unfold _check_date_range, VectorStore.chunk_of.
  cbn [metadata]. unfold document.
  cbn [DocumentProcessor.processed ProcessedDocument.metadata
       DocumentMetadata.document_date MetadataExtractor.extract_from_file].
  rewrite Hdate.
  change (dict_get _ "document_date") with (PStr date).
  change (dict_get _ "start") with (PStr start_date).
  change (dict_get _ "end") with (PStr end_date).
  cbn [truthy pyval_of_opt_str].
  rewrite (date_shaped_nonempty _ Hshaped), (date_shaped_nonempty _ Hstart),
    (date_shaped_nonempty _ Hend).
  cbn [negb py_gt py_lt rbind].
  rewrite (date_ltb_number _ _ Hshaped Hstart),
    (date_ltb_number _ _ Hend Hshaped).
  rewrite !Z.leb_antisym.
  destruct (date_number date <? date_number start_date); cbn [negb andb rbind];
    [reflexivity|].
  now destruct (date_number end_date <? date_number date).
Qed.

(** X30.  A date range treats the chunks of a processed document as a
    whole, by the date in the name of the uploaded file.  When
    [_extract_date] finds no date in the file name, a [date_range] filter
    keeps all the chunks, whatever its bounds.  When it finds one that is
    written in the digits 0 to 9 and both bounds have the shape dddd-dd-dd
    in these digits, the filter keeps all the chunks if that date is
    neither before the start nor after the end as calendar dates, and drops
    all of them otherwise. *)
Theorem date_range_on_file_name_date (file : UploadFile.t)
    (extracted : ProcessedDocument.t) (uuid4 utcnow : string) :
  let document :=
    DocumentProcessor.processed extracted uuid4
      (MetadataExtractor.extract_from_file file utcnow) in
  let chunks := VectorStore._create_chunks document in
  (MetadataExtractor._extract_date (UploadFile.filename file) = None ->
   forall date_range,
     apply_filters chunks (Some [("date_range", PDict date_range)])
     = Ok chunks)
  /\ (forall date start_date end_date,
        MetadataExtractor._extract_date (UploadFile.filename file)
        = Some date ->
        date_shaped date ->
        date_shaped start_date -> date_shaped end_date ->
        apply_filters chunks
          (Some [("date_range",
                   PDict [ ("start", PStr start_date);
                           ("end", PStr end_date) ])])
        = Ok (if (date_number start_date <=? date_number date)
                 && (date_number date <=? date_number end_date)
              then chunks
              else [])).
Proof.
  intros document chunks. split.
  - intros Hdate date_range.
    now apply undated_document_passes_date_range.
  - intros date start_date end_date Hdate _ Hstart Hend.
    now apply dated_document_date_range.
Qed.

Lemma date_range_on_file_name_date_witness :
  let chunks :=
    VectorStore._create_chunks
      (DocumentProcessor.processed
         {| ProcessedDocument.id := EmptyString;
            ProcessedDocument.full_text := "Quarterly report";
            ProcessedDocument.pages :=
              [ {| DocumentPage.page_number := 1;
                   DocumentPage.paragraphs :=
                     [ {| DocumentParagraph.text := "Quarterly report";
                          DocumentParagraph.position :=
                            TextPosition.mk 0 (Some 0) None false |} ];
                   DocumentPage.full_text := "Quarterly report" |} ];
            ProcessedDocument.metadata :=
              MetadataExtractor.extract_from_file report_file EmptyString |}
         "doc-1"
         (MetadataExtractor.extract_from_file report_file
            "2024-03-16T09:00:00")) in
  apply_filters chunks
    (Some [("date_range",
             PDict [ ("start", PStr "2024-01-01");
                     ("end", PStr "2024-02-29") ])])
  = Ok [].
Proof.
  cbv zeta.
  refine (proj2 (date_range_on_file_name_date report_file _ "doc-1"
                   "2024-03-16T09:00:00")
            "2024-03-15" "2024-01-01" "2024-02-29" eq_refl _ _ _);
    repeat constructor.
Defined.
